(** * marian-dev: training coordination layer and line reader

    A shallow embedding of the control logic of
    [src/training/graph_group.cpp] (cost scaling, gradient normalisation,
    loading, checkpoint restore, model saving, parameter swapping, batch-fit
    probing) and of [marian::io::getline] from [src/common/file_stream.cpp],
    with the properties the specification states about them.

    Conventions.
    - [float] is IEEE-754 binary32, computed with the reference
      implementation of the Standard Library ([SpecFloat], precision 24,
      exponent bound 128, round to nearest even).
    - [size_t] is an unsigned 64-bit integer, held in [Z] with its
      wrap-around written out.
    - A member function that can end in [ABORT_IF] or in undefined behaviour
      returns a [Res]; stateful members thread their object explicitly. *)

From Stdlib Require Import ZArith List String Ascii Bool Lia DecimalString.
From Stdlib Require Import Floats.SpecFloat.
Import ListNotations.
Open Scope Z_scope.

(** ** Results of a call *)

(** [Done a]: the call returned [a].  [Fatal msg]: [ABORT_IF] fired, the
    process is gone.  [Thrown what]: a C++ exception left the function.
    [Undefined]: the C++ program has no defined behaviour (integer division
    by zero, null dereference, indexing past the end, a float to integer
    conversion out of range). *)
Inductive Res (A : Type) : Type :=
| Done (a : A)
| Fatal (msg : string)
| Thrown (what : string)
| Undefined.
Arguments Done {A} a.
Arguments Fatal {A} msg.
Arguments Thrown {A} what.
Arguments Undefined {A}.

Definition bindRes {A B : Type} (r : Res A) (k : A -> Res B) : Res B :=
  match r with
  | Done a => k a
  | Fatal m => Fatal m
  | Thrown m => Thrown m
  | Undefined => Undefined
  end.

(** ** size_t *)
Module SizeT.
Definition modulus : Z := 2 ^ 64.
Definition wrap (n : Z) : Z := n mod modulus.
Definition add (a b : Z) : Z := wrap (a + b).
Definition sub (a b : Z) : Z := wrap (a - b).
Definition mul (a b : Z) : Z := wrap (a * b).
Definition incr (a : Z) : Z := add a 1.
Definition inRange (n : Z) : Prop := 0 <= n < modulus.
End SizeT.

(** ** float (binary32) *)
Module F32.
Definition prec : Z := 24.
Definition emax : Z := 128.
Definition float : Type := spec_float.

Definition mul : float -> float -> float := SFmul prec emax.
Definition div : float -> float -> float := SFdiv prec emax.
Definition sub : float -> float -> float := SFsub prec emax.
Definition sqrt : float -> float := SFsqrt prec emax.
Definition eqb : float -> float -> bool := SFeqb.
Definition ltb : float -> float -> bool := SFltb.
Definition leb : float -> float -> bool := SFleb.
(** [x > y] and [x >= y]; both are false as soon as one side is NaN. *)
Definition gtb (x y : float) : bool := SFltb y x.
Definition geb (x y : float) : bool := SFleb y x.

(** Conversion of an integer ([(float)n], or the implicit conversion of a
    [size_t] operand meeting a [float] one). *)
Definition of_Z (n : Z) : float := binary_normalize prec emax n 0 false.
Definition zero : float := S754_zero false.
Definition one : float := Eval cbv in of_Z 1.
Definition two : float := Eval cbv in of_Z 2.
(** Conversion of a [bool] to [float]. *)
Definition of_bool (b : bool) : float := if b then one else zero.

(** Every value a C++ [float] variable can hold. *)
Definition valid (x : float) : bool := valid_binary prec emax x.

(** [std::ceil]: the least integral value not below [x]. *)
Definition ceil (x : float) : float :=
  match x with
  | S754_finite s m e =>
    if 0 <=? e then x
    else
      let d := 2 ^ (- e) in
      let q := Zpos m / d in
      let r := Zpos m mod d in
      if s then binary_normalize prec emax (- q) 0 true
      else binary_normalize prec emax (if r =? 0 then q else q + 1) 0 false
  | _ => x
  end.

(** [(size_t)x]: the fraction is dropped; a value that [size_t] cannot
    hold makes the conversion undefined ([None]). *)
Definition to_size_t (x : float) : option Z :=
  match x with
  | S754_zero _ => Some 0
  | S754_finite s m e =>
    let t := if 0 <=? e then Zpos m * 2 ^ e else Zpos m / 2 ^ (- e) in
    if s then (if t =? 0 then Some 0 else None)
    else if t <? SizeT.modulus then Some t else None
  | S754_infinity _ | S754_nan => None
  end.

(** Modelled from the spec: [isFinite] is declared outside the source
    files at hand; the specification reads it as "is finite", that is
    neither NaN nor infinite. *)
Definition isFinite (x : float) : bool :=
  match x with
  | S754_zero _ | S754_finite _ _ _ => true
  | S754_infinity _ | S754_nan => false
  end.
End F32.

Abbreviation float := F32.float.

(** ** Cost scaling *)
Module CostScale.

(** The three [LOG] calls of the two functions, with their arguments. *)
Inductive LogEntry : Type :=
| InfoIncreasing (nanPercent : float) (total : Z) (factor : float)
| WarnReducing (nanPercent : float) (total : Z) (factor : float)
| WarnAtMinimum (nanPercent : float) (total : Z) (factor : float).

(** The cost-scaling members of [GraphGroup]; the two counters are
    [size_t], like the [total] they are added into. *)
Record State : Type := {
  costScale_ : bool;
  costScaleFactor_ : float;
  costScaleFreq_ : Z;
  costScaleMultiplier_ : float;
  costScaleNanTolerance_ : float;
  costScaleNanRange_ : Z;
  costScaleFactorMinimum_ : float;
  noNanSeen_ : Z;
  nanSeen_ : Z;
  logged : list LogEntry
}.

Definition set_costScaleFactor_ (f : float) (g : State) : State :=
  {| costScale_ := costScale_ g;
     costScaleFactor_ := f;
     costScaleFreq_ := costScaleFreq_ g;
     costScaleMultiplier_ := costScaleMultiplier_ g;
     costScaleNanTolerance_ := costScaleNanTolerance_ g;
     costScaleNanRange_ := costScaleNanRange_ g;
     costScaleFactorMinimum_ := costScaleFactorMinimum_ g;
     noNanSeen_ := noNanSeen_ g;
     nanSeen_ := nanSeen_ g;
     logged := logged g |}.

Definition set_noNanSeen_ (n : Z) (g : State) : State :=
  {| costScale_ := costScale_ g;
     costScaleFactor_ := costScaleFactor_ g;
     costScaleFreq_ := costScaleFreq_ g;
     costScaleMultiplier_ := costScaleMultiplier_ g;
     costScaleNanTolerance_ := costScaleNanTolerance_ g;
     costScaleNanRange_ := costScaleNanRange_ g;
     costScaleFactorMinimum_ := costScaleFactorMinimum_ g;
     noNanSeen_ := n;
     nanSeen_ := nanSeen_ g;
     logged := logged g |}.

Definition set_nanSeen_ (n : Z) (g : State) : State :=
  {| costScale_ := costScale_ g;
     costScaleFactor_ := costScaleFactor_ g;
     costScaleFreq_ := costScaleFreq_ g;
     costScaleMultiplier_ := costScaleMultiplier_ g;
     costScaleNanTolerance_ := costScaleNanTolerance_ g;
     costScaleNanRange_ := costScaleNanRange_ g;
     costScaleFactorMinimum_ := costScaleFactorMinimum_ g;
     noNanSeen_ := noNanSeen_ g;
     nanSeen_ := n;
     logged := logged g |}.

Definition LOG (e : LogEntry) (g : State) : State :=
  {| costScale_ := costScale_ g;
     costScaleFactor_ := costScaleFactor_ g;
     costScaleFreq_ := costScaleFreq_ g;
     costScaleMultiplier_ := costScaleMultiplier_ g;
     costScaleNanTolerance_ := costScaleNanTolerance_ g;
     costScaleNanRange_ := costScaleNanRange_ g;
     costScaleFactorMinimum_ := costScaleFactorMinimum_ g;
     noNanSeen_ := noNanSeen_ g;
     nanSeen_ := nanSeen_ g;
     logged := logged g ++ [e] |}.

(** [GraphGroup::increaseCostScaleFactor].  The remainder by a zero
    [costScaleFreq_] is undefined. *)
Definition increaseCostScaleFactor (g : State) : Res State :=
  if negb (costScale_ g) then Done g
  else
    let g := set_noNanSeen_ (SizeT.incr (noNanSeen_ g)) g in
    let total := SizeT.add (nanSeen_ g) (noNanSeen_ g) in
    let nanPercent :=
      F32.of_bool
        (F32.eqb (F32.of_Z (noNanSeen_ g))
                 (F32.div (F32.of_Z (nanSeen_ g)) (F32.of_Z total))) in
    if costScaleFreq_ g =? 0 then Undefined
    else if noNanSeen_ g mod costScaleFreq_ g =? 0 then
      let g := set_costScaleFactor_
                 (F32.mul (costScaleFactor_ g) (costScaleMultiplier_ g)) g in
      let g := LOG (InfoIncreasing nanPercent total (costScaleFactor_ g)) g in
      let g := set_noNanSeen_ 0 g in
      let g := set_nanSeen_ 0 g in
      Done g
    else Done g.

(** The ratio the decrease path compares with the tolerance, and its
    condition, both read after [nanSeen_++]. *)
Definition total_of (g : State) : Z := SizeT.add (nanSeen_ g) (noNanSeen_ g).
Definition nanPercent_of (g : State) : float :=
  F32.div (F32.of_Z (nanSeen_ g)) (F32.of_Z (total_of g)).
Definition overThreshold (g : State) : bool :=
  (costScaleNanRange_ g <=? total_of g)
  && F32.gtb (nanPercent_of g) (costScaleNanTolerance_ g).

(** [GraphGroup::decreaseCostScaleFactor]. *)
Definition decreaseCostScaleFactor (g : State) : Res State :=
  if negb (costScale_ g) then Done g
  else
    let g := set_nanSeen_ (SizeT.incr (nanSeen_ g)) g in
    let total := total_of g in
    let nanPercent := nanPercent_of g in
    if (costScaleNanRange_ g <=? total)
       && F32.gtb nanPercent (costScaleNanTolerance_ g) then
      let g :=
        if F32.gtb (costScaleFactor_ g) (costScaleFactorMinimum_ g) then
          let g := set_costScaleFactor_
                     (F32.div (costScaleFactor_ g) (costScaleMultiplier_ g)) g in
          LOG (WarnReducing nanPercent total (costScaleFactor_ g)) g
        else
          LOG (WarnAtMinimum nanPercent total (costScaleFactor_ g)) g in
      let g := set_noNanSeen_ 0 g in
      let g := set_nanSeen_ 0 g in
      Done g
    else Done g.

(** The state right after the [nanSeen_++] of the decrease path. *)
Definition afterNanCounted (g : State) : State :=
  set_nanSeen_ (SizeT.incr (nanSeen_ g)) g.

(** One training step reports whether a NaN or Inf was seen; the caller
    picks the member accordingly. *)
Definition onStepResult (hasNanOrInf : bool) (g : State) : Res State :=
  if hasNanOrInf then decreaseCostScaleFactor g else increaseCostScaleFactor g.

Fixpoint run (outcomes : list bool) (g : State) : Res State :=
  match outcomes with
  | [] => Done g
  | o :: rest => bindRes (onStepResult o g) (run rest)
  end.

(** What the constructor leaves for the options
    [--cost-scaling 1 1000 2 0 1 1.5]:
    factor [2^1], frequency 1000, multiplier 2, tolerance 0, range 1,
    minimum 1.5. *)
Definition onePointFive : float := Eval cbv in F32.div (F32.of_Z 3) F32.two.

Definition configured_1_1000_2_0_1_1p5 : State :=
  {| costScale_ := true;
     costScaleFactor_ := F32.two;
     costScaleFreq_ := 1000;
     costScaleMultiplier_ := F32.two;
     costScaleNanTolerance_ := F32.zero;
     costScaleNanRange_ := 1;
     costScaleFactorMinimum_ := onePointFive;
     noNanSeen_ := 0;
     nanSeen_ := 0;
     logged := [] |}.

(** [--cost-scaling 0 2 2 0 4 1]: factor [2^0], frequency 2, multiplier
    2, tolerance 0, range 4, minimum 1. *)
Definition configured_0_2_2_0_4_1 : State :=
  {| costScale_ := true;
     costScaleFactor_ := F32.one;
     costScaleFreq_ := 2;
     costScaleMultiplier_ := F32.two;
     costScaleNanTolerance_ := F32.zero;
     costScaleNanRange_ := 4;
     costScaleFactorMinimum_ := F32.one;
     noNanSeen_ := 0;
     nanSeen_ := 0;
     logged := [] |}.

End CostScale.

(** ** Options and the scheduler *)

(** The entries of [options_] the modelled members read.  An option read
    with [hasAndNotEmpty] is held as a string, empty when absent. *)
Record Options : Type := {
  no_reload : bool;
  model : string;
  pretrained_model : string;
  overwrite : bool;
  normalize_gradient : bool;
  mini_batch_fit_step : Z;
  max_length : Z;
  input_types : list string;
  tsv : bool;
  tsv_fields : Z;
  guided_alignment : string;
  data_weighting : string;
  train_sets : list string
}.

Definition hasAndNotEmpty (value : string) : bool := negb (String.eqb value "").

(** A training run on one corpus pair that saves to [model.npz], does not
    reload and names a pre-trained model. *)
Definition exampleOptions : Options :=
  {| no_reload := true;
     model := "model.npz";
     pretrained_model := "pretrained.npz";
     overwrite := false;
     normalize_gradient := true;
     mini_batch_fit_step := 8;
     max_length := 16;
     input_types := [];
     tsv := false;
     tsv_fields := 0;
     guided_alignment := "none";
     data_weighting := "";
     train_sets := ["corpus.src"; "corpus.trg"]%string |}.

(** What the members read from [scheduler_]: the count of batches and the
    two running statistics, each a [(window, average, variance)] triple. *)
Record Scheduler : Type := {
  numberOfBatches : Z;
  getGradientNormStats : Z * float * float;
  getLogGradientNormStats : Z * float * float
}.

(** ** Normalisation factor *)
Module Normalization.
Import CostScale.

Record DynamicScaling : Type := {
  dynamicGradientScaling_ : bool;
  dynamicGradientScalingFactor_ : float;
  dynamicGradientScalingUseLogs_ : bool
}.

Section Libm.
(** [std::log] and [std::exp] on [float]. *)
Variables logf expf : float -> float.

(** [GraphGroup::computeNormalizationFactor].  [scheduler_] is a
    pointer; reading the statistics through a null one is undefined.
    The [LOG(debug, ...)] line is not recorded. *)
Definition computeNormalizationFactor
    (g : State) (options_ : Options) (d : DynamicScaling)
    (scheduler_ : option Scheduler)
    (gNorm : float) (updateTrgWords : Z) : Res float :=
  let normalizationFactor := F32.one in
  let normalizationFactor :=
    if costScale_ g
    then F32.mul normalizationFactor (costScaleFactor_ g)
    else normalizationFactor in
  let normalizationFactor :=
    if normalize_gradient options_
    then F32.mul normalizationFactor (F32.of_Z updateTrgWords)
    else normalizationFactor in
  if negb (F32.isFinite gNorm) then Done normalizationFactor
  else if dynamicGradientScaling_ d then
    let gNorm :=
      if costScale_ g then F32.div gNorm (costScaleFactor_ g) else gNorm in
    let gNorm := F32.div gNorm (F32.of_Z updateTrgWords) in
    match scheduler_ with
    | None => Undefined
    | Some sch =>
      let '(window, gNormAvgTransform, gNormVarTransform) :=
        if dynamicGradientScalingUseLogs_ d
        then getLogGradientNormStats sch
        else getGradientNormStats sch in
      let gNormTransform :=
        if dynamicGradientScalingUseLogs_ d then logf gNorm else gNorm in
      let gNormAvg :=
        if dynamicGradientScalingUseLogs_ d
        then expf gNormAvgTransform
        else gNormAvgTransform in
      let deltaTransform := F32.sub gNormTransform gNormAvgTransform in
      let gNormStdTransform := F32.sqrt gNormVarTransform in
      if (window <=? numberOfBatches sch)
         && F32.gtb deltaTransform
              (F32.mul (dynamicGradientScalingFactor_ d) gNormStdTransform)
      then Done (F32.mul normalizationFactor (F32.div gNorm gNormAvg))
      else Done normalizationFactor
    end
  else Done normalizationFactor.
End Libm.

(** The two terms of the product the specification names. *)
Definition costScaleTerm (g : State) : float :=
  if costScale_ g then costScaleFactor_ g else F32.one.
Definition tokenCountTerm (options_ : Options) (updateTrgWords : Z) : float :=
  if normalize_gradient options_ then F32.of_Z updateTrgWords else F32.one.

Definition noDynamicScaling : DynamicScaling :=
  {| dynamicGradientScaling_ := false;
     dynamicGradientScalingFactor_ := F32.two;
     dynamicGradientScalingUseLogs_ := false |}.

End Normalization.

(** ** Checkpoint items and replicas *)
Module io.
Definition Shape : Type := list Z.
(** The element type of an item or a tensor.  The enumeration is declared
    outside the source files at hand; three floating types stand for it. *)
Inductive Type_ : Type := float16 | float32 | float64.
Definition Data : Type := list Z.

Record Item : Type := {
  name : string;
  shape : Shape;
  type : Type_;
  bytes : Data
}.

Definition Type_eqb (a b : Type_) : bool :=
  match a, b with
  | float16, float16 | float32, float32 | float64, float64 => true
  | _, _ => false
  end.

Fixpoint Shape_eqb (a b : Shape) : bool :=
  match a, b with
  | [], [] => true
  | x :: a', y :: b' => (x =? y) && Shape_eqb a' b'
  | _, _ => false
  end.
End io.

(** ** Loading, checkpoint restore, saving and swapping *)
Module Checkpoint.

(** A replica, by what the members read of it: its backend and the shape
    and element type of [graph->params()->vals()] once [forward] has
    allocated the parameters. *)
Record ExpressionGraph : Type := {
  getBackend : nat;
  vals_shape : io.Shape;
  vals_type : io.Type_
}.

(** The collaborators behind [models_] and [optimizerShards_] are
    pointers to objects of other files; a handle stands for each. *)
Inductive ModelHandle : Type := model_ (id : nat).
Inductive OptimizerHandle : Type := optimizer_ (id : nat).

Record GraphGroup : Type := {
  graphs_ : list ExpressionGraph;
  models_ : list ModelHandle;
  optimizerShards_ : list OptimizerHandle;
  scheduler_ : option Scheduler
}.

(** [filesystem::exists] and [io::loadItems]. *)
Record FileSystem : Type := {
  filesystem_exists : string -> bool;
  loadItems : string -> list io.Item
}.

Inductive Level : Type := info | warn | debug.

(** Every call that leaves the modelled file, in program order.  Replicas
    are named by their index in [graphs_]; an optional argument is [None]
    when the call leaves it to the default of the declaration. *)
Inductive Event : Type :=
| LOG (level : Level) (message : string)
| SchedulerLoad (name : string)
| SchedulerSave (name : string)
| ModelLoad (m : ModelHandle) (graph : nat) (name : string)
            (markReloaded : option bool)
| ModelSave (m : ModelHandle) (graph : nat) (name : string)
            (saveTranslatorConfig : option bool)
| OptimizerLoad (o : OptimizerHandle) (items : list io.Item)
                (opts : list OptimizerHandle) (backends : list nat)
| Forward (graph : nat)
| ParamsSet (graph : nat) (item : io.Item)
| Clear (graph : nat)
| ShardSwapWithSmoothed (o : OptimizerHandle) (graph : nat) (i n : Z)
                        (swapAvg : bool)
| Distribute.

(** A member's run: the calls it made, and how it ended. *)
Definition M (A : Type) : Type := (list Event * Res A)%type.

Definition ret {A : Type} (a : A) : M A := ([], Done a).

Definition bind {A B : Type} (m : M A) (k : A -> M B) : M B :=
  match m with
  | (t, Done a) => let '(t', r) := k a in (t ++ t', r)
  | (t, Fatal msg) => (t, Fatal msg)
  | (t, Thrown what) => (t, Thrown what)
  | (t, Undefined) => (t, Undefined)
  end.

Definition emit (e : Event) : M unit := ([e], Done tt).
Definition ABORT_IF (cond : bool) (msg : string) : M unit :=
  ([], if cond then Fatal msg else Done tt).
Definition throw {A : Type} (what : string) : M A := ([], Thrown what).
Definition undefined {A : Type} : M A := ([], Undefined).
Definition when (cond : bool) (m : M unit) : M unit :=
  if cond then m else ret tt.

Declare Scope member_scope.
Delimit Scope member_scope with member.
Notation "x <- m ;; k" := (bind m (fun x => k))
  (at level 61, m at next level, right associativity) : member_scope.
Notation "m ;; k" := (bind m (fun _ => k))
  (at level 61, right associativity) : member_scope.
Local Open Scope member_scope.

(** A pointer tested as a condition. *)
Definition notNull {A : Type} (p : option A) : bool :=
  match p with
  | Some _ => true
  | None => false
  end.

(** [v[i]] on a [std::vector]; past the end it is undefined. *)
Definition at_ {A : Type} (v : list A) (i : nat) : M A :=
  match nth_error v i with
  | Some a => ret a
  | None => undefined
  end.

(** [std::string::replace(pos, len, str)]. *)
Definition string_replace (s : string) (pos len : Z) (str : string)
  : M string :=
  let size := Z.of_nat (String.length s) in
  if size <? pos then throw "basic_string::replace"
  else
    let len := Z.min len (size - pos) in
    ret (substring 0 (Z.to_nat pos) s
         ++ str
         ++ substring (Z.to_nat (pos + len)) (Z.to_nat (size - pos - len)) s)%string.

(** [std::to_string] on a [size_t]. *)
Definition to_string (n : Z) : string :=
  DecimalString.NilZero.string_of_uint (N.to_uint (Z.to_N n)).

Section Members.
(** [io::Item::convert] re-encodes the bytes for the new type. *)
Variable convertBytes : io.Type_ -> io.Type_ -> io.Data -> io.Data.

Definition convert (item : io.Item) (t : io.Type_) : io.Item :=
  {| io.name := io.name item;
     io.shape := io.shape item;
     io.type := t;
     io.bytes := convertBytes (io.type item) t (io.bytes item) |}.

Variable fs : FileSystem.
Variable options_ : Options.
Variable this : GraphGroup.

(** [for(auto graph : graphs_) models_[i++]->load(graph, file, ...)],
    over the replicas not yet visited. *)
Fixpoint loadReplicas (graphs : list ExpressionGraph) (i : nat)
    (file : string) (markReloaded : option bool) : M unit :=
  match graphs with
  | [] => ret tt
  | _ :: graphs' =>
    m <- at_ (models_ this) i ;;
    emit (ModelLoad m i file markReloaded) ;;
    loadReplicas graphs' (S i) file markReloaded
  end.

(** The loop of [restoreFromCheckpoint] over the replicas not yet
    visited; [masterParameters] is a reference into [items], so a
    conversion done for one replica is seen by the next. *)
Fixpoint restoreReplicas (graphs : list ExpressionGraph) (i : nat)
    (masterParameters : io.Item) : M unit :=
  match graphs with
  | [] => ret tt
  | graph :: graphs' =>
    emit (Forward i) ;;
    ABORT_IF (negb (io.Shape_eqb (vals_shape graph)
                                 (io.shape masterParameters)))
      "Graph parameter sizes and master copy parameter sizes in checkpoint do not match" ;;
    let masterParameters :=
      if negb (io.Type_eqb (io.type masterParameters) (vals_type graph))
      then convert masterParameters (vals_type graph)
      else masterParameters in
    emit (ParamsSet i masterParameters) ;;
    emit (Clear i) ;;
    restoreReplicas graphs' (S i) masterParameters
  end.

(** [GraphGroup::restoreFromCheckpoint]. *)
Definition restoreFromCheckpoint : M unit :=
  let name := model options_ in
  let checkpointName := (name ++ ".optimizer.npz")%string in
  if negb (filesystem_exists fs checkpointName) then
    emit (LOG warn "No checkpoint found, parameters reloaded from last inference model")
  else
    let items := loadItems fs checkpointName in
    let backends := map getBackend (graphs_ this) in
    shard0 <- at_ (optimizerShards_ this) 0 ;;
    emit (OptimizerLoad shard0 items (optimizerShards_ this) backends) ;;
    let found :=
      find (fun item => String.eqb (io.name item) "master_parameters") items in
    match found with
    | None =>
      emit (LOG warn "No master parameters found in checkpoint, parameters reloaded from last inference model")
    | Some masterParameters =>
      restoreReplicas (graphs_ this) 0 masterParameters ;;
      emit (LOG info "[training] Master parameters and optimizers restored from training checkpoint {} and {}")
    end.

(** [GraphGroup::load]. *)
Definition load : M unit :=
  if negb (no_reload options_) then
    let name := model options_ in
    if filesystem_exists fs name then
      when (notNull (scheduler_ this))
           (emit (SchedulerLoad name)) ;;
      let nameGraph := name in
      loadReplicas (graphs_ this) 0 nameGraph None ;;
      restoreFromCheckpoint
    else if hasAndNotEmpty (pretrained_model options_) then
      let nameInit := pretrained_model options_ in
      emit (LOG info "[training] Initializing model weights with pre-trained model {}") ;;
      loadReplicas (graphs_ this) 0 nameInit (Some false)
    else ret tt
  else ret tt.

(** [GraphGroup::saveModel]. *)
Definition saveModel (isFinal : bool) : M unit :=
  let name := model options_ in
  if overwrite options_ then
    m <- at_ (models_ this) 0 ;;
    _ <- at_ (graphs_ this) 0 ;;
    emit (ModelSave m 0 name (Some true)) ;;
    when (notNull (scheduler_ this))
         (emit (SchedulerSave name))
  else
    when (negb isFinal)
         (let numberOfBatches :=
            match scheduler_ this with
            | Some sch => to_string (numberOfBatches sch)
            | None => "unknown"%string
            end in
          let nameOverwrite := name in
          nameOverwrite <-
            string_replace nameOverwrite
              (SizeT.sub (Z.of_nat (String.length name)) 4) 4
              (".iter" ++ numberOfBatches ++ ".npz")%string ;;
          m <- at_ (models_ this) 0 ;;
          _ <- at_ (graphs_ this) 0 ;;
          emit (ModelSave m 0 nameOverwrite None)) ;;
    m <- at_ (models_ this) 0 ;;
    _ <- at_ (graphs_ this) 0 ;;
    emit (ModelSave m 0 name (Some true)) ;;
    when (notNull (scheduler_ this))
         (emit (SchedulerSave name)).
End Members.

(** The loop shared by the two swaps:
    [opts[i]->swapWithSmoothed(graphs[i], i, graphs.size(), swapAvg)] for
    the indices from [i] on. *)
Fixpoint swapEach (graphs : list ExpressionGraph)
    (opts : list OptimizerHandle) (count : nat) (i : nat) (size : nat)
    (swapAvg : bool) : M unit :=
  match count with
  | O => ret tt
  | S count' =>
    o <- at_ opts i ;;
    _ <- at_ graphs i ;;
    emit (ShardSwapWithSmoothed o i (Z.of_nat i) (Z.of_nat size) swapAvg) ;;
    swapEach graphs opts count' (S i) size swapAvg
  end.

(** [GraphGroup::swapWithSmoothed]. *)
Definition swapWithSmoothed (graphs : list ExpressionGraph)
    (opts : list OptimizerHandle) : M unit :=
  ABORT_IF (negb (List.length graphs =? List.length opts)%nat)
    "Number of graphs and optimizers has to be equal ({} != {})" ;;
  swapEach graphs opts (List.length graphs) 0 (List.length graphs) true ;;
  emit Distribute.

(** [GraphGroup::swapWithOriginal]. *)
Definition swapWithOriginal (graphs : list ExpressionGraph)
    (opts : list OptimizerHandle) : M unit :=
  ABORT_IF (negb (List.length graphs =? List.length opts)%nat)
    "Number of graphs and optimizers has to be equal ({} != {})" ;;
  swapEach graphs opts (List.length graphs) 0 (List.length graphs) false ;;
  emit Distribute.

(** The trace of a swap that passes its check: one call per shard, in
    order, then the distribution. *)
Definition swapTrace (opts : list OptimizerHandle) (swapAvg : bool)
  : list Event :=
  map (fun i => ShardSwapWithSmoothed (nth i opts (optimizer_ 0)) i
                  (Z.of_nat i) (Z.of_nat (List.length opts)) swapAvg)
      (seq 0 (List.length opts))
  ++ [Distribute].

(** The two writes every save ends with. *)
Definition canonicalWrites (options_ : Options) (this : GraphGroup)
    (m : ModelHandle) : list Event :=
  ModelSave m 0 (model options_) (Some true)
  :: (if notNull (scheduler_ this) then [SchedulerSave (model options_)] else []).

Definition isParamsSet (e : Event) : bool :=
  match e with
  | ParamsSet _ _ => true
  | _ => false
  end.

(** A group of two replicas of one model, with a scheduler that has seen
    five batches. *)
Definition exampleReplica (device : nat) : ExpressionGraph :=
  {| getBackend := device; vals_shape := [1; 10]; vals_type := io.float32 |}.

Definition exampleScheduler : Scheduler :=
  {| numberOfBatches := 5;
     getGradientNormStats := (100, F32.one, F32.one);
     getLogGradientNormStats := (100, F32.zero, F32.one) |}.

Definition exampleGroup : GraphGroup :=
  {| graphs_ := [exampleReplica 0; exampleReplica 1];
     models_ := [model_ 0; model_ 1];
     optimizerShards_ := [optimizer_ 0; optimizer_ 1];
     scheduler_ := Some exampleScheduler |}.

Definition keepBytes (from to : io.Type_) (d : io.Data) : io.Data := d.

(** File systems: an empty one, and one that holds [model.npz] and a
    checkpoint with the given items next to it. *)
Definition noFiles : FileSystem :=
  {| filesystem_exists := fun _ => false; loadItems := fun _ => [] |}.

Definition withCheckpoint (items : list io.Item) : FileSystem :=
  {| filesystem_exists := fun file =>
       String.eqb file "model.npz" || String.eqb file "model.npz.optimizer.npz";
     loadItems := fun file =>
       if String.eqb file "model.npz.optimizer.npz" then items else [] |}.

Definition adamMoments : io.Item :=
  {| io.name := "adam_mt"; io.shape := [1; 10]; io.type := io.float32;
     io.bytes := [0; 0; 0; 0] |}.

Definition widerMaster : io.Item :=
  {| io.name := "master_parameters"; io.shape := [1; 20];
     io.type := io.float32; io.bytes := [1; 2; 3; 4] |}.

Definition reloadingOptions : Options :=
  {| no_reload := false;
     model := "model.npz";
     pretrained_model := "pretrained.npz";
     overwrite := false;
     normalize_gradient := true;
     mini_batch_fit_step := 8;
     max_length := 16;
     input_types := [];
     tsv := false;
     tsv_fields := 0;
     guided_alignment := "none";
     data_weighting := "";
     train_sets := ["corpus.src"; "corpus.trg"]%string |}.

End Checkpoint.

(** ** Batch-fit probing *)
Module BatchFit.

(** [GraphGroup::numberOfInputFiles]. *)
Definition numberOfInputFiles (options_ : Options) : Z :=
  if tsv options_ then
    let n := tsv_fields options_ in
    let n :=
      if (0 <? n) && negb (String.eqb (guided_alignment options_) "none")
      then SizeT.sub n 1 else n in
    let n :=
      if (0 <? n) && hasAndNotEmpty (data_weighting options_)
      then SizeT.sub n 1 else n in
    n
  else Z.of_nat (List.length (train_sets options_)).

(** [(size_t)(std::ceil(maxLength / (float)step) * step)]. *)
Definition roundUpMaxLength (maxLength step : Z) : option Z :=
  F32.to_size_t
    (F32.mul (F32.ceil (F32.div (F32.of_Z maxLength) (F32.of_Z step)))
             (F32.of_Z step)).

(** [v[i] = x] on a vector known to hold index [i]. *)
Fixpoint assign (i : nat) (x : Z) (v : list Z) : list Z :=
  match v, i with
  | [], _ => []
  | _ :: v', O => x :: v'
  | y :: v', S i' => y :: assign i' x v'
  end.

(** The loop that caps the streams of type ["class"] at length 1, from
    index [i] on; writing past the end of [localMaxes] is undefined. *)
Fixpoint restrictClasses (inputTypes : list string) (i : nat)
    (localMaxes : list Z) : Res (list Z) :=
  match inputTypes with
  | [] => Done localMaxes
  | t :: rest =>
    if String.eqb t "class" then
      if (i <? List.length localMaxes)%nat
      then restrictClasses rest (S i) (assign i 1 localMaxes)
      else Undefined
    else restrictClasses rest (S i) localMaxes
  end.

(** One entry per [stats->add(batch, multiplier)]: the lengths and the
    size of the batch that fitted. *)
Definition Stats : Type := list (list Z * Z).

Section Probe.
(** The answer of [graph->fits()] after building the model on a fake
    batch: it may depend on how many probes came before, on the
    lengths and on the batch size. *)
Variable fits : nat -> list Z -> Z -> bool.
Variable step : Z.
Variable localMaxes : list Z.

(** [while(fits) { ... if(fits) maxBatch *= 2; }]; [None] when the
    [fuel] iterations were not enough. *)
Fixpoint growMaxBatch (fuel : nat) (probes : nat) (first maxBatch : Z)
  : option (nat * Z) :=
  match fuel with
  | O => None
  | S fuel' =>
    let lengths := map (Z.min first) localMaxes in
    if fits probes lengths maxBatch
    then growMaxBatch fuel' (S probes) first (SizeT.mul maxBatch 2)
    else Some (S probes, maxBatch)
  end.

(** [do { ... } while(end - start > step)]. *)
Fixpoint searchBucket (fuel : nat) (probes : nat) (lengths : list Z)
    (start end_ : Z) (stats : Stats) : option (nat * Z * Z * Stats) :=
  match fuel with
  | O => None
  | S fuel' =>
    let current := SizeT.add start end_ / 2 in
    let fit := fits probes lengths current in
    let stats := if fit then stats ++ [(lengths, current)] else stats in
    let start := if fit then SizeT.add current 1 else start in
    let end_ := if fit then end_ else SizeT.sub current 1 in
    if step <? SizeT.sub end_ start
    then searchBucket fuel' (S probes) lengths start end_ stats
    else Some (S probes, start, end_, stats)
  end.

(** [for(size_t i = step; i <= maxLength; i += step)], from [i] on;
    every bucket's search gets [searchFuel] iterations. *)
Fixpoint forBuckets (searchFuel fuel : nat) (probes : nat)
    (i maxLength maxBatch : Z) (stats : Stats) : option (nat * Z * Stats) :=
  match fuel with
  | O => None
  | S fuel' =>
    if i <=? maxLength then
      let start := 1 in
      let end_ := maxBatch in
      let lengths := map (Z.min i) localMaxes in
      match searchBucket searchFuel probes lengths start end_ stats with
      | None => None
      | Some (probes, start, _, stats) =>
        let maxBatch := start in
        forBuckets searchFuel fuel' probes (SizeT.add i step) maxLength
                   maxBatch stats
      end
    else Some (probes, maxBatch, stats)
  end.
End Probe.

(** [GraphGroup::collectStats]: the statistics and the throw-on-NaN
    setting the graph is left with.  [None] when some loop was still
    running after [fuel] iterations. *)
Definition collectStats (fuel : nat) (options_ : Options)
    (fits : nat -> list Z -> Z -> bool) (getThrowNaN : bool)
  : option (Res (Stats * bool)) :=
  let throwNan := getThrowNaN in
  let numFiles := numberOfInputFiles options_ in
  let first := mini_batch_fit_step options_ in
  let step := mini_batch_fit_step options_ in
  match roundUpMaxLength (max_length options_) step with
  | None => Some Undefined
  | Some maxLength =>
    match restrictClasses (input_types options_) 0
                          (repeat maxLength (Z.to_nat numFiles)) with
    | Done localMaxes =>
      let maxBatch := 512 in
      match growMaxBatch fits localMaxes fuel 0 first maxBatch with
      | None => None
      | Some (probes, maxBatch) =>
        match forBuckets fits step localMaxes fuel fuel probes step
                         maxLength maxBatch [] with
        | None => None
        | Some (_, _, stats) => Some (Done (stats, throwNan))
        end
      end
    | _ => Some Undefined
    end
  end.

(** Three engines: one that every batch fits, one that none fits, one
    that batches of up to [cap] sentences fit. *)
Definition alwaysFits : nat -> list Z -> Z -> bool := fun _ _ _ => true.
Definition neverFits : nat -> list Z -> Z -> bool := fun _ _ _ => false.
Definition fitsUpTo (cap : Z) : nat -> list Z -> Z -> bool :=
  fun _ _ size => size <=? cap.

(** The batch sizes the doubling phase tries, one after the other. *)
Definition doubled (n : nat) (maxBatch : Z) : Z :=
  Nat.iter n (fun b => SizeT.mul b 2) maxBatch.

End BatchFit.

(** ** Reading lines *)
Module FileStream.

(** What the stream buffer still has to give: characters, then the end
    of the file or a read error. *)
Inductive Source : Type :=
| Eof
| ReadError
| Chr (c : ascii) (rest : Source).

Record istream : Type := {
  rdbuf : Source;
  eofbit : bool;
  failbit : bool;
  badbit : bool
}.

Definition good (s : istream) : bool :=
  negb (eofbit s || failbit s || badbit s).
Definition bad (s : istream) : bool := badbit s.
Definition fail (s : istream) : bool := failbit s || badbit s.
(** The stream tested as a condition: [!fail()]. *)
Definition to_bool (s : istream) : bool := negb (fail s).

Definition LF : ascii := Ascii.ascii_of_nat 10.
Definition CR : ascii := Ascii.ascii_of_nat 13.

Inductive Stop : Type := AtDelimiter | AtEof | AtError.

(** Characters are moved from the buffer to the line up to the first
    line feed, which is taken from the buffer and dropped. *)
Fixpoint extract (src : Source) (line : list ascii)
  : Source * list ascii * Stop :=
  match src with
  | Eof => (Eof, line, AtEof)
  | ReadError => (ReadError, line, AtError)
  | Chr c rest =>
    if Ascii.eqb c LF then (rest, line, AtDelimiter)
    else extract rest (line ++ [c])
  end.

(** [std::getline(in, line)] of the C++ library: a stream that is not
    good gets [failbit] and the line is left alone; otherwise the line
    is erased and filled, [eofbit] is set at the end of the file (with
    [failbit] when nothing at all was taken), [badbit] on a read
    error. *)
Definition std_getline (s : istream) (line : list ascii)
  : istream * list ascii :=
  if negb (good s) then
    ({| rdbuf := rdbuf s; eofbit := eofbit s; failbit := true;
        badbit := badbit s |}, line)
  else
    match extract (rdbuf s) [] with
    | (rest, line', AtDelimiter) =>
      ({| rdbuf := rest; eofbit := false; failbit := false;
          badbit := false |}, line')
    | (rest, line', AtEof) =>
      ({| rdbuf := rest; eofbit := true;
          failbit := match line' with [] => true | _ => false end;
          badbit := false |}, line')
    | (rest, line', AtError) =>
      ({| rdbuf := rest; eofbit := false; failbit := false;
          badbit := true |}, line')
    end.

(** [line.back()] and [line.pop_back()] on a line known not to be
    empty. *)
Definition back (line : list ascii) : ascii := List.last line Ascii.zero.
Definition pop_back (line : list ascii) : list ascii := List.removelast line.
Definition empty (line : list ascii) : bool :=
  match line with
  | [] => true
  | _ => false
  end.

(** [marian::io::getline]. *)
Definition getline (in_ : istream) (line : list ascii)
  : Res (istream * list ascii) :=
  let '(in_, line) := std_getline in_ line in
  if bad in_ then Fatal "Error reading from stream"
  else if to_bool in_ && negb (empty line) && Ascii.eqb (back line) CR
  then Done (in_, pop_back line)
  else Done (in_, line).

(** A fresh stream over the given characters. *)
Fixpoint sourceOf (chars : list ascii) : Source :=
  match chars with
  | [] => Eof
  | c :: rest => Chr c (sourceOf rest)
  end.

Definition streamOf (chars : list ascii) : istream :=
  {| rdbuf := sourceOf chars; eofbit := false; failbit := false;
     badbit := false |}.

End FileStream.

(** ** Gradient check *)
Module GradientCheck.

Section Gradients.
(** The gradient tensor and the three kernels the member calls on it:
    [subtensor], [IsNaN] (which reports a NaN and an Inf flag) and
    [L2Norm]. *)
Variable Tensor : Type.
Variable subtensor : Tensor -> Z -> Z -> Tensor.
Variable IsNaN : Tensor -> bool * bool.
Variable L2Norm : Tensor -> float.

Definition quiet_NaN : float := S754_nan.

(** [GraphGroup::checkNanOrNorm]; [grads] holds
    [graphs_[i]->params()->grads()] for every replica.  The
    [LOG(debug, ...)] line is not recorded. *)
Definition checkNanOrNorm (checkGradientNan_ : bool) (g : CostScale.State)
    (d : Normalization.DynamicScaling) (grads : list Tensor)
    (i : nat) (begin end_ : Z) : Res float :=
  match nth_error grads i with
  | None => Undefined
  | Some grad =>
    let curGrad := subtensor grad begin (SizeT.sub end_ begin) in
    let found :=
      if checkGradientNan_ || CostScale.costScale_ g then
        let '(hasNan, hasInf) := IsNaN curGrad in
        hasNan || hasInf
      else false in
    if found then Done quiet_NaN
    else if Normalization.dynamicGradientScaling_ d then
      let gNorm := L2Norm curGrad in
      if F32.isFinite gNorm && F32.gtb gNorm F32.zero
      then Done gNorm
      else Done quiet_NaN
    else Done F32.zero
  end.
End Gradients.

End GradientCheck.

(** ** Saving *)
Module Saving.
Import Checkpoint.

(** The calls of [save] and [saveCheckpoint], in program order: those of
    the members modelled above, and the barrier, the final validation, the
    optimizer's own save and [io::saveItems]. *)
Inductive Step : Type :=
| Call (e : Event)
| Barrier
| Validate (isFinal : bool)
| OptimizerSave (o : OptimizerHandle) (opts : list OptimizerHandle)
| SaveItems (name : string) (items : list io.Item).

Definition Run (A : Type) : Type := (list Step * Res A)%type.

Definition retS {A : Type} (a : A) : Run A := ([], Done a).

Definition bindS {A B : Type} (m : Run A) (k : A -> Run B) : Run B :=
  match m with
  | (t, Done a) => let '(t', r) := k a in (t ++ t', r)
  | (t, Fatal msg) => (t, Fatal msg)
  | (t, Thrown what) => (t, Thrown what)
  | (t, Undefined) => (t, Undefined)
  end.

Definition step (e : Step) : Run unit := ([e], Done tt).
Definition whenS (cond : bool) (m : Run unit) : Run unit :=
  if cond then m else retS tt.

(** A member modelled above, called from here. *)
Definition call {A : Type} (m : M A) : Run A := (map Call (fst m), snd m).

Section Members.
Variable options_ : Options.
Variable this : GraphGroup.
(** What [optimizerShards_[0]->save] leaves in [items], and the bytes
    [graphs_[i]->params()->vals()] holds. *)
Variable gathered : list io.Item.
Variable valsBytes : nat -> io.Data.

(** [Tensor::get(item, name)] on the parameters of replica [i]. *)
Definition getItem (i : nat) (graph : ExpressionGraph) (name : string)
  : io.Item :=
  {| io.name := name;
     io.shape := vals_shape graph;
     io.type := vals_type graph;
     io.bytes := valsBytes i |}.

(** [GraphGroup::saveCheckpoint]. *)
Definition saveCheckpoint : Run unit :=
  let name := model options_ in
  let checkpointName := (name ++ ".optimizer.npz")%string in
  bindS (call (at_ (optimizerShards_ this) 0)) (fun shard0 =>
  bindS (step (OptimizerSave shard0 (optimizerShards_ this))) (fun _ =>
  let items := gathered in
  let found :=
    find (fun item => String.eqb (io.name item) "master_parameters") items in
  bindS
    (match found with
     | None =>
       bindS (call (at_ (graphs_ this) 0)) (fun graph0 =>
       let masterParameters := getItem 0 graph0 "master_parameters" in
       retS (items ++ [masterParameters]))
     | Some _ => retS items
     end) (fun items =>
  bindS (step (Call (LOG info "[training] Saving training checkpoint to {} and {}")))
        (fun _ =>
  step (SaveItems checkpointName items))))).

(** [GraphGroup::save]. *)
Definition save (isFinal isMainProcess : bool) : Run unit :=
  bindS (step Barrier) (fun _ =>
  bindS
    (whenS isMainProcess
       (bindS (call (swapWithSmoothed (graphs_ this) (optimizerShards_ this)))
              (fun _ =>
        bindS (whenS (isFinal && notNull (scheduler_ this))
                     (step (Validate isFinal))) (fun _ =>
        bindS (step Barrier) (fun _ =>
        bindS (call (saveModel options_ this isFinal)) (fun _ =>
        bindS (call (swapWithOriginal (graphs_ this) (optimizerShards_ this)))
              (fun _ =>
        saveCheckpoint))))))) (fun _ =>
  step Barrier)).
End Members.

(** The items [saveCheckpoint] hands to [io::saveItems]. *)
Definition savedItems (trace : list Step) : list (string * list io.Item) :=
  flat_map (fun e => match e with
                     | SaveItems name items => [(name, items)]
                     | _ => []
                     end) trace.

(** The file system once [io::saveItems(name, items)] has run. *)
Definition afterSaveItems (fs : FileSystem) (name : string)
    (items : list io.Item) : FileSystem :=
  {| filesystem_exists := fun file =>
       String.eqb file name || filesystem_exists fs file;
     loadItems := fun file =>
       if String.eqb file name then items else loadItems fs file |}.

(** Whether a step writes a file. *)
Definition writes (e : Step) : bool :=
  match e with
  | Call (ModelSave _ _ _ _) | Call (SchedulerSave _) | SaveItems _ _ => true
  | _ => false
  end.

End Saving.

(** ** Facts read off traces *)
Module Traces.
Import Checkpoint.

(** The replicas whose parameters a run has overwritten, in order. *)
Definition setTargets (trace : list Event) : list nat :=
  flat_map (fun e => match e with
                     | ParamsSet graph _ => [graph]
                     | _ => []
                     end) trace.

(** The calls of one round of the restore loop. *)
Definition restoreRound (item : io.Item) (i : nat) : list Event :=
  [Forward i; ParamsSet i item; Clear i].

(** The item a replica of type [t] is set from. *)
Definition settled
    (convertBytes : io.Type_ -> io.Type_ -> io.Data -> io.Data)
    (item : io.Item) (t : io.Type_) : io.Item :=
  if io.Type_eqb (io.type item) t then item else convert convertBytes item t.

(** One [ModelLoad] per replica from index [i] on. *)
Definition loadTrace (models : list ModelHandle) (i count : nat)
    (file : string) (markReloaded : option bool) : list Event :=
  map (fun j => ModelLoad (nth j models (model_ 0)) j file markReloaded)
      (seq i count).

End Traces.

(** ** The input stream and the temporary file *)
Module InputFileStream.
Import FileStream.

(** [std::istream::peek] of the C++ library: [None] stands for
    [traits_type::eof()].  A stream that is not good gets [failbit]; at
    the end of the file [eofbit] is set, on a read error [badbit]. *)
Definition peek (s : istream) : option ascii * istream :=
  if negb (good s) then
    (None, {| rdbuf := rdbuf s; eofbit := eofbit s; failbit := true;
              badbit := badbit s |})
  else
    match rdbuf s with
    | Chr c _ => (Some c, s)
    | Eof =>
      (None, {| rdbuf := rdbuf s; eofbit := true; failbit := failbit s;
                badbit := badbit s |})
    | ReadError =>
      (None, {| rdbuf := rdbuf s; eofbit := eofbit s; failbit := failbit s;
                badbit := true |})
    end.

(** [InputFileStream::empty]. *)
Definition empty (s : istream) : bool * istream :=
  let '(c, s) := peek s in
  (match c with None => true | Some _ => false end, s).

(** [n] calls of [getline] in a row, each into the line of the one
    before; the lines come back in order with the stream left behind. *)
Fixpoint getlines (n : nat) (in_ : istream) (line : list ascii)
  : Res (list (list ascii) * istream) :=
  match n with
  | O => Done ([], in_)
  | S n' =>
    bindRes (getline in_ line) (fun '(in', line') =>
    bindRes (getlines n' in' line') (fun '(lines, out) =>
    Done (line' :: lines, out)))
  end.

(** A text: every line followed by the given line ending. *)
Definition text (ending : list ascii) (lines : list (list ascii))
  : list ascii :=
  flat_map (fun l => l ++ ending) lines.

Definition hasLF (l : list ascii) : bool := existsb (Ascii.eqb LF) l.
Definition endsInCR (l : list ascii) : bool :=
  match rev l with
  | c :: _ => Ascii.eqb c CR
  | [] => false
  end.

End InputFileStream.

Module TemporaryFile.

(** [base[base.size() - 1]] on a string known not to be empty. *)
Definition lastChar (base : string) : option ascii :=
  String.get (String.length base - 1) base.

(** [TemporaryFile::NormalizeTempPrefix], the branch compiled without
    [_MSC_VER]; the string passed by reference is returned.  [stat]
    answers [None] when the call fails, else whether the path is a
    directory. *)
Definition NormalizeTempPrefix (stat : string -> option bool)
    (base : string) : string :=
  if String.eqb base "" then base
  else
    match lastChar base with
    | Some c =>
      if Ascii.eqb c "/" then base
      else
        match stat base with
        | None => base
        | Some isDir => if isDir then (base ++ "/")%string else base
        end
    | None => base
    end.

End TemporaryFile.

(** ** Values for the examples *)
Module Examples.

Definition dynamicLinear : Normalization.DynamicScaling :=
  {| Normalization.dynamicGradientScaling_ := true;
     Normalization.dynamicGradientScalingFactor_ := F32.two;
     Normalization.dynamicGradientScalingUseLogs_ := false |}.

Definition dynamicLog : Normalization.DynamicScaling :=
  {| Normalization.dynamicGradientScaling_ := true;
     Normalization.dynamicGradientScalingFactor_ := F32.two;
     Normalization.dynamicGradientScalingUseLogs_ := true |}.

(** Gradients of one number each: a slice is the gradient itself, its
    norm is that number, and it is flagged when the number is not
    finite. *)
Definition wholeSlice (t : float) (begin size : Z) : float := t.
Definition flagNonFinite (t : float) : bool * bool :=
  (negb (F32.isFinite t), false).
Definition flagNothing (t : float) : bool * bool := (false, false).
Definition ownNorm (t : float) : float := t.

(** A master copy of the replicas' shape, held in half precision. *)
Definition halfMaster : io.Item :=
  {| io.name := "master_parameters"; io.shape := [1; 10];
     io.type := io.float16; io.bytes := [1; 2] |}.

(** A group whose second replica is wider than the first. *)
Definition wideReplica : Checkpoint.ExpressionGraph :=
  {| Checkpoint.getBackend := 1; Checkpoint.vals_shape := [1; 20];
     Checkpoint.vals_type := io.float32 |}.

Definition unevenGroup : Checkpoint.GraphGroup :=
  {| Checkpoint.graphs_ := [Checkpoint.exampleReplica 0; wideReplica];
     Checkpoint.models_ := [Checkpoint.model_ 0; Checkpoint.model_ 1];
     Checkpoint.optimizerShards_ :=
       [Checkpoint.optimizer_ 0; Checkpoint.optimizer_ 1];
     Checkpoint.scheduler_ := Some Checkpoint.exampleScheduler |}.

(** A group with two replicas and one model. *)
Definition oneModelGroup : Checkpoint.GraphGroup :=
  {| Checkpoint.graphs_ :=
       [Checkpoint.exampleReplica 0; Checkpoint.exampleReplica 1];
     Checkpoint.models_ := [Checkpoint.model_ 0];
     Checkpoint.optimizerShards_ :=
       [Checkpoint.optimizer_ 0; Checkpoint.optimizer_ 1];
     Checkpoint.scheduler_ := Some Checkpoint.exampleScheduler |}.

(** A group with two replicas and one optimizer shard. *)
Definition oneShardGroup : Checkpoint.GraphGroup :=
  {| Checkpoint.graphs_ :=
       [Checkpoint.exampleReplica 0; Checkpoint.exampleReplica 1];
     Checkpoint.models_ := [Checkpoint.model_ 0; Checkpoint.model_ 1];
     Checkpoint.optimizerShards_ := [Checkpoint.optimizer_ 0];
     Checkpoint.scheduler_ := Some Checkpoint.exampleScheduler |}.


(** A directory that holds a checkpoint with a master copy, but not the
    model file. *)
Definition checkpointOnly : Checkpoint.FileSystem :=
  {| Checkpoint.filesystem_exists := fun file =>
       String.eqb file "model.npz.optimizer.npz";
     Checkpoint.loadItems := fun file =>
       if String.eqb file "model.npz.optimizer.npz"
       then [Checkpoint.adamMoments; halfMaster] else [] |}.

(** A file system view in which [/tmp] is a directory and nothing else
    is there. *)
Definition onlyTmp (path : string) : option bool :=
  if String.eqb path "/tmp" then Some true else None.

(** The options of the examples with a probe step of zero. *)
Definition zeroStep : Options :=
  {| no_reload := no_reload exampleOptions;
     model := model exampleOptions;
     pretrained_model := pretrained_model exampleOptions;
     overwrite := overwrite exampleOptions;
     normalize_gradient := normalize_gradient exampleOptions;
     mini_batch_fit_step := 0;
     max_length := max_length exampleOptions;
     input_types := input_types exampleOptions;
     tsv := tsv exampleOptions;
     tsv_fields := tsv_fields exampleOptions;
     guided_alignment := guided_alignment exampleOptions;
     data_weighting := data_weighting exampleOptions;
     train_sets := train_sets exampleOptions |}.

(** The options of the examples with another model path. *)
Definition savingTo (path : string) : Options :=
  {| no_reload := no_reload exampleOptions;
     model := path;
     pretrained_model := pretrained_model exampleOptions;
     overwrite := overwrite exampleOptions;
     normalize_gradient := normalize_gradient exampleOptions;
     mini_batch_fit_step := mini_batch_fit_step exampleOptions;
     max_length := max_length exampleOptions;
     input_types := input_types exampleOptions;
     tsv := tsv exampleOptions;
     tsv_fields := tsv_fields exampleOptions;
     guided_alignment := guided_alignment exampleOptions;
     data_weighting := data_weighting exampleOptions;
     train_sets := train_sets exampleOptions |}.

End Examples.

(** * Properties *)

(** ** size_t arithmetic *)

Lemma wrap_inRange n : SizeT.inRange (SizeT.wrap n).
Proof. unfold SizeT.inRange, SizeT.wrap, SizeT.modulus. apply Z.mod_pos_bound. lia. Qed.

Lemma wrap_small n : SizeT.inRange n -> SizeT.wrap n = n.
Proof. unfold SizeT.inRange, SizeT.wrap. intros H. apply Z.mod_small. exact H. Qed.

Lemma wrap_add_wrap_l a b : SizeT.wrap (SizeT.wrap a + b) = SizeT.wrap (a + b).
Proof. unfold SizeT.wrap. apply Z.add_mod_idemp_l. unfold SizeT.modulus. lia. Qed.

(** ** Cost scaling *)
Section CostScaleFacts.
Import CostScale.

Lemma decrease_below_threshold (g : State) :
  costScale_ g = true ->
  overThreshold (afterNanCounted g) = false ->
  decreaseCostScaleFactor g = Done (afterNanCounted g).
Proof.
  intros Hon Hthr. unfold decreaseCostScaleFactor. rewrite Hon. cbn [negb].
  cbv zeta. fold (afterNanCounted g).
  unfold overThreshold in Hthr. rewrite Hthr. reflexivity.
Qed.

Lemma decrease_over_threshold (g : State) :
  costScale_ g = true ->
  overThreshold (afterNanCounted g) = true ->
  exists g',
    decreaseCostScaleFactor g = Done g'
    /\ nanSeen_ g' = 0 /\ noNanSeen_ g' = 0
    /\ costScaleFactor_ g' =
       (if F32.gtb (costScaleFactor_ g) (costScaleFactorMinimum_ g)
        then F32.div (costScaleFactor_ g) (costScaleMultiplier_ g)
        else costScaleFactor_ g).
Proof.
  intros Hon Hthr. unfold decreaseCostScaleFactor. rewrite Hon. cbn [negb].
  cbv zeta. fold (afterNanCounted g).
  unfold overThreshold in Hthr. rewrite Hthr.
  eexists. split; [reflexivity|].
  cbn. repeat split.
  destruct (F32.gtb (costScaleFactor_ g) (costScaleFactorMinimum_ g));
    reflexivity.
Qed.

Lemma increase_on_frequency (g : State) :
  costScale_ g = true ->
  costScaleFreq_ g <> 0 ->
  SizeT.incr (noNanSeen_ g) mod costScaleFreq_ g = 0 ->
  exists g',
    increaseCostScaleFactor g = Done g'
    /\ nanSeen_ g' = 0 /\ noNanSeen_ g' = 0
    /\ costScaleFactor_ g' =
       F32.mul (costScaleFactor_ g) (costScaleMultiplier_ g).
Proof.
  intros Hon Hfreq Hmod. unfold increaseCostScaleFactor. rewrite Hon.
  cbn [negb]. cbn.
  destruct (costScaleFreq_ g =? 0) eqn:E; [apply Z.eqb_eq in E; contradiction|].
  rewrite Hmod. cbn. eexists. split; [reflexivity|]. cbn. auto.
Qed.

Lemma decrease_accumulates (n : nat) : forall g : State,
  costScale_ g = true ->
  SizeT.inRange (nanSeen_ g) ->
  (forall k : nat, (k < n)%nat ->
     overThreshold
       (set_nanSeen_ (SizeT.wrap (nanSeen_ g + Z.of_nat k + 1)) g) = false) ->
  run (repeat true n) g
  = Done (set_nanSeen_ (SizeT.wrap (nanSeen_ g + Z.of_nat n)) g).
Proof.
  induction n as [|n IH]; intros g Hon Hrange Hthr.
  - cbn. rewrite Z.add_0_r, wrap_small by exact Hrange.
    destruct g; reflexivity.
  - cbn [repeat run onStepResult].
    assert (H0 : overThreshold (afterNanCounted g) = false).
    { specialize (Hthr 0%nat ltac:(lia)). cbn in Hthr.
      rewrite Z.add_0_r in Hthr. exact Hthr. }
    rewrite (decrease_below_threshold g Hon H0). cbn [bindRes].
    rewrite IH.
    + unfold afterNanCounted, SizeT.incr, SizeT.add. cbn.
      rewrite wrap_add_wrap_l.
      replace (nanSeen_ g + 1 + Z.of_nat n) with (nanSeen_ g + Z.of_nat (S n)) by lia.
      reflexivity.
    + exact Hon.
    + cbn. apply wrap_inRange.
    + intros k Hk. unfold afterNanCounted, SizeT.incr, SizeT.add. cbn.
      specialize (Hthr (S k) ltac:(lia)).
      rewrite <- Z.add_assoc, wrap_add_wrap_l.
      replace (nanSeen_ g + 1 + (Z.of_nat k + 1))
        with (nanSeen_ g + Z.of_nat (S k) + 1) by lia.
      exact Hthr.
Qed.
End CostScaleFacts.

(** A factor that is not above the minimum is never divided. *)
Lemma decrease_keeps_factor_at_floor (g g' : CostScale.State) :
  F32.gtb (CostScale.costScaleFactor_ g) (CostScale.costScaleFactorMinimum_ g)
  = false ->
  CostScale.decreaseCostScaleFactor g = Done g' ->
  CostScale.costScaleFactor_ g' = CostScale.costScaleFactor_ g.
Proof.
  intros Hfloor. unfold CostScale.decreaseCostScaleFactor.
  destruct (CostScale.costScale_ g); cbn [negb].
  - cbv zeta. fold (CostScale.afterNanCounted g).
    destruct (_ && _).
    + cbn. rewrite Hfloor. intros [= <-]. reflexivity.
    + intros [= <-]. reflexivity.
  - intros [= <-]. reflexivity.
Qed.

(** C1 (the code departs from the claim).  The claim: after every call of
    [increaseCostScaleFactor] or [decreaseCostScaleFactor] the factor is at
    least [costScaleFactorMinimum_].  The code tests
    [costScaleFactor_ > costScaleFactorMinimum_] before it divides and never
    looks at the quotient: configured with [--cost-scaling 1 1000 2 0 1 1.5]
    the factor starts at 2, above the minimum 1.5, and the first NaN step
    leaves it at 1, below the minimum. *)
Theorem C1_decrease_lands_below_minimum :
  let g := CostScale.configured_1_1000_2_0_1_1p5 in
  F32.geb (CostScale.costScaleFactor_ g) (CostScale.costScaleFactorMinimum_ g)
  = true
  /\ exists g',
       CostScale.decreaseCostScaleFactor g = Done g'
       /\ CostScale.costScaleFactorMinimum_ g' = CostScale.onePointFive
       /\ CostScale.costScaleFactor_ g' = F32.one
       /\ F32.geb (CostScale.costScaleFactor_ g')
                  (CostScale.costScaleFactorMinimum_ g') = false
       /\ F32.ltb (CostScale.costScaleFactor_ g')
                  (CostScale.costScaleFactorMinimum_ g') = true.
Proof.
  cbv zeta. split; [reflexivity|].
  eexists. split; [reflexivity|]. repeat split.
Qed.

(** C2.  Right after the factor is multiplied (the clean-step count reaches
    a multiple of the frequency) and right after the decrease path passes
    its threshold, both counters are zero; while the threshold is not
    passed the decrease path only adds one to [nanSeen_], leaves
    [noNanSeen_] and the factor alone, and over any number of such calls
    in a row the count keeps growing. *)
Theorem C2_counters_reset_only_with_factor_change (g : CostScale.State) :
  CostScale.costScale_ g = true ->
  SizeT.inRange (CostScale.nanSeen_ g) ->
  (CostScale.costScaleFreq_ g <> 0 ->
   SizeT.incr (CostScale.noNanSeen_ g) mod CostScale.costScaleFreq_ g = 0 ->
   exists g',
     CostScale.increaseCostScaleFactor g = Done g'
     /\ CostScale.nanSeen_ g' = 0 /\ CostScale.noNanSeen_ g' = 0
     /\ CostScale.costScaleFactor_ g' =
        F32.mul (CostScale.costScaleFactor_ g) (CostScale.costScaleMultiplier_ g))
  /\ (CostScale.overThreshold (CostScale.afterNanCounted g) = true ->
      exists g',
        CostScale.decreaseCostScaleFactor g = Done g'
        /\ CostScale.nanSeen_ g' = 0 /\ CostScale.noNanSeen_ g' = 0)
  /\ (CostScale.overThreshold (CostScale.afterNanCounted g) = false ->
      exists g',
        CostScale.decreaseCostScaleFactor g = Done g'
        /\ CostScale.nanSeen_ g' = SizeT.incr (CostScale.nanSeen_ g)
        /\ CostScale.noNanSeen_ g' = CostScale.noNanSeen_ g
        /\ CostScale.costScaleFactor_ g' = CostScale.costScaleFactor_ g)
  /\ (forall n : nat,
        (forall k : nat, (k < n)%nat ->
           CostScale.overThreshold
             (CostScale.set_nanSeen_
                (SizeT.wrap (CostScale.nanSeen_ g + Z.of_nat k + 1)) g) = false) ->
        exists g',
          CostScale.run (repeat true n) g = Done g'
          /\ CostScale.nanSeen_ g'
             = SizeT.wrap (CostScale.nanSeen_ g + Z.of_nat n)
          /\ CostScale.noNanSeen_ g' = CostScale.noNanSeen_ g
          /\ CostScale.costScaleFactor_ g' = CostScale.costScaleFactor_ g).
Proof.
  intros Hon Hrange. repeat apply conj.
  - intros Hfreq Hmod. exact (increase_on_frequency g Hon Hfreq Hmod).
  - intros Hthr.
    destruct (decrease_over_threshold g Hon Hthr) as (g' & Hrun & Hn & Hc & _).
    exists g'. auto.
  - intros Hthr. exists (CostScale.afterNanCounted g).
    split; [exact (decrease_below_threshold g Hon Hthr)|]. cbn. auto.
  - intros n Hthr. eexists.
    split; [exact (decrease_accumulates n g Hon Hrange Hthr)|]. cbn. auto.
Qed.

(** The claim at the options [--cost-scaling 0 2 2 0 4 1]: the second
    clean step doubles the factor and clears the counters, the fourth NaN
    in a row passes the threshold and clears them, one NaN after a clean
    step is only counted, and so are two in a row. *)
Lemma C2_counters_reset_only_with_factor_change_witness :
  let once := CostScale.set_noNanSeen_ 1 CostScale.configured_0_2_2_0_4_1 in
  let thrice := CostScale.set_nanSeen_ 3 CostScale.configured_0_2_2_0_4_1 in
  (exists g',
     CostScale.increaseCostScaleFactor once = Done g'
     /\ CostScale.nanSeen_ g' = 0 /\ CostScale.noNanSeen_ g' = 0
     /\ CostScale.costScaleFactor_ g' = F32.mul F32.one F32.two)
  /\ (exists g',
        CostScale.decreaseCostScaleFactor thrice = Done g'
        /\ CostScale.nanSeen_ g' = 0 /\ CostScale.noNanSeen_ g' = 0)
  /\ (exists g',
        CostScale.decreaseCostScaleFactor once = Done g'
        /\ CostScale.nanSeen_ g' = 1
        /\ CostScale.noNanSeen_ g' = 1
        /\ CostScale.costScaleFactor_ g' = F32.one)
  /\ (exists g',
        CostScale.run [true; true] once = Done g'
        /\ CostScale.nanSeen_ g' = 2
        /\ CostScale.noNanSeen_ g' = 1
        /\ CostScale.costScaleFactor_ g' = F32.one).
Proof.
  intros once thrice.
  assert (Honce : SizeT.inRange (CostScale.nanSeen_ once))
    by (unfold SizeT.inRange, SizeT.modulus; cbn; lia).
  assert (Hthrice : SizeT.inRange (CostScale.nanSeen_ thrice))
    by (unfold SizeT.inRange, SizeT.modulus; cbn; lia).
  destruct (C2_counters_reset_only_with_factor_change once eq_refl Honce)
    as (Hinc & _ & Hbelow & Hacc).
  destruct (C2_counters_reset_only_with_factor_change thrice eq_refl Hthrice)
    as (_ & Hover & _ & _).
  repeat apply conj.
  - apply Hinc; [discriminate | reflexivity].
  - apply Hover. reflexivity.
  - apply Hbelow. reflexivity.
  - apply (Hacc 2%nat). intros [|[|k]] Hk; [reflexivity | reflexivity | lia].
Defined.

(** ** Normalisation factor *)

Lemma round_aux_shifted (s : bool) (m : positive) (e e' : Z) :
  fexp 24 128 (Zpos (digits2_pos m) + e) = e ->
  e <= 104 ->
  e' = e - 23 ->
  binary_round_aux 24 128 s
    (Zpos m~0~0~0~0~0~0~0~0~0~0~0~0~0~0~0~0~0~0~0~0~0~0~0) e' loc_Exact
  = S754_finite s m e.
Proof.
  intros Hcanon Hle ->.
  unfold binary_round_aux, shr_fexp.
  cbn [Zdigits2 digits2_pos].
  rewrite !Pos2Z.inj_succ.
  replace (Z.succ _ + (e - 23)) with (Zpos (digits2_pos m) + e) by lia.
  rewrite Hcanon.
  replace (e - (e - 23)) with 23 by lia.
  cbn [shr shr_record_of_loc iter_pos shr_1 orb loc_of_shr_record shr_m
       round_nearest_even].
  cbn [Zdigits2].
  replace (e - 23 + 23) with e by lia.
  rewrite Hcanon, Z.sub_diag.
  cbn [shr shr_m].
  apply Z.leb_le in Hle. change (128 - 24) with 104. rewrite Hle. reflexivity.
Qed.

Lemma valid_finite (s : bool) (m : positive) (e : Z) :
  F32.valid (S754_finite s m e) = true ->
  fexp 24 128 (Zpos (digits2_pos m) + e) = e /\ e <= 104.
Proof.
  unfold F32.valid, valid_binary, bounded, canonical_mantissa.
  intros H. apply andb_prop in H. destruct H as [Hc Hb].
  apply Z.eqb_eq in Hc. apply Z.leb_le in Hb.
  split; [exact Hc | exact Hb].
Qed.

(** Multiplying by 1 is exact in binary32. *)
Lemma mul_one_l (x : float) : F32.valid x = true -> F32.mul F32.one x = x.
Proof.
  destruct x as [s | s | | s m e]; intros Hv; try reflexivity.
  apply valid_finite in Hv. destruct Hv as [Hc Hb].
  unfold F32.mul, F32.one, SFmul. cbn [xorb Pos.mul].
  apply round_aux_shifted; [exact Hc | exact Hb | lia].
Qed.

Lemma mul_one_r (x : float) : F32.valid x = true -> F32.mul x F32.one = x.
Proof.
  destruct x as [s | s | | s m e]; intros Hv;
    try (destruct s; reflexivity); try reflexivity.
  apply valid_finite in Hv. destruct Hv as [Hc Hb].
  unfold F32.mul, F32.one, SFmul.
  rewrite Pos.mul_comm, xorb_false_r. cbn [Pos.mul].
  apply round_aux_shifted; [exact Hc | exact Hb | lia].
Qed.

(** C3.  With dynamic gradient scaling off, whatever the gradient norm and
    the token count, the function returns the binary32 product of the
    cost-scale term (the factor when cost scaling is on, else 1) and the
    token term (the count as a float when normalize-gradient is on,
    else 1). *)
Theorem C3_factor_without_dynamic_scaling
    (logf expf : float -> float) (g : CostScale.State) (options_ : Options)
    (d : Normalization.DynamicScaling) (scheduler_ : option Scheduler)
    (gNorm : float) (updateTrgWords : Z) :
  Normalization.dynamicGradientScaling_ d = false ->
  F32.valid (CostScale.costScaleFactor_ g) = true ->
  Normalization.computeNormalizationFactor logf expf g options_ d scheduler_
    gNorm updateTrgWords
  = Done (F32.mul (Normalization.costScaleTerm g)
                  (Normalization.tokenCountTerm options_ updateTrgWords)).
Proof.
  intros Hoff Hvalid.
  unfold Normalization.computeNormalizationFactor,
    Normalization.costScaleTerm, Normalization.tokenCountTerm.
  rewrite Hoff.
  destruct (CostScale.costScale_ g), (normalize_gradient options_);
    cbv zeta; rewrite ?(mul_one_l _ Hvalid), ?(mul_one_r _ Hvalid);
    destruct (F32.isFinite gNorm); reflexivity.
Qed.

(** The claim for a factor of 2 and 100 target words, both terms on. *)
Lemma C3_factor_without_dynamic_scaling_witness :
  Normalization.computeNormalizationFactor (fun x => x) (fun x => x)
    CostScale.configured_1_1000_2_0_1_1p5 exampleOptions
    Normalization.noDynamicScaling None F32.one 100
  = Done (F32.mul F32.two (F32.of_Z 100)).
Proof.
  exact (C3_factor_without_dynamic_scaling (fun x => x) (fun x => x)
           CostScale.configured_1_1000_2_0_1_1p5 exampleOptions
           Normalization.noDynamicScaling None F32.one 100 eq_refl eq_refl).
Defined.

(** ** Loading *)

(** C4 (the code departs from the claim).  The claim, like the outline in
    the comment that opens [load], has the pre-trained weights loaded when
    no-reload is set.  In the code the pre-trained branch sits inside
    [if(!no-reload)]: with no-reload set, [load] returns without a single
    call, whatever the pre-trained path. *)
Theorem C4_no_reload_loads_nothing
    (convertBytes : io.Type_ -> io.Type_ -> io.Data -> io.Data)
    (fs : Checkpoint.FileSystem) (options_ : Options)
    (this : Checkpoint.GraphGroup) :
  no_reload options_ = true ->
  Checkpoint.load convertBytes fs options_ this = ([], Done tt).
Proof.
  intros Hno. unfold Checkpoint.load. rewrite Hno. reflexivity.
Qed.

(** With no-reload set and [pretrained.npz] named, nothing is loaded into
    the two replicas. *)
Lemma C4_no_reload_loads_nothing_witness :
  hasAndNotEmpty (pretrained_model exampleOptions) = true
  /\ Checkpoint.load Checkpoint.keepBytes Checkpoint.noFiles exampleOptions
       Checkpoint.exampleGroup = ([], Done tt).
Proof.
  split; [reflexivity|].
  exact (C4_no_reload_loads_nothing Checkpoint.keepBytes Checkpoint.noFiles
           exampleOptions Checkpoint.exampleGroup eq_refl).
Defined.

(** Where the code does load the pre-trained weights: reload is on and the
    model file is missing.  Weights only, into every replica. *)
Lemma load_pretrained_when_model_is_missing :
  Checkpoint.load Checkpoint.keepBytes Checkpoint.noFiles
    Checkpoint.reloadingOptions Checkpoint.exampleGroup
  = ([Checkpoint.LOG Checkpoint.info
        "[training] Initializing model weights with pre-trained model {}";
      Checkpoint.ModelLoad (Checkpoint.model_ 0) 0 "pretrained.npz" (Some false);
      Checkpoint.ModelLoad (Checkpoint.model_ 1) 1 "pretrained.npz" (Some false)],
     Done tt).
Proof. reflexivity. Qed.

(** ** Saving the model *)

Lemma append_empty_r (s : string) : (s ++ "")%string = s.
Proof. induction s as [|c s IH]; cbn; [reflexivity | rewrite IH; reflexivity]. Qed.

Lemma length_append (a b : string) :
  String.length (a ++ b) = (String.length a + String.length b)%nat.
Proof. induction a as [|c a IH]; cbn; [reflexivity | rewrite IH; reflexivity]. Qed.

Lemma substring_prefix (a b : string) :
  substring 0 (String.length a) (a ++ b) = a.
Proof.
  induction a as [|c a IH]; cbn.
  - destruct b; reflexivity.
  - rewrite IH. reflexivity.
Qed.

Lemma substring_none (n : nat) : forall s : string, substring n 0 s = ""%string.
Proof.
  induction n as [|n IH]; intros s.
  - destruct s; reflexivity.
  - destruct s as [|c s]; cbn; [reflexivity | apply IH].
Qed.

(** C5, as stated, fails: the final save of a run that does not overwrite
    writes the model file and the scheduler state only, no numbered
    snapshot. *)
Lemma C5_final_save_writes_no_snapshot :
  overwrite exampleOptions = false
  /\ Checkpoint.saveModel exampleOptions Checkpoint.exampleGroup true
     = ([Checkpoint.ModelSave (Checkpoint.model_ 0) 0 "model.npz" (Some true);
         Checkpoint.SchedulerSave "model.npz"], Done tt)
  /\ ~ In (Checkpoint.ModelSave (Checkpoint.model_ 0) 0 "model.iter5.npz" None)
         (fst (Checkpoint.saveModel exampleOptions Checkpoint.exampleGroup true)).
Proof.
  split; [reflexivity|]. split; [reflexivity|].
  cbn. intros [H | [H | []]]; discriminate H.
Qed.

(** Replacing the last four characters of a string that has them. *)
Lemma replace_tail (s str : string) :
  (4 <= String.length s)%nat ->
  Z.of_nat (String.length s) < SizeT.modulus ->
  Checkpoint.string_replace s (SizeT.sub (Z.of_nat (String.length s)) 4) 4 str
  = Checkpoint.ret (substring 0 (String.length s - 4) s ++ str)%string.
Proof.
  intros Hfour Hsize. unfold SizeT.sub.
  rewrite wrap_small by (unfold SizeT.inRange; lia).
  unfold Checkpoint.string_replace.
  destruct (Z.of_nat (String.length s) <? Z.of_nat (String.length s) - 4)
    eqn:E; [apply Z.ltb_lt in E; lia|].
  replace (Z.min 4 (Z.of_nat (String.length s) - (Z.of_nat (String.length s) - 4)))
    with 4 by lia.
  replace (Z.of_nat (String.length s) - (Z.of_nat (String.length s) - 4) - 4)
    with 0 by lia.
  replace (Z.to_nat (Z.of_nat (String.length s) - 4))
    with (String.length s - 4)%nat by lia.
  cbn [Z.to_nat]. rewrite substring_none, append_empty_r. reflexivity.
Qed.

Lemma stem_of_npz (stem : string) :
  substring 0 (String.length (stem ++ ".npz") - 4) (stem ++ ".npz") = stem.
Proof.
  rewrite length_append. cbn [String.length].
  rewrite Nat.add_sub. apply substring_prefix.
Qed.

(** C5, amended.  In a group with a model and a replica: a save that is
    not final, in a run that does not overwrite, with a model path of at
    least four characters, first writes a snapshot whose name is the model
    path with its last four characters replaced by [.iter<N>.npz] (so
    [stem.iter<N>.npz] for [stem.npz]; [N] is the scheduler's batch count,
    or [unknown] without a scheduler), and then the model file itself and,
    when there is a scheduler, the scheduler state.  A final save of such
    a run, and every save of a run that overwrites, write no snapshot: only
    the model file and, when there is a scheduler, the scheduler state. *)
Theorem C5_snapshot_then_canonical_writes
    (options_ : Options) (this : Checkpoint.GraphGroup)
    (m : Checkpoint.ModelHandle) (models : list Checkpoint.ModelHandle)
    (graph : Checkpoint.ExpressionGraph)
    (graphs : list Checkpoint.ExpressionGraph) :
  Checkpoint.models_ this = m :: models ->
  Checkpoint.graphs_ this = graph :: graphs ->
  (overwrite options_ = false ->
   (4 <= String.length (model options_))%nat ->
   Z.of_nat (String.length (model options_)) < SizeT.modulus ->
   Checkpoint.saveModel options_ this false
   = (Checkpoint.ModelSave m 0
        (substring 0 (String.length (model options_) - 4) (model options_)
         ++ ".iter"
         ++ match Checkpoint.scheduler_ this with
            | Some sch => Checkpoint.to_string (numberOfBatches sch)
            | None => "unknown"
            end
         ++ ".npz")%string None
      :: Checkpoint.canonicalWrites options_ this m, Done tt))
  /\ (forall stem : string,
        model options_ = (stem ++ ".npz")%string ->
        substring 0 (String.length (model options_) - 4) (model options_)
        = stem)
  /\ (overwrite options_ = false ->
      Checkpoint.saveModel options_ this true
      = (Checkpoint.canonicalWrites options_ this m, Done tt))
  /\ (forall isFinal : bool,
        overwrite options_ = true ->
        Checkpoint.saveModel options_ this isFinal
        = (Checkpoint.canonicalWrites options_ this m, Done tt)).
Proof.
  intros Hm Hg. repeat apply conj.
  - intros Hover Hfour Hsize.
    unfold Checkpoint.saveModel, Checkpoint.canonicalWrites.
    rewrite Hover, Hm, Hg.
    cbn [negb Checkpoint.when].
    rewrite (replace_tail (model options_) _ Hfour Hsize).
    destruct (Checkpoint.scheduler_ this); reflexivity.
  - intros stem ->. apply stem_of_npz.
  - intros Hover.
    unfold Checkpoint.saveModel, Checkpoint.canonicalWrites.
    rewrite Hover, Hm, Hg.
    destruct (Checkpoint.scheduler_ this); reflexivity.
  - intros isFinal Hover.
    unfold Checkpoint.saveModel, Checkpoint.canonicalWrites.
    rewrite Hover, Hm, Hg.
    destruct (Checkpoint.scheduler_ this); reflexivity.
Qed.

(** The amended claim on [model.npz] after five batches. *)
Lemma C5_snapshot_then_canonical_writes_witness :
  Checkpoint.saveModel exampleOptions Checkpoint.exampleGroup false
  = ([Checkpoint.ModelSave (Checkpoint.model_ 0) 0 "model.iter5.npz" None;
      Checkpoint.ModelSave (Checkpoint.model_ 0) 0 "model.npz" (Some true);
      Checkpoint.SchedulerSave "model.npz"], Done tt)
  /\ substring 0 (String.length (model exampleOptions) - 4)
       (model exampleOptions) = "model"%string
  /\ Checkpoint.saveModel exampleOptions Checkpoint.exampleGroup true
     = ([Checkpoint.ModelSave (Checkpoint.model_ 0) 0 "model.npz" (Some true);
         Checkpoint.SchedulerSave "model.npz"], Done tt).
Proof.
  destruct (C5_snapshot_then_canonical_writes exampleOptions
              Checkpoint.exampleGroup (Checkpoint.model_ 0)
              [Checkpoint.model_ 1] (Checkpoint.exampleReplica 0)
              [Checkpoint.exampleReplica 1] eq_refl eq_refl)
    as (Hsnap & Hstem & Hfinal & _).
  repeat apply conj.
  - apply Hsnap; [reflexivity | cbn; lia | unfold SizeT.modulus; cbn; lia].
  - apply (Hstem "model"%string). reflexivity.
  - apply Hfinal. reflexivity.
Defined.

(** ** Checkpoint restore *)

Lemma Shape_eqb_eq (a : io.Shape) : forall b : io.Shape,
  io.Shape_eqb a b = true <-> a = b.
Proof.
  induction a as [|x a IH]; intros [|y b]; cbn; split; intros H;
    try reflexivity; try discriminate H.
  - apply andb_prop in H. destruct H as [Hx Hab].
    apply Z.eqb_eq in Hx. apply IH in Hab. subst. reflexivity.
  - injection H as -> ->. rewrite Z.eqb_refl. cbn. apply IH. reflexivity.
Qed.

(** The loop stops at the first replica whose shape is not the master
    copy's: it has been run forward, nothing has been set. *)
Lemma restoreReplicas_stops_at_mismatch
    (convertBytes : io.Type_ -> io.Type_ -> io.Data -> io.Data)
    (graph : Checkpoint.ExpressionGraph)
    (graphs : list Checkpoint.ExpressionGraph) (i : nat)
    (masterParameters : io.Item) :
  Checkpoint.vals_shape graph <> io.shape masterParameters ->
  Checkpoint.restoreReplicas convertBytes (graph :: graphs) i masterParameters
  = ([Checkpoint.Forward i],
     Fatal "Graph parameter sizes and master copy parameter sizes in checkpoint do not match").
Proof.
  intros Hdiff. cbn [Checkpoint.restoreReplicas].
  destruct (io.Shape_eqb (Checkpoint.vals_shape graph) (io.shape masterParameters))
    eqn:E.
  - apply Shape_eqb_eq in E. contradiction.
  - reflexivity.
Qed.

(** C6.  The checkpoint file is there and holds a master-parameters item;
    every replica's parameter tensor has the one shape [live], and the
    item's shape is another.  Then the restore ends in the fatal abort,
    after the optimizer's own load and the forward pass of the first
    replica: no replica has had its parameters set. *)
Theorem C6_shape_mismatch_aborts_before_any_set
    (convertBytes : io.Type_ -> io.Type_ -> io.Data -> io.Data)
    (fs : Checkpoint.FileSystem) (options_ : Options)
    (this : Checkpoint.GraphGroup)
    (shard0 : Checkpoint.OptimizerHandle)
    (shards : list Checkpoint.OptimizerHandle)
    (masterParameters : io.Item) (live : io.Shape) :
  Checkpoint.filesystem_exists fs (model options_ ++ ".optimizer.npz") = true ->
  Checkpoint.optimizerShards_ this = shard0 :: shards ->
  find (fun item => String.eqb (io.name item) "master_parameters")
       (Checkpoint.loadItems fs (model options_ ++ ".optimizer.npz"))
  = Some masterParameters ->
  Checkpoint.graphs_ this <> [] ->
  (forall graph, In graph (Checkpoint.graphs_ this) ->
     Checkpoint.vals_shape graph = live) ->
  io.shape masterParameters <> live ->
  exists trace msg,
    Checkpoint.restoreFromCheckpoint convertBytes fs options_ this
    = (trace, Fatal msg)
    /\ existsb Checkpoint.isParamsSet trace = false
    /\ trace
       = [Checkpoint.OptimizerLoad shard0
            (Checkpoint.loadItems fs (model options_ ++ ".optimizer.npz"))
            (Checkpoint.optimizerShards_ this)
            (map Checkpoint.getBackend (Checkpoint.graphs_ this));
          Checkpoint.Forward 0].
Proof.
  intros Hfile Hshards Hfound Hsome Hlive Hdiff.
  unfold Checkpoint.restoreFromCheckpoint.
  rewrite Hfile. cbn [negb]. cbv zeta. rewrite Hfound.
  destruct (Checkpoint.graphs_ this) as [|graph graphs] eqn:Hgraphs;
    [contradiction|].
  rewrite restoreReplicas_stops_at_mismatch.
  - rewrite Hshards. cbn. do 2 eexists. repeat split.
  - rewrite (Hlive graph (or_introl eq_refl)). congruence.
Qed.

(** The claim on a checkpoint whose master copy is twice as wide as the
    replicas. *)
Lemma C6_shape_mismatch_aborts_before_any_set_witness :
  exists trace msg,
    Checkpoint.restoreFromCheckpoint Checkpoint.keepBytes
      (Checkpoint.withCheckpoint [Checkpoint.adamMoments; Checkpoint.widerMaster])
      exampleOptions Checkpoint.exampleGroup
    = (trace, Fatal msg)
    /\ existsb Checkpoint.isParamsSet trace = false
    /\ trace
       = [Checkpoint.OptimizerLoad (Checkpoint.optimizer_ 0)
            [Checkpoint.adamMoments; Checkpoint.widerMaster]
            [Checkpoint.optimizer_ 0; Checkpoint.optimizer_ 1] [0%nat; 1%nat];
          Checkpoint.Forward 0].
Proof.
  apply (C6_shape_mismatch_aborts_before_any_set Checkpoint.keepBytes
           (Checkpoint.withCheckpoint [Checkpoint.adamMoments; Checkpoint.widerMaster])
           exampleOptions Checkpoint.exampleGroup (Checkpoint.optimizer_ 0)
           [Checkpoint.optimizer_ 1] Checkpoint.widerMaster [1; 10]).
  - reflexivity.
  - reflexivity.
  - reflexivity.
  - discriminate.
  - intros graph [<- | [<- | []]]; reflexivity.
  - discriminate.
Defined.

(** C7.  Without a checkpoint file the restore logs its warning and
    returns; with a checkpoint that has no master-parameters item it hands
    the items to the optimizer, logs its warning and returns.  Neither run
    aborts, and neither touches a replica. *)
Theorem C7_missing_checkpoint_or_master_is_a_warning
    (convertBytes : io.Type_ -> io.Type_ -> io.Data -> io.Data)
    (fs : Checkpoint.FileSystem) (options_ : Options)
    (this : Checkpoint.GraphGroup) :
  (Checkpoint.filesystem_exists fs (model options_ ++ ".optimizer.npz") = false ->
   Checkpoint.restoreFromCheckpoint convertBytes fs options_ this
   = ([Checkpoint.LOG Checkpoint.warn
         "No checkpoint found, parameters reloaded from last inference model"],
      Done tt))
  /\ (forall shard0 shards,
        Checkpoint.filesystem_exists fs (model options_ ++ ".optimizer.npz") = true ->
        Checkpoint.optimizerShards_ this = shard0 :: shards ->
        find (fun item => String.eqb (io.name item) "master_parameters")
             (Checkpoint.loadItems fs (model options_ ++ ".optimizer.npz"))
        = None ->
        Checkpoint.restoreFromCheckpoint convertBytes fs options_ this
        = ([Checkpoint.OptimizerLoad shard0
              (Checkpoint.loadItems fs (model options_ ++ ".optimizer.npz"))
              (Checkpoint.optimizerShards_ this)
              (map Checkpoint.getBackend (Checkpoint.graphs_ this));
            Checkpoint.LOG Checkpoint.warn
              "No master parameters found in checkpoint, parameters reloaded from last inference model"],
           Done tt)).
Proof.
  split.
  - intros Hfile. unfold Checkpoint.restoreFromCheckpoint.
    rewrite Hfile. reflexivity.
  - intros shard0 shards Hfile Hshards Hfound.
    unfold Checkpoint.restoreFromCheckpoint.
    rewrite Hfile. cbn [negb]. cbv zeta. rewrite Hfound, Hshards. reflexivity.
Qed.

(** The claim on an empty directory, and on a checkpoint that holds the
    optimizer's moments only. *)
Lemma C7_missing_checkpoint_or_master_is_a_warning_witness :
  Checkpoint.restoreFromCheckpoint Checkpoint.keepBytes Checkpoint.noFiles
    exampleOptions Checkpoint.exampleGroup
  = ([Checkpoint.LOG Checkpoint.warn
        "No checkpoint found, parameters reloaded from last inference model"],
     Done tt)
  /\ Checkpoint.restoreFromCheckpoint Checkpoint.keepBytes
       (Checkpoint.withCheckpoint [Checkpoint.adamMoments])
       exampleOptions Checkpoint.exampleGroup
     = ([Checkpoint.OptimizerLoad (Checkpoint.optimizer_ 0)
           [Checkpoint.adamMoments]
           [Checkpoint.optimizer_ 0; Checkpoint.optimizer_ 1] [0%nat; 1%nat];
         Checkpoint.LOG Checkpoint.warn
           "No master parameters found in checkpoint, parameters reloaded from last inference model"],
        Done tt).
Proof.
  split.
  - apply (C7_missing_checkpoint_or_master_is_a_warning Checkpoint.keepBytes
             Checkpoint.noFiles exampleOptions Checkpoint.exampleGroup).
    reflexivity.
  - apply (C7_missing_checkpoint_or_master_is_a_warning Checkpoint.keepBytes
             (Checkpoint.withCheckpoint [Checkpoint.adamMoments])
             exampleOptions Checkpoint.exampleGroup)
      with (shards := [Checkpoint.optimizer_ 1]); reflexivity.
Defined.

(** A restore that goes through, for comparison: every replica is run
    forward, set and cleared in turn. *)
Lemma restore_with_matching_master :
  let master :=
    {| io.name := "master_parameters"; io.shape := [1; 10];
       io.type := io.float32; io.bytes := [1; 2; 3; 4] |} in
  Checkpoint.restoreFromCheckpoint Checkpoint.keepBytes
    (Checkpoint.withCheckpoint [Checkpoint.adamMoments; master])
    exampleOptions Checkpoint.exampleGroup
  = ([Checkpoint.OptimizerLoad (Checkpoint.optimizer_ 0)
        [Checkpoint.adamMoments; master]
        [Checkpoint.optimizer_ 0; Checkpoint.optimizer_ 1] [0%nat; 1%nat];
      Checkpoint.Forward 0; Checkpoint.ParamsSet 0 master; Checkpoint.Clear 0;
      Checkpoint.Forward 1; Checkpoint.ParamsSet 1 master; Checkpoint.Clear 1;
      Checkpoint.LOG Checkpoint.info
        "[training] Master parameters and optimizers restored from training checkpoint {} and {}"],
     Done tt).
Proof. reflexivity. Qed.

(** ** Swapping with the smoothed parameters *)

Lemma swapEach_trace (graphs : list Checkpoint.ExpressionGraph)
    (opts : list Checkpoint.OptimizerHandle) (size : nat) (swapAvg : bool)
    (count : nat) : forall i : nat,
  (i + count = List.length opts)%nat ->
  List.length graphs = List.length opts ->
  Checkpoint.swapEach graphs opts count i size swapAvg
  = (map (fun j => Checkpoint.ShardSwapWithSmoothed
                     (nth j opts (Checkpoint.optimizer_ 0)) j
                     (Z.of_nat j) (Z.of_nat size) swapAvg)
         (seq i count), Done tt).
Proof.
  induction count as [|count IH]; intros i Hi Hlen; [reflexivity|].
  cbn [Checkpoint.swapEach seq map].
  unfold Checkpoint.at_.
  rewrite (nth_error_nth' opts (Checkpoint.optimizer_ 0)) by lia.
  destruct (nth_error graphs i) as [graph|] eqn:Hgraph.
  - cbn. rewrite IH by lia. reflexivity.
  - apply nth_error_None in Hgraph. lia.
Qed.

(** C8.  Both swaps compare the two counts first.  When they differ the
    call ends in the fatal abort with no shard swapped and nothing
    distributed; when they agree every shard is swapped once, in order,
    and the result is distributed. *)
Theorem C8_swap_checks_counts_first
    (graphs : list Checkpoint.ExpressionGraph)
    (opts : list Checkpoint.OptimizerHandle) :
  (List.length graphs <> List.length opts ->
   Checkpoint.swapWithSmoothed graphs opts
   = ([], Fatal "Number of graphs and optimizers has to be equal ({} != {})")
   /\ Checkpoint.swapWithOriginal graphs opts
      = ([], Fatal "Number of graphs and optimizers has to be equal ({} != {})"))
  /\ (List.length graphs = List.length opts ->
      Checkpoint.swapWithSmoothed graphs opts
      = (Checkpoint.swapTrace opts true, Done tt)
      /\ Checkpoint.swapWithOriginal graphs opts
         = (Checkpoint.swapTrace opts false, Done tt)).
Proof.
  split; intros Hlen.
  - apply Nat.eqb_neq in Hlen.
    unfold Checkpoint.swapWithSmoothed, Checkpoint.swapWithOriginal.
    rewrite Hlen. split; reflexivity.
  - unfold Checkpoint.swapWithSmoothed, Checkpoint.swapWithOriginal,
      Checkpoint.swapTrace.
    rewrite Hlen, Nat.eqb_refl. cbn [negb Checkpoint.ABORT_IF Checkpoint.bind].
    rewrite !swapEach_trace by (cbn; lia).
    split; reflexivity.
Qed.

(** The claim on two replicas with one shard, and with two. *)
Lemma C8_swap_checks_counts_first_witness :
  (Checkpoint.swapWithSmoothed
     [Checkpoint.exampleReplica 0; Checkpoint.exampleReplica 1]
     [Checkpoint.optimizer_ 0]
   = ([], Fatal "Number of graphs and optimizers has to be equal ({} != {})")
   /\ Checkpoint.swapWithOriginal
        [Checkpoint.exampleReplica 0; Checkpoint.exampleReplica 1]
        [Checkpoint.optimizer_ 0]
      = ([], Fatal "Number of graphs and optimizers has to be equal ({} != {})"))
  /\ (Checkpoint.swapWithSmoothed
        [Checkpoint.exampleReplica 0; Checkpoint.exampleReplica 1]
        [Checkpoint.optimizer_ 0; Checkpoint.optimizer_ 1]
      = ([Checkpoint.ShardSwapWithSmoothed (Checkpoint.optimizer_ 0) 0 0 2 true;
          Checkpoint.ShardSwapWithSmoothed (Checkpoint.optimizer_ 1) 1 1 2 true;
          Checkpoint.Distribute], Done tt)
      /\ Checkpoint.swapWithOriginal
           [Checkpoint.exampleReplica 0; Checkpoint.exampleReplica 1]
           [Checkpoint.optimizer_ 0; Checkpoint.optimizer_ 1]
         = ([Checkpoint.ShardSwapWithSmoothed (Checkpoint.optimizer_ 0) 0 0 2 false;
             Checkpoint.ShardSwapWithSmoothed (Checkpoint.optimizer_ 1) 1 1 2 false;
             Checkpoint.Distribute], Done tt)).
Proof.
  split.
  - apply (C8_swap_checks_counts_first
             [Checkpoint.exampleReplica 0; Checkpoint.exampleReplica 1]
             [Checkpoint.optimizer_ 0]).
    discriminate.
  - apply (C8_swap_checks_counts_first
             [Checkpoint.exampleReplica 0; Checkpoint.exampleReplica 1]
             [Checkpoint.optimizer_ 0; Checkpoint.optimizer_ 1]).
    reflexivity.
Defined.

(** ** Batch-fit probing *)

Lemma midpoint_bounds (a b : Z) :
  a + 2 <= b -> a + 1 <= (a + b) / 2 <= b - 1.
Proof.
  intros H.
  pose proof (Z.div_mod (a + b) 2 ltac:(lia)) as Hdm.
  pose proof (Z.mod_pos_bound (a + b) 2 ltac:(lia)) as Hmod.
  lia.
Qed.

Section ProbeFacts.
Variable fits : nat -> list Z -> Z -> bool.
Variable step : Z.
Variable localMaxes : list Z.

Lemma growMaxBatch_returns (first : Z) (n : nat) : forall (probes : nat) (maxBatch : Z),
  fits (probes + n) (map (Z.min first) localMaxes)
       (BatchFit.doubled n maxBatch) = false ->
  exists r, BatchFit.growMaxBatch fits localMaxes (S n) probes first maxBatch = Some r.
Proof.
  induction n as [|n IH]; intros probes maxBatch Hno.
  - cbn in *. rewrite Nat.add_0_r in Hno. rewrite Hno. eexists. reflexivity.
  - cbn [BatchFit.growMaxBatch].
    destruct (fits probes (map (Z.min first) localMaxes) maxBatch).
    + apply IH. unfold BatchFit.doubled in *. rewrite Nat.iter_succ_r in Hno.
      replace (S probes + n)%nat with (probes + S n)%nat by lia. exact Hno.
    + eexists. reflexivity.
Qed.

Lemma searchBucket_returns (lengths : list Z) (fuel : nat) :
  forall (probes : nat) (start end_ : Z) (stats : BatchFit.Stats),
  1 <= step ->
  0 <= start -> start + 2 <= end_ -> end_ <= 2 ^ 63 ->
  end_ - start <= Z.of_nat fuel ->
  exists r,
    BatchFit.searchBucket fits step fuel probes lengths start end_ stats = Some r.
Proof.
  induction fuel as [|fuel IH]; intros probes start end_ stats Hstep H0 H2 Hmax Hfuel.
  - cbn in Hfuel. lia.
  - cbn [BatchFit.searchBucket]. cbv zeta.
    pose proof (midpoint_bounds start end_ H2) as Hmid.
    assert (Hsum : SizeT.add start end_ = start + end_)
      by (apply wrap_small; unfold SizeT.inRange, SizeT.modulus; lia).
    rewrite Hsum.
    set (current := (start + end_) / 2) in *.
    destruct (fits probes lengths current).
    + unfold SizeT.add, SizeT.sub.
      rewrite (wrap_small (current + 1)) by (unfold SizeT.inRange, SizeT.modulus; lia).
      rewrite (wrap_small (end_ - (current + 1))) by (unfold SizeT.inRange, SizeT.modulus; lia).
      destruct (step <? end_ - (current + 1)) eqn:E.
      * apply Z.ltb_lt in E. apply IH; lia.
      * eexists. reflexivity.
    + unfold SizeT.sub.
      rewrite (wrap_small (current - 1)) by (unfold SizeT.inRange, SizeT.modulus; lia).
      rewrite (wrap_small (current - 1 - start)) by (unfold SizeT.inRange, SizeT.modulus; lia).
      destruct (step <? current - 1 - start) eqn:E.
      * apply Z.ltb_lt in E. apply IH; lia.
      * eexists. reflexivity.
Qed.
End ProbeFacts.

Lemma growMaxBatch_always_fitting (localMaxes : list Z) (first : Z) (fuel : nat) :
  forall (probes : nat) (maxBatch : Z),
  BatchFit.growMaxBatch BatchFit.alwaysFits localMaxes fuel probes first maxBatch
  = None.
Proof.
  induction fuel as [|fuel IH]; intros probes maxBatch; [reflexivity|].
  cbn [BatchFit.growMaxBatch]. apply IH.
Qed.

Lemma searchBucket_wrapped_never_returns (lengths : list Z) (fuel : nat) :
  forall (probes : nat) (stats : BatchFit.Stats),
  BatchFit.searchBucket BatchFit.neverFits 8 fuel probes lengths
    1 (SizeT.modulus - 1) stats = None.
Proof.
  induction fuel as [|fuel IH]; intros probes stats; [reflexivity|].
  cbn [BatchFit.searchBucket]. cbv zeta.
  change (SizeT.sub (SizeT.add 1 (SizeT.modulus - 1) / 2) 1) with (SizeT.modulus - 1).
  change (8 <? SizeT.sub (SizeT.modulus - 1) 1) with true.
  cbv iota. apply IH.
Qed.

Lemma searchBucket_from_one_never_returns (lengths : list Z) (fuel : nat)
    (probes : nat) (stats : BatchFit.Stats) :
  BatchFit.searchBucket BatchFit.neverFits 8 fuel probes lengths 1 1 stats = None.
Proof.
  destruct fuel as [|[|fuel]]; [reflexivity | reflexivity |].
  cbn [BatchFit.searchBucket]. cbv zeta.
  change (SizeT.sub (SizeT.add 1 1 / 2) 1) with 0.
  change (8 <? SizeT.sub 0 1) with true. cbv iota.
  change (SizeT.sub (SizeT.add 1 0 / 2) 1) with (SizeT.modulus - 1).
  change (8 <? SizeT.sub (SizeT.modulus - 1) 1) with true. cbv iota.
  apply searchBucket_wrapped_never_returns.
Qed.

Lemma collectStats_never_fitting (fuel : nat) :
  BatchFit.collectStats fuel exampleOptions BatchFit.neverFits false = None.
Proof.
  do 7 (destruct fuel as [|fuel]; [reflexivity|]).
  set (n := S (S (S (S (S (S (S fuel))))))).
  unfold BatchFit.collectStats.
  change (BatchFit.roundUpMaxLength (max_length exampleOptions)
            (mini_batch_fit_step exampleOptions)) with (Some 16).
  cbv beta iota zeta.
  change (BatchFit.restrictClasses (input_types exampleOptions) 0
            (repeat 16 (Z.to_nat (BatchFit.numberOfInputFiles exampleOptions))))
    with (Done [16; 16]).
  cbv beta iota.
  change (mini_batch_fit_step exampleOptions) with 8.
  change (BatchFit.growMaxBatch BatchFit.neverFits [16; 16] n 0 8 512)
    with (Some (1%nat, 512)).
  cbv beta iota.
  unfold n at 2. cbn [BatchFit.forBuckets].
  change (8 <=? 16) with true. cbv beta iota zeta.
  change (BatchFit.searchBucket BatchFit.neverFits 8 n 1
            (map (Z.min 8) [16; 16]) 1 512 [])
    with (Some (7%nat, 1, 7, @nil (list Z * Z))).
  cbv beta iota zeta.
  change (SizeT.add 8 8 <=? 16) with true. cbv iota.
  rewrite searchBucket_from_one_never_returns. reflexivity.
Qed.

(** An engine that every batch fits never lets the doubling phase end:
    the probe with step 8 and maximal length 16 does not return, however
    many iterations it is given. *)
Lemma always_fitting_probe_never_returns :
  ~ exists (fuel : nat) (r : Res (BatchFit.Stats * bool)),
      BatchFit.collectStats fuel exampleOptions BatchFit.alwaysFits false
      = Some r.
Proof.
  intros (fuel & r & H). unfold BatchFit.collectStats in H.
  change (BatchFit.roundUpMaxLength (max_length exampleOptions)
            (mini_batch_fit_step exampleOptions)) with (Some 16) in H.
  cbv beta iota zeta in H.
  change (BatchFit.restrictClasses (input_types exampleOptions) 0
            (repeat 16 (Z.to_nat (BatchFit.numberOfInputFiles exampleOptions))))
    with (Done [16; 16]) in H.
  cbv beta iota in H.
  rewrite growMaxBatch_always_fitting in H. discriminate H.
Qed.

(** Whatever the engine answers: the doubling phase ends as soon as one
    of its probes does not fit; and with a step of at least 1, the search
    of a bucket that is entered with an upper bound [maxBatch] between 3
    and [2^63] ends. *)
Lemma probe_loops_return_within_bounds
    (fits : nat -> list Z -> Z -> bool) (step : Z) (localMaxes : list Z) :
  (forall (first : Z) (n probes : nat) (maxBatch : Z),
     fits (probes + n)%nat (map (Z.min first) localMaxes)
          (BatchFit.doubled n maxBatch) = false ->
     exists fuel r,
       BatchFit.growMaxBatch fits localMaxes fuel probes first maxBatch = Some r)
  /\ (forall (lengths : list Z) (probes : nat) (maxBatch : Z)
             (stats : BatchFit.Stats),
        1 <= step ->
        3 <= maxBatch <= 2 ^ 63 ->
        exists fuel r,
          BatchFit.searchBucket fits step fuel probes lengths 1 maxBatch stats
          = Some r).
Proof.
  split.
  - intros first n probes maxBatch Hno. exists (S n).
    exact (growMaxBatch_returns fits localMaxes first n probes maxBatch Hno).
  - intros lengths probes maxBatch stats Hstep Hbound.
    exists (Z.to_nat maxBatch).
    apply searchBucket_returns; lia.
Qed.

(** On an engine that takes up to 7 sentences, a search left at
    [start = 2], [end = 1] probes the size 1 again and again: the
    difference [end - start] has wrapped around and stays above the
    step. *)
Lemma searchBucket_stuck_above_the_end (lengths : list Z) (fuel : nat) :
  forall (probes : nat) (stats : BatchFit.Stats),
  BatchFit.searchBucket (BatchFit.fitsUpTo 7) 8 fuel probes lengths 2 1 stats
  = None.
Proof.
  induction fuel as [|fuel IH]; intros probes stats; [reflexivity|].
  cbn [BatchFit.searchBucket]. cbv zeta.
  change (BatchFit.fitsUpTo 7 probes lengths (SizeT.add 2 1 / 2)) with true.
  cbv iota.
  change (SizeT.add (SizeT.add 2 1 / 2) 1) with 2.
  change (8 <? SizeT.sub 1 2) with true. cbv iota.
  apply IH.
Qed.

Lemma searchBucket_entered_with_one (lengths : list Z) (fuel : nat)
    (probes : nat) (stats : BatchFit.Stats) :
  BatchFit.searchBucket (BatchFit.fitsUpTo 7) 8 fuel probes lengths 1 1 stats
  = None.
Proof.
  destruct fuel as [|fuel]; [reflexivity|].
  cbn [BatchFit.searchBucket]. cbv zeta.
  change (BatchFit.fitsUpTo 7 probes lengths (SizeT.add 1 1 / 2)) with true.
  cbv iota.
  change (SizeT.add (SizeT.add 1 1 / 2) 1) with 2.
  change (8 <? SizeT.sub 1 2) with true. cbv iota.
  apply searchBucket_stuck_above_the_end.
Qed.

(** C9 (the code departs from the claim).  The claim: for every engine,
    every step of at least 1 and every maximal length the probe runs to
    completion.  Take a workspace that holds batches of up to 7 sentences,
    step 8 and maximal length 16.  The doubling phase ends at once with
    [maxBatch = 512]; the search of the first bucket ends after six probes
    with [start = 1] and nothing recorded, so the second bucket is entered
    with [maxBatch = 1]; there the first probe fits, [start] becomes 2,
    the unsigned [end - start] wraps around, and the do-while never ends:
    the probe does not return, however many iterations it is given. *)
Theorem C9_probe_hangs_after_a_bucket_in_which_nothing_fits :
  1 <= mini_batch_fit_step exampleOptions
  /\ BatchFit.growMaxBatch (BatchFit.fitsUpTo 7) [16; 16] 1 0 8 512
     = Some (1%nat, 512)
  /\ BatchFit.searchBucket (BatchFit.fitsUpTo 7) 8 6 1 [8; 8] 1 512 []
     = Some (7%nat, 1, 7, [])
  /\ (forall fuel : nat,
        BatchFit.searchBucket (BatchFit.fitsUpTo 7) 8 fuel 7 [16; 16] 1 1 []
        = None)
  /\ forall fuel : nat,
       BatchFit.collectStats fuel exampleOptions (BatchFit.fitsUpTo 7) false
       = None.
Proof.
  split; [cbn; lia|]. split; [reflexivity|]. split; [reflexivity|].
  split; [intros fuel; apply searchBucket_entered_with_one|].
  intros fuel.
  do 6 (destruct fuel as [|fuel]; [reflexivity|]).
  set (n := S (S (S (S (S (S fuel)))))).
  unfold BatchFit.collectStats.
  change (BatchFit.roundUpMaxLength (max_length exampleOptions)
            (mini_batch_fit_step exampleOptions)) with (Some 16).
  cbv beta iota zeta.
  change (BatchFit.restrictClasses (input_types exampleOptions) 0
            (repeat 16 (Z.to_nat (BatchFit.numberOfInputFiles exampleOptions))))
    with (Done [16; 16]).
  cbv beta iota.
  change (mini_batch_fit_step exampleOptions) with 8.
  change (BatchFit.growMaxBatch (BatchFit.fitsUpTo 7) [16; 16] n 0 8 512)
    with (Some (1%nat, 512)).
  cbv beta iota.
  unfold n at 2. cbn [BatchFit.forBuckets].
  change (8 <=? 16) with true. cbv beta iota zeta.
  change (BatchFit.searchBucket (BatchFit.fitsUpTo 7) 8 n 1
            (map (Z.min 8) [16; 16]) 1 512 [])
    with (Some (7%nat, 1, 7, @nil (list Z * Z))).
  cbv beta iota zeta.
  change (SizeT.add 8 8 <=? 16) with true. cbv iota.
  rewrite searchBucket_entered_with_one. reflexivity.
Qed.

(** What that probe returns. *)
Lemma collectStats_up_to_64 :
  BatchFit.collectStats 100 exampleOptions (BatchFit.fitsUpTo 64) false
  = Some (Done ([([8; 8], 64); ([16; 16], 33); ([16; 16], 49); ([16; 16], 57)],
                false)).
Proof. vm_compute. reflexivity. Qed.

(** ** Reading lines *)

Lemma back_of_snoc (body : list ascii) (c : ascii) :
  FileStream.back (body ++ [c]) = c.
Proof. unfold FileStream.back. apply last_last. Qed.

Lemma pop_back_of_snoc (body : list ascii) (c : ascii) :
  FileStream.pop_back (body ++ [c]) = body.
Proof. unfold FileStream.pop_back. apply removelast_last. Qed.

Lemma empty_of_snoc (body : list ascii) (c : ascii) :
  FileStream.empty (body ++ [c]) = false.
Proof. destruct body; reflexivity. Qed.

(** C10.  Let [std::getline] leave the stream [in'] and the line [line'].
    With [badbit] set the wrapper aborts, and it aborts in no other case,
    the end of the file included.  Otherwise it returns [in'] and: the
    line without its last character when the read succeeded and that
    character is a carriage return (one is removed, a second one before it
    stays); the line as it is when the read failed, when the line is
    empty, or when its last character is something else. *)
Theorem C10_getline_strips_one_CR
    (in_ in' : FileStream.istream) (line line' : list ascii) :
  FileStream.std_getline in_ line = (in', line') ->
  (FileStream.bad in' = true ->
   FileStream.getline in_ line = Fatal "Error reading from stream")
  /\ (forall msg, FileStream.getline in_ line = Fatal msg ->
        FileStream.bad in' = true)
  /\ (FileStream.bad in' = false -> FileStream.eofbit in' = true ->
      exists r, FileStream.getline in_ line = Done r)
  /\ (forall body,
        FileStream.bad in' = false ->
        FileStream.to_bool in' = true ->
        line' = body ++ [FileStream.CR] ->
        FileStream.getline in_ line = Done (in', body))
  /\ (FileStream.bad in' = false ->
      FileStream.to_bool in' = false
      \/ line' = []
      \/ (exists body c, line' = body ++ [c] /\ c <> FileStream.CR) ->
      FileStream.getline in_ line = Done (in', line')).
Proof.
  intros Hstd. unfold FileStream.getline. rewrite Hstd.
  repeat apply conj.
  - intros Hbad. rewrite Hbad. reflexivity.
  - intros msg. destruct (FileStream.bad in'); [reflexivity|].
    destruct (_ && _); discriminate.
  - intros Hbad _. rewrite Hbad. destruct (_ && _); eexists; reflexivity.
  - intros body Hbad Hok ->. rewrite Hbad, Hok.
    rewrite empty_of_snoc, back_of_snoc, pop_back_of_snoc, Ascii.eqb_refl.
    reflexivity.
  - intros Hbad Hcase. rewrite Hbad.
    destruct Hcase as [Hfail | [-> | (body & c & -> & Hc)]].
    + rewrite Hfail. reflexivity.
    + rewrite andb_false_r. reflexivity.
    + rewrite back_of_snoc. apply Ascii.eqb_neq in Hc. rewrite Hc.
      rewrite andb_false_r. reflexivity.
Qed.

(** The claim on the text [a CR CR LF b]: the first line comes back as
    [a CR]; the second, cut short by the end of the file, as [b]. *)
Lemma C10_getline_strips_one_CR_witness :
  FileStream.getline
    (FileStream.streamOf ["a"%char; FileStream.CR; FileStream.CR;
                          FileStream.LF; "b"%char]) []
  = Done (FileStream.streamOf ["b"%char], ["a"%char; FileStream.CR])
  /\ exists r, FileStream.getline (FileStream.streamOf ["b"%char]) [] = Done r.
Proof.
  split.
  - apply (C10_getline_strips_one_CR
             (FileStream.streamOf ["a"%char; FileStream.CR; FileStream.CR;
                                   FileStream.LF; "b"%char])
             (FileStream.streamOf ["b"%char]) []
             ["a"%char; FileStream.CR; FileStream.CR] eq_refl);
      reflexivity.
  - apply (C10_getline_strips_one_CR (FileStream.streamOf ["b"%char])
             {| FileStream.rdbuf := FileStream.Eof;
                FileStream.eofbit := true;
                FileStream.failbit := false;
                FileStream.badbit := false |} [] ["b"%char] eq_refl);
      reflexivity.
Defined.

(** A read error is the one way to the abort; the end of the file on an
    exhausted stream only fails the read and leaves the line alone. *)
Lemma getline_examples :
  FileStream.getline
    {| FileStream.rdbuf := FileStream.Chr "a" FileStream.ReadError;
       FileStream.eofbit := false; FileStream.failbit := false;
       FileStream.badbit := false |} []
  = Fatal "Error reading from stream"
  /\ FileStream.getline (FileStream.streamOf []) [FileStream.CR]
     = Done ({| FileStream.rdbuf := FileStream.Eof;
                FileStream.eofbit := true; FileStream.failbit := true;
                FileStream.badbit := false |}, []).
Proof. split; reflexivity. Qed.

(** * Further properties of the modelled code *)

(** ** Cost scaling over a run *)

Lemma run_app (a b : list bool) : forall g : CostScale.State,
  CostScale.run (a ++ b) g = bindRes (CostScale.run a g) (CostScale.run b).
Proof.
  induction a as [|o a IH]; intros g; [reflexivity|].
  cbn [app CostScale.run].
  destruct (CostScale.onStepResult o g) as [g1 | | |]; cbn [bindRes];
    [apply IH | reflexivity | reflexivity | reflexivity].
Qed.

(** What one step keeps: the configuration, and a clean-step count below
    the frequency. *)
Lemma step_keeps_configuration (o : bool) (g : CostScale.State) :
  CostScale.costScale_ g = true ->
  1 <= CostScale.costScaleFreq_ g < SizeT.modulus ->
  0 <= CostScale.noNanSeen_ g < CostScale.costScaleFreq_ g ->
  exists g',
    CostScale.onStepResult o g = Done g'
    /\ 0 <= CostScale.noNanSeen_ g' < CostScale.costScaleFreq_ g'
    /\ CostScale.costScale_ g' = true
    /\ CostScale.costScaleFreq_ g' = CostScale.costScaleFreq_ g
    /\ CostScale.costScaleMultiplier_ g' = CostScale.costScaleMultiplier_ g
    /\ CostScale.costScaleNanTolerance_ g' = CostScale.costScaleNanTolerance_ g
    /\ CostScale.costScaleNanRange_ g' = CostScale.costScaleNanRange_ g
    /\ CostScale.costScaleFactorMinimum_ g' = CostScale.costScaleFactorMinimum_ g.
Proof.
  intros Hon Hfreq Hcount. destruct o; cbn [CostScale.onStepResult].
  - unfold CostScale.decreaseCostScaleFactor. rewrite Hon. cbn [negb].
    cbv zeta. fold (CostScale.afterNanCounted g).
    destruct (_ && _).
    + eexists. split; [reflexivity|].
      destruct (F32.gtb _ _); cbn; repeat split; auto; lia.
    + eexists. split; [reflexivity|]. cbn. repeat split; auto; lia.
  - unfold CostScale.increaseCostScaleFactor. rewrite Hon. cbn [negb].
    cbn.
    destruct (CostScale.costScaleFreq_ g =? 0) eqn:E;
      [apply Z.eqb_eq in E; lia|].
    assert (Hinc : SizeT.incr (CostScale.noNanSeen_ g)
                   = CostScale.noNanSeen_ g + 1).
    { unfold SizeT.incr, SizeT.add. apply wrap_small.
      unfold SizeT.inRange. lia. }
    rewrite Hinc.
    destruct ((CostScale.noNanSeen_ g + 1) mod CostScale.costScaleFreq_ g =? 0)
      eqn:Em.
    + eexists. split; [reflexivity|]. cbn. repeat split; auto; lia.
    + eexists. split; [reflexivity|]. cbn. repeat split; auto; try lia.
      apply Z.eqb_neq in Em.
      assert (CostScale.noNanSeen_ g + 1 <> CostScale.costScaleFreq_ g).
      { intros Heq. apply Em. rewrite Heq. apply Z_mod_same_full. }
      lia.
Qed.

(** X1.  With cost scaling on and a frequency of at least 1, every
    sequence of step outcomes runs through: no call divides by zero, the
    count of clean steps stays below the frequency, and the frequency,
    multiplier, tolerance, range and minimum are what they were. *)
Theorem X1_run_never_stops_and_keeps_configuration (outcomes : list bool) :
  forall g : CostScale.State,
  CostScale.costScale_ g = true ->
  1 <= CostScale.costScaleFreq_ g < SizeT.modulus ->
  0 <= CostScale.noNanSeen_ g < CostScale.costScaleFreq_ g ->
  exists g',
    CostScale.run outcomes g = Done g'
    /\ 0 <= CostScale.noNanSeen_ g' < CostScale.costScaleFreq_ g'
    /\ CostScale.costScale_ g' = true
    /\ CostScale.costScaleFreq_ g' = CostScale.costScaleFreq_ g
    /\ CostScale.costScaleMultiplier_ g' = CostScale.costScaleMultiplier_ g
    /\ CostScale.costScaleNanTolerance_ g' = CostScale.costScaleNanTolerance_ g
    /\ CostScale.costScaleNanRange_ g' = CostScale.costScaleNanRange_ g
    /\ CostScale.costScaleFactorMinimum_ g' = CostScale.costScaleFactorMinimum_ g.
Proof.
  induction outcomes as [|o outcomes IH]; intros g Hon Hfreq Hcount.
  - exists g. cbn. repeat split; auto; lia.
  - destruct (step_keeps_configuration o g Hon Hfreq Hcount)
      as (g1 & Hstep & Hc1 & Hon1 & Hf1 & Hm1 & Ht1 & Hr1 & Hmin1).
    cbn [CostScale.run]. rewrite Hstep. cbn [bindRes].
    destruct (IH g1 Hon1 ltac:(rewrite Hf1; exact Hfreq) Hc1)
      as (g' & Hrun & Hc & Hon' & Hf & Hm & Ht & Hr & Hmin).
    exists g'. split; [exact Hrun|].
    repeat split; try lia; congruence.
Qed.

Lemma X1_run_never_stops_and_keeps_configuration_witness :
  exists g',
    CostScale.run [false; true; true; false; false; true]
      CostScale.configured_0_2_2_0_4_1 = Done g'
    /\ 0 <= CostScale.noNanSeen_ g' < CostScale.costScaleFreq_ g'
    /\ CostScale.costScale_ g' = true
    /\ CostScale.costScaleFreq_ g' = 2
    /\ CostScale.costScaleMultiplier_ g' = F32.two
    /\ CostScale.costScaleNanTolerance_ g' = F32.zero
    /\ CostScale.costScaleNanRange_ g' = 4
    /\ CostScale.costScaleFactorMinimum_ g' = F32.one.
Proof.
  apply (X1_run_never_stops_and_keeps_configuration
           [false; true; true; false; false; true]
           CostScale.configured_0_2_2_0_4_1).
  - reflexivity.
  - unfold SizeT.modulus. cbn. lia.
  - cbn. lia.
Defined.

(** Clean steps short of the frequency are only counted. *)
Lemma clean_steps_are_counted (m : nat) : forall g : CostScale.State,
  CostScale.costScale_ g = true ->
  0 <= CostScale.noNanSeen_ g ->
  CostScale.noNanSeen_ g + Z.of_nat m < CostScale.costScaleFreq_ g ->
  CostScale.costScaleFreq_ g < SizeT.modulus ->
  CostScale.run (repeat false m) g
  = Done (CostScale.set_noNanSeen_ (CostScale.noNanSeen_ g + Z.of_nat m) g).
Proof.
  induction m as [|m IH]; intros g Hon H0 Hlt Hfreq.
  - cbn. rewrite Z.add_0_r. destruct g; reflexivity.
  - cbn [repeat CostScale.run CostScale.onStepResult].
    unfold CostScale.increaseCostScaleFactor. rewrite Hon. cbn [negb]. cbn.
    destruct (CostScale.costScaleFreq_ g =? 0) eqn:E;
      [apply Z.eqb_eq in E; lia|].
    assert (Hinc : SizeT.incr (CostScale.noNanSeen_ g)
                   = CostScale.noNanSeen_ g + 1).
    { unfold SizeT.incr, SizeT.add. apply wrap_small.
      unfold SizeT.inRange. lia. }
    rewrite Hinc.
    rewrite Z.mod_small by lia.
    destruct (CostScale.noNanSeen_ g + 1 =? 0) eqn:E1;
      [apply Z.eqb_eq in E1; lia|].
    cbn [bindRes]. rewrite IH; cbn; try assumption; try lia.
    replace (CostScale.noNanSeen_ g + 1 + Z.of_nat m)
      with (CostScale.noNanSeen_ g + Z.of_nat (S m)) by lia.
    reflexivity.
Qed.

(** X2.  From a zero count of clean steps, with frequency [n >= 1]:
    fewer than [n] clean steps in a row leave the factor alone and are
    only counted; the [n]-th multiplies the factor by the multiplier,
    once, and clears both counters. *)
Theorem X2_factor_grows_on_every_nth_clean_step
    (g : CostScale.State) (n : nat) :
  CostScale.costScale_ g = true ->
  (1 <= n)%nat ->
  CostScale.costScaleFreq_ g = Z.of_nat n ->
  Z.of_nat n < SizeT.modulus ->
  CostScale.noNanSeen_ g = 0 ->
  (forall m : nat, (m < n)%nat ->
     exists g',
       CostScale.run (repeat false m) g = Done g'
       /\ CostScale.costScaleFactor_ g' = CostScale.costScaleFactor_ g
       /\ CostScale.noNanSeen_ g' = Z.of_nat m
       /\ CostScale.nanSeen_ g' = CostScale.nanSeen_ g)
  /\ exists g',
       CostScale.run (repeat false n) g = Done g'
       /\ CostScale.costScaleFactor_ g'
          = F32.mul (CostScale.costScaleFactor_ g)
                    (CostScale.costScaleMultiplier_ g)
       /\ CostScale.noNanSeen_ g' = 0
       /\ CostScale.nanSeen_ g' = 0.
Proof.
  intros Hon Hn Hfreq Hsize Hzero.
  assert (Hshort : forall m : nat, (m < n)%nat ->
            CostScale.run (repeat false m) g
            = Done (CostScale.set_noNanSeen_ (Z.of_nat m) g)).
  { intros m Hm.
    rewrite clean_steps_are_counted; try assumption; try lia.
    rewrite Hzero. reflexivity. }
  split.
  - intros m Hm. eexists. split; [apply Hshort; exact Hm|]. cbn. auto.
  - destruct n as [|m]; [lia|].
    replace (S m) with (m + 1)%nat by lia.
    rewrite repeat_app, run_app, (Hshort m) by lia.
    cbn [bindRes repeat CostScale.run CostScale.onStepResult].
    destruct (increase_on_frequency (CostScale.set_noNanSeen_ (Z.of_nat m) g))
      as (g' & Hrun & Hnan & Hclean & Hfactor).
    + exact Hon.
    + cbn. lia.
    + cbn. unfold SizeT.incr, SizeT.add.
      rewrite wrap_small by (unfold SizeT.inRange; lia).
      rewrite Hfreq. replace (Z.of_nat m + 1) with (Z.of_nat (S m)) by lia.
      apply Z_mod_same_full.
    + exists g'. rewrite Hrun. cbn [bindRes]. cbn in Hfactor. auto.
Qed.

Lemma X2_factor_grows_on_every_nth_clean_step_witness :
  (forall m : nat, (m < 2)%nat ->
     exists g',
       CostScale.run (repeat false m) CostScale.configured_0_2_2_0_4_1 = Done g'
       /\ CostScale.costScaleFactor_ g' = F32.one
       /\ CostScale.noNanSeen_ g' = Z.of_nat m
       /\ CostScale.nanSeen_ g' = 0)
  /\ exists g',
       CostScale.run (repeat false 2) CostScale.configured_0_2_2_0_4_1 = Done g'
       /\ CostScale.costScaleFactor_ g' = F32.mul F32.one F32.two
       /\ CostScale.noNanSeen_ g' = 0
       /\ CostScale.nanSeen_ g' = 0.
Proof.
  apply (X2_factor_grows_on_every_nth_clean_step
           CostScale.configured_0_2_2_0_4_1 2).
  - reflexivity.
  - lia.
  - reflexivity.
  - unfold SizeT.modulus. cbn. lia.
  - reflexivity.
Defined.

(** X3.  A NaN step that brings the count of steps since the last reset
    to less than the range is only counted: the factor, the clean-step
    count and the log stay as they are, whatever the tolerance. *)
Theorem X3_no_decrease_before_range_is_reached (g : CostScale.State) :
  CostScale.costScale_ g = true ->
  0 <= CostScale.nanSeen_ g ->
  0 <= CostScale.noNanSeen_ g ->
  CostScale.nanSeen_ g + 1 + CostScale.noNanSeen_ g < CostScale.costScaleNanRange_ g ->
  CostScale.costScaleNanRange_ g <= SizeT.modulus ->
  exists g',
    CostScale.decreaseCostScaleFactor g = Done g'
    /\ CostScale.costScaleFactor_ g' = CostScale.costScaleFactor_ g
    /\ CostScale.nanSeen_ g' = CostScale.nanSeen_ g + 1
    /\ CostScale.noNanSeen_ g' = CostScale.noNanSeen_ g
    /\ CostScale.logged g' = CostScale.logged g.
Proof.
  intros Hon Hnan Hclean Hshort Hrange.
  assert (Hinc : SizeT.incr (CostScale.nanSeen_ g) = CostScale.nanSeen_ g + 1).
  { unfold SizeT.incr, SizeT.add. apply wrap_small. unfold SizeT.inRange. lia. }
  assert (Hthr : CostScale.overThreshold (CostScale.afterNanCounted g) = false).
  { unfold CostScale.overThreshold, CostScale.total_of, CostScale.afterNanCounted.
    cbn. rewrite Hinc. unfold SizeT.add.
    rewrite wrap_small by (unfold SizeT.inRange; lia).
    destruct (CostScale.costScaleNanRange_ g
              <=? CostScale.nanSeen_ g + 1 + CostScale.noNanSeen_ g) eqn:E;
      [apply Z.leb_le in E; lia | reflexivity]. }
  exists (CostScale.afterNanCounted g).
  split; [exact (decrease_below_threshold g Hon Hthr)|].
  unfold CostScale.afterNanCounted. cbn. rewrite Hinc. auto.
Qed.

Lemma X3_no_decrease_before_range_is_reached_witness :
  exists g',
    CostScale.decreaseCostScaleFactor CostScale.configured_0_2_2_0_4_1 = Done g'
    /\ CostScale.costScaleFactor_ g' = F32.one
    /\ CostScale.nanSeen_ g' = 0 + 1
    /\ CostScale.noNanSeen_ g' = 0
    /\ CostScale.logged g' = [].
Proof.
  apply (X3_no_decrease_before_range_is_reached CostScale.configured_0_2_2_0_4_1).
  - reflexivity.
  - cbn. lia.
  - cbn. lia.
  - cbn. lia.
  - unfold SizeT.modulus. cbn. lia.
Defined.

(** X4.  Past the threshold with a factor that is not above the minimum
    (at it, below it, or NaN), the decrease path divides nothing: it logs
    the at-minimum warning and clears both counters. *)
Theorem X4_decrease_at_the_floor_only_warns (g : CostScale.State) :
  CostScale.costScale_ g = true ->
  CostScale.overThreshold (CostScale.afterNanCounted g) = true ->
  F32.gtb (CostScale.costScaleFactor_ g) (CostScale.costScaleFactorMinimum_ g)
  = false ->
  exists g',
    CostScale.decreaseCostScaleFactor g = Done g'
    /\ CostScale.costScaleFactor_ g' = CostScale.costScaleFactor_ g
    /\ CostScale.nanSeen_ g' = 0 /\ CostScale.noNanSeen_ g' = 0
    /\ CostScale.logged g'
       = CostScale.logged g
         ++ [CostScale.WarnAtMinimum
               (CostScale.nanPercent_of (CostScale.afterNanCounted g))
               (CostScale.total_of (CostScale.afterNanCounted g))
               (CostScale.costScaleFactor_ g)].
Proof.
  intros Hon Hthr Hfloor.
  unfold CostScale.decreaseCostScaleFactor. rewrite Hon. cbn [negb].
  cbv zeta. fold (CostScale.afterNanCounted g).
  unfold CostScale.overThreshold in Hthr. rewrite Hthr.
  change (CostScale.costScaleFactor_ (CostScale.afterNanCounted g))
    with (CostScale.costScaleFactor_ g).
  change (CostScale.costScaleFactorMinimum_ (CostScale.afterNanCounted g))
    with (CostScale.costScaleFactorMinimum_ g).
  rewrite Hfloor. eexists. split; [reflexivity|]. cbn. auto.
Qed.

Lemma X4_decrease_at_the_floor_only_warns_witness :
  exists g',
    CostScale.decreaseCostScaleFactor
      (CostScale.set_nanSeen_ 3 CostScale.configured_0_2_2_0_4_1) = Done g'
    /\ CostScale.costScaleFactor_ g' = F32.one
    /\ CostScale.nanSeen_ g' = 0 /\ CostScale.noNanSeen_ g' = 0
    /\ CostScale.logged g' = [CostScale.WarnAtMinimum F32.one 4 F32.one].
Proof.
  apply (X4_decrease_at_the_floor_only_warns
           (CostScale.set_nanSeen_ 3 CostScale.configured_0_2_2_0_4_1));
    reflexivity.
Defined.

(** ** Normalisation factor and gradient check *)

(** The factor before any rescaling. *)
Lemma plain_factor (g : CostScale.State) (options_ : Options)
    (updateTrgWords : Z) :
  F32.valid (CostScale.costScaleFactor_ g) = true ->
  (let normalizationFactor := F32.one in
   let normalizationFactor :=
     if CostScale.costScale_ g
     then F32.mul normalizationFactor (CostScale.costScaleFactor_ g)
     else normalizationFactor in
   if normalize_gradient options_
   then F32.mul normalizationFactor (F32.of_Z updateTrgWords)
   else normalizationFactor)
  = F32.mul (Normalization.costScaleTerm g)
            (Normalization.tokenCountTerm options_ updateTrgWords).
Proof.
  intros Hvalid.
  unfold Normalization.costScaleTerm, Normalization.tokenCountTerm.
  destruct (CostScale.costScale_ g), (normalize_gradient options_);
    cbv zeta; rewrite ?(mul_one_l _ Hvalid), ?(mul_one_r _ Hvalid);
    reflexivity.
Qed.

(** A norm that is not finite ends the function before any rescaling. *)
Lemma non_finite_norm_plain_product
    (logf expf : float -> float) (g : CostScale.State) (options_ : Options)
    (d : Normalization.DynamicScaling) (scheduler_ : option Scheduler)
    (gNorm : float) (updateTrgWords : Z) :
  F32.isFinite gNorm = false ->
  F32.valid (CostScale.costScaleFactor_ g) = true ->
  Normalization.computeNormalizationFactor logf expf g options_ d scheduler_
    gNorm updateTrgWords
  = Done (F32.mul (Normalization.costScaleTerm g)
                  (Normalization.tokenCountTerm options_ updateTrgWords)).
Proof.
  intros Hnan Hvalid.
  rewrite <- (plain_factor g options_ updateTrgWords Hvalid).
  unfold Normalization.computeNormalizationFactor. rewrite Hnan.
  reflexivity.
Qed.

(** X5.  For a gradient norm that is NaN or infinite the function returns
    the plain product of the cost-scale term and the token term, with
    dynamic scaling on or off, and without reading the scheduler (it may
    be null). *)
Theorem X5_non_finite_norm_is_not_rescaled
    (logf expf : float -> float) (g : CostScale.State) (options_ : Options)
    (d : Normalization.DynamicScaling) (scheduler_ : option Scheduler)
    (gNorm : float) (updateTrgWords : Z) :
  F32.isFinite gNorm = false ->
  F32.valid (CostScale.costScaleFactor_ g) = true ->
  Normalization.computeNormalizationFactor logf expf g options_ d scheduler_
    gNorm updateTrgWords
  = Done (F32.mul (Normalization.costScaleTerm g)
                  (Normalization.tokenCountTerm options_ updateTrgWords)).
Proof.
  intros Hnan Hvalid.
  apply non_finite_norm_plain_product; assumption.
Qed.

Lemma X5_non_finite_norm_is_not_rescaled_witness :
  Normalization.computeNormalizationFactor (fun x => x) (fun x => x)
    CostScale.configured_1_1000_2_0_1_1p5 exampleOptions
    Examples.dynamicLog
    None S754_nan 100
  = Done (F32.mul F32.two (F32.of_Z 100)).
Proof.
  exact (X5_non_finite_norm_is_not_rescaled (fun x => x) (fun x => x)
           CostScale.configured_1_1000_2_0_1_1p5 exampleOptions
           Examples.dynamicLog None S754_nan 100 eq_refl eq_refl).
Defined.

(** X6.  With dynamic scaling on and no scheduler attached, a finite
    gradient norm sends the function through the null pointer; only a
    norm that is not finite gets a result. *)
Theorem X6_dynamic_scaling_needs_the_scheduler
    (logf expf : float -> float) (g : CostScale.State) (options_ : Options)
    (d : Normalization.DynamicScaling) (gNorm : float) (updateTrgWords : Z) :
  Normalization.dynamicGradientScaling_ d = true ->
  F32.valid (CostScale.costScaleFactor_ g) = true ->
  Normalization.computeNormalizationFactor logf expf g options_ d None
    gNorm updateTrgWords
  = if F32.isFinite gNorm then Undefined
    else Done (F32.mul (Normalization.costScaleTerm g)
                       (Normalization.tokenCountTerm options_ updateTrgWords)).
Proof.
  intros Hdyn Hvalid.
  destruct (F32.isFinite gNorm) eqn:Hfin.
  - unfold Normalization.computeNormalizationFactor.
    rewrite Hfin, Hdyn. reflexivity.
  - apply non_finite_norm_plain_product; assumption.
Qed.

Lemma X6_dynamic_scaling_needs_the_scheduler_witness :
  Normalization.computeNormalizationFactor (fun x => x) (fun x => x)
    CostScale.configured_1_1000_2_0_1_1p5 exampleOptions
    Examples.dynamicLinear
    None F32.one 100
  = Undefined.
Proof.
  exact (X6_dynamic_scaling_needs_the_scheduler (fun x => x) (fun x => x)
           CostScale.configured_1_1000_2_0_1_1p5 exampleOptions
           Examples.dynamicLinear F32.one 100 eq_refl eq_refl).
Defined.

(** X7.  With dynamic scaling on, nothing is rescaled before the
    scheduler has seen as many batches as the window of the statistics in
    use (the log ones or the plain ones): the result is the plain
    product, whatever the norm and the statistics. *)
Theorem X7_no_rescaling_before_the_window_is_full
    (logf expf : float -> float) (g : CostScale.State) (options_ : Options)
    (d : Normalization.DynamicScaling) (sch : Scheduler)
    (gNorm : float) (updateTrgWords : Z) :
  Normalization.dynamicGradientScaling_ d = true ->
  F32.valid (CostScale.costScaleFactor_ g) = true ->
  numberOfBatches sch
  < fst (fst (if Normalization.dynamicGradientScalingUseLogs_ d
              then getLogGradientNormStats sch
              else getGradientNormStats sch)) ->
  Normalization.computeNormalizationFactor logf expf g options_ d (Some sch)
    gNorm updateTrgWords
  = Done (F32.mul (Normalization.costScaleTerm g)
                  (Normalization.tokenCountTerm options_ updateTrgWords)).
Proof.
  intros Hdyn Hvalid Hwindow.
  destruct (F32.isFinite gNorm) eqn:Hfin;
    [|apply non_finite_norm_plain_product; assumption].
  rewrite <- (plain_factor g options_ updateTrgWords Hvalid).
  unfold Normalization.computeNormalizationFactor.
  rewrite Hfin, Hdyn. cbn [negb]. cbv zeta.
  destruct (if Normalization.dynamicGradientScalingUseLogs_ d
            then getLogGradientNormStats sch
            else getGradientNormStats sch) as [[window avg] var].
  cbn [fst] in Hwindow.
  destruct (window <=? numberOfBatches sch) eqn:E;
    [apply Z.leb_le in E; lia|].
  reflexivity.
Qed.

Lemma X7_no_rescaling_before_the_window_is_full_witness :
  Normalization.computeNormalizationFactor (fun x => x) (fun x => x)
    CostScale.configured_1_1000_2_0_1_1p5 exampleOptions
    Examples.dynamicLinear
    (Some Checkpoint.exampleScheduler) (F32.of_Z 1000) 100
  = Done (F32.mul F32.two (F32.of_Z 100)).
Proof.
  apply (X7_no_rescaling_before_the_window_is_full (fun x => x) (fun x => x)
           CostScale.configured_1_1000_2_0_1_1p5 exampleOptions
           Examples.dynamicLinear Checkpoint.exampleScheduler
           (F32.of_Z 1000) 100).
  - reflexivity.
  - reflexivity.
  - cbn. lia.
Defined.

Section GradientCheckFacts.
Variable Tensor : Type.
Variable subtensor : Tensor -> Z -> Z -> Tensor.
Variable IsNaN : Tensor -> bool * bool.
Variable L2Norm : Tensor -> float.

(** X8.  What [checkNanOrNorm] can return: NaN; or, with dynamic scaling
    off, zero; or, with dynamic scaling on, the norm of the slice, and
    then that norm is finite and strictly positive.  A norm of zero, an
    infinite or a negative one is reported as NaN. *)
Theorem X8_check_returns_nan_zero_or_a_positive_norm
    (checkGradientNan_ : bool) (g : CostScale.State)
    (d : Normalization.DynamicScaling) (grads : list Tensor)
    (i : nat) (begin end_ : Z) (r : float) :
  GradientCheck.checkNanOrNorm Tensor subtensor IsNaN L2Norm
    checkGradientNan_ g d grads i begin end_ = Done r ->
  r = S754_nan
  \/ (Normalization.dynamicGradientScaling_ d = false /\ r = F32.zero)
  \/ (Normalization.dynamicGradientScaling_ d = true
      /\ F32.isFinite r = true /\ F32.gtb r F32.zero = true
      /\ exists grad,
           nth_error grads i = Some grad
           /\ r = L2Norm (subtensor grad begin (SizeT.sub end_ begin))).
Proof.
  unfold GradientCheck.checkNanOrNorm.
  destruct (nth_error grads i) as [grad|]; [|discriminate].
  cbv zeta.
  destruct (if checkGradientNan_ || CostScale.costScale_ g
            then let '(hasNan, hasInf) := IsNaN _ in hasNan || hasInf
            else false).
  - intros [= <-]. left. reflexivity.
  - destruct (Normalization.dynamicGradientScaling_ d).
    + destruct (F32.isFinite _ && F32.gtb _ _) eqn:E; intros [= <-].
      * apply andb_prop in E. destruct E as [Hfin Hpos].
        right. right. repeat split; try assumption.
        exists grad. split; reflexivity.
      * left. reflexivity.
    + intros [= <-]. right. left. split; reflexivity.
Qed.

End GradientCheckFacts.

Lemma X8_check_returns_nan_zero_or_a_positive_norm_witness :
  F32.two = S754_nan
  \/ (Normalization.dynamicGradientScaling_ Examples.dynamicLinear = false
      /\ F32.two = F32.zero)
  \/ (Normalization.dynamicGradientScaling_ Examples.dynamicLinear = true
      /\ F32.isFinite F32.two = true /\ F32.gtb F32.two F32.zero = true
      /\ exists grad,
           nth_error [F32.two] 0 = Some grad
           /\ F32.two
              = Examples.ownNorm
                  (Examples.wholeSlice grad 0 (SizeT.sub 4 0))).
Proof.
  exact (X8_check_returns_nan_zero_or_a_positive_norm float
           Examples.wholeSlice Examples.flagNonFinite Examples.ownNorm
           false CostScale.configured_1_1000_2_0_1_1p5
           Examples.dynamicLinear [F32.two] 0 0 4 F32.two eq_refl).
Defined.


(** ** Checkpoint restore, replica by replica *)

Lemma Type_eqb_eq (a b : io.Type_) : io.Type_eqb a b = true <-> a = b.
Proof. destruct a, b; cbn; split; intros H; try reflexivity; discriminate H. Qed.

Lemma settled_type
    (convertBytes : io.Type_ -> io.Type_ -> io.Data -> io.Data)
    (item : io.Item) (t : io.Type_) :
  io.type (Traces.settled convertBytes item t) = t.
Proof.
  unfold Traces.settled.
  destruct (io.Type_eqb (io.type item) t) eqn:E; [|reflexivity].
  apply Type_eqb_eq. exact E.
Qed.

Lemma settled_shape
    (convertBytes : io.Type_ -> io.Type_ -> io.Data -> io.Data)
    (item : io.Item) (t : io.Type_) :
  io.shape (Traces.settled convertBytes item t) = io.shape item.
Proof.
  unfold Traces.settled. destruct (io.Type_eqb (io.type item) t); reflexivity.
Qed.

Lemma settled_again
    (convertBytes : io.Type_ -> io.Type_ -> io.Data -> io.Data)
    (item : io.Item) (t : io.Type_) :
  Traces.settled convertBytes (Traces.settled convertBytes item t) t
  = Traces.settled convertBytes item t.
Proof.
  unfold Traces.settled at 1. rewrite settled_type.
  destruct (io.Type_eqb t t) eqn:E; [reflexivity|].
  assert (H : io.Type_eqb t t = true) by (apply Type_eqb_eq; reflexivity).
  congruence.
Qed.

(** One round of the loop on a replica of the master copy's shape. *)
Lemma restoreReplicas_round
    (convertBytes : io.Type_ -> io.Type_ -> io.Data -> io.Data)
    (graph : Checkpoint.ExpressionGraph)
    (graphs : list Checkpoint.ExpressionGraph) (i : nat) (item : io.Item) :
  Checkpoint.vals_shape graph = io.shape item ->
  Checkpoint.restoreReplicas convertBytes (graph :: graphs) i item
  = (Traces.restoreRound
       (Traces.settled convertBytes item (Checkpoint.vals_type graph)) i
     ++ fst (Checkpoint.restoreReplicas convertBytes graphs (S i)
               (Traces.settled convertBytes item (Checkpoint.vals_type graph))),
     snd (Checkpoint.restoreReplicas convertBytes graphs (S i)
            (Traces.settled convertBytes item (Checkpoint.vals_type graph)))).
Proof.
  intros Hshape. cbn [Checkpoint.restoreReplicas].
  assert (E : io.Shape_eqb (Checkpoint.vals_shape graph) (io.shape item) = true)
    by (apply Shape_eqb_eq; exact Hshape).
  rewrite E. unfold Traces.settled.
  destruct (io.Type_eqb (io.type item) (Checkpoint.vals_type graph));
    cbn [negb];
    match goal with
    | |- context [Checkpoint.restoreReplicas ?c ?gs ?j ?it] =>
      destruct (Checkpoint.restoreReplicas c gs j it) as [t r]
    end; cbn; destruct r; reflexivity.
Qed.

Lemma restoreReplicas_all_match
    (convertBytes : io.Type_ -> io.Type_ -> io.Data -> io.Data)
    (t : io.Type_) (graphs : list Checkpoint.ExpressionGraph) :
  forall (i : nat) (item : io.Item),
  (forall graph, In graph graphs ->
     Checkpoint.vals_shape graph = io.shape item
     /\ Checkpoint.vals_type graph = t) ->
  Checkpoint.restoreReplicas convertBytes graphs i item
  = (flat_map (Traces.restoreRound (Traces.settled convertBytes item t))
              (seq i (List.length graphs)), Done tt).
Proof.
  induction graphs as [|graph graphs IH]; intros i item Hall; [reflexivity|].
  destruct (Hall graph (or_introl eq_refl)) as [Hshape Htype].
  rewrite restoreReplicas_round by exact Hshape.
  rewrite Htype, IH.
  - rewrite settled_again. reflexivity.
  - intros graph' Hin. rewrite settled_shape.
    apply Hall. right. exact Hin.
Qed.

Lemma setTargets_app (a b : list Checkpoint.Event) :
  Traces.setTargets (a ++ b) = Traces.setTargets a ++ Traces.setTargets b.
Proof. unfold Traces.setTargets. apply flat_map_app. Qed.

Lemma restoreReplicas_until_mismatch
    (convertBytes : io.Type_ -> io.Type_ -> io.Data -> io.Data)
    (bad : Checkpoint.ExpressionGraph)
    (rest : list Checkpoint.ExpressionGraph)
    (before : list Checkpoint.ExpressionGraph) :
  forall (i : nat) (item : io.Item),
  (forall graph, In graph before ->
     Checkpoint.vals_shape graph = io.shape item) ->
  Checkpoint.vals_shape bad <> io.shape item ->
  exists trace msg,
    Checkpoint.restoreReplicas convertBytes (before ++ bad :: rest) i item
    = (trace, Fatal msg)
    /\ Traces.setTargets trace = seq i (List.length before).
Proof.
  induction before as [|graph before IH]; intros i item Hall Hbad.
  - cbn [app]. rewrite restoreReplicas_stops_at_mismatch by exact Hbad.
    do 2 eexists. split; reflexivity.
  - cbn [app]. rewrite restoreReplicas_round
      by (apply Hall; left; reflexivity).
    destruct (IH (S i)
                (Traces.settled convertBytes item (Checkpoint.vals_type graph)))
      as (trace & msg & Hrun & Hsets).
    + intros graph' Hin. rewrite settled_shape. apply Hall. right. exact Hin.
    + rewrite settled_shape. exact Hbad.
    + rewrite Hrun. cbn [fst snd]. do 2 eexists. split; [reflexivity|].
      rewrite setTargets_app, Hsets. reflexivity.
Qed.

(** X10.  The shape of every replica is compared just before that replica
    is overwritten: when the first [k] replicas have the master copy's
    shape and the next one has not, the restore ends in the fatal abort
    with exactly the replicas [0 .. k-1] already overwritten. *)
Theorem X10_restore_overwrites_the_replicas_before_a_mismatch
    (convertBytes : io.Type_ -> io.Type_ -> io.Data -> io.Data)
    (fs : Checkpoint.FileSystem) (options_ : Options)
    (this : Checkpoint.GraphGroup)
    (shard0 : Checkpoint.OptimizerHandle)
    (shards : list Checkpoint.OptimizerHandle)
    (masterParameters : io.Item)
    (before rest : list Checkpoint.ExpressionGraph)
    (bad : Checkpoint.ExpressionGraph) :
  Checkpoint.filesystem_exists fs (model options_ ++ ".optimizer.npz") = true ->
  Checkpoint.optimizerShards_ this = shard0 :: shards ->
  find (fun item => String.eqb (io.name item) "master_parameters")
       (Checkpoint.loadItems fs (model options_ ++ ".optimizer.npz"))
  = Some masterParameters ->
  Checkpoint.graphs_ this = before ++ bad :: rest ->
  (forall graph, In graph before ->
     Checkpoint.vals_shape graph = io.shape masterParameters) ->
  Checkpoint.vals_shape bad <> io.shape masterParameters ->
  exists trace msg,
    Checkpoint.restoreFromCheckpoint convertBytes fs options_ this
    = (trace, Fatal msg)
    /\ Traces.setTargets trace = seq 0 (List.length before).
Proof.
  intros Hfile Hshards Hfound Hgraphs Hall Hbad.
  unfold Checkpoint.restoreFromCheckpoint.
  rewrite Hfile. cbn [negb]. cbv zeta. rewrite Hfound, Hshards, Hgraphs.
  destruct (restoreReplicas_until_mismatch convertBytes bad rest before 0
              masterParameters Hall Hbad) as (trace & msg & Hrun & Hsets).
  rewrite Hrun. cbn [Checkpoint.at_ nth_error Checkpoint.ret Checkpoint.bind
                      Checkpoint.emit app].
  do 2 eexists. split; [reflexivity|].
  change (Traces.setTargets (Checkpoint.OptimizerLoad shard0
            (Checkpoint.loadItems fs (model options_ ++ ".optimizer.npz"))
            (shard0 :: shards)
            (map Checkpoint.getBackend (before ++ bad :: rest)) :: trace))
    with (Traces.setTargets trace).
  exact Hsets.
Qed.

(** The restore on replicas that all match the master copy. *)
Lemma restore_with_matching_replicas
    (convertBytes : io.Type_ -> io.Type_ -> io.Data -> io.Data)
    (fs : Checkpoint.FileSystem) (options_ : Options)
    (this : Checkpoint.GraphGroup)
    (shard0 : Checkpoint.OptimizerHandle)
    (shards : list Checkpoint.OptimizerHandle)
    (masterParameters : io.Item) (t : io.Type_) :
  Checkpoint.filesystem_exists fs (model options_ ++ ".optimizer.npz") = true ->
  Checkpoint.optimizerShards_ this = shard0 :: shards ->
  find (fun item => String.eqb (io.name item) "master_parameters")
       (Checkpoint.loadItems fs (model options_ ++ ".optimizer.npz"))
  = Some masterParameters ->
  (forall graph, In graph (Checkpoint.graphs_ this) ->
     Checkpoint.vals_shape graph = io.shape masterParameters
     /\ Checkpoint.vals_type graph = t) ->
  Checkpoint.restoreFromCheckpoint convertBytes fs options_ this
  = (Checkpoint.OptimizerLoad shard0
       (Checkpoint.loadItems fs (model options_ ++ ".optimizer.npz"))
       (Checkpoint.optimizerShards_ this)
       (map Checkpoint.getBackend (Checkpoint.graphs_ this))
     :: flat_map
          (Traces.restoreRound (Traces.settled convertBytes masterParameters t))
          (seq 0 (List.length (Checkpoint.graphs_ this)))
     ++ [Checkpoint.LOG Checkpoint.info
           "[training] Master parameters and optimizers restored from training checkpoint {} and {}"],
     Done tt).
Proof.
  intros Hfile Hshards Hfound Hall.
  unfold Checkpoint.restoreFromCheckpoint.
  rewrite Hfile. cbn [negb]. cbv zeta. rewrite Hfound.
  rewrite (restoreReplicas_all_match convertBytes t _ 0 masterParameters Hall).
  rewrite Hshards. reflexivity.
Qed.

(** X11.  When every replica has the master copy's shape and the
    replicas share one element type, the restore goes through: after the
    optimizer's load each replica in turn is run forward, set and
    cleared, and all are set from the same item, the master copy itself
    or, when its type is another, its conversion. *)
Theorem X11_restore_sets_every_replica_from_one_item
    (convertBytes : io.Type_ -> io.Type_ -> io.Data -> io.Data)
    (fs : Checkpoint.FileSystem) (options_ : Options)
    (this : Checkpoint.GraphGroup)
    (shard0 : Checkpoint.OptimizerHandle)
    (shards : list Checkpoint.OptimizerHandle)
    (masterParameters : io.Item) (t : io.Type_) :
  Checkpoint.filesystem_exists fs (model options_ ++ ".optimizer.npz") = true ->
  Checkpoint.optimizerShards_ this = shard0 :: shards ->
  find (fun item => String.eqb (io.name item) "master_parameters")
       (Checkpoint.loadItems fs (model options_ ++ ".optimizer.npz"))
  = Some masterParameters ->
  (forall graph, In graph (Checkpoint.graphs_ this) ->
     Checkpoint.vals_shape graph = io.shape masterParameters
     /\ Checkpoint.vals_type graph = t) ->
  Checkpoint.restoreFromCheckpoint convertBytes fs options_ this
  = (Checkpoint.OptimizerLoad shard0
       (Checkpoint.loadItems fs (model options_ ++ ".optimizer.npz"))
       (Checkpoint.optimizerShards_ this)
       (map Checkpoint.getBackend (Checkpoint.graphs_ this))
     :: flat_map
          (Traces.restoreRound (Traces.settled convertBytes masterParameters t))
          (seq 0 (List.length (Checkpoint.graphs_ this)))
     ++ [Checkpoint.LOG Checkpoint.info
           "[training] Master parameters and optimizers restored from training checkpoint {} and {}"],
     Done tt).
Proof.
  intros Hfile Hshards Hfound Hall.
  apply restore_with_matching_replicas with (shards := shards); assumption.
Qed.

Lemma X10_restore_overwrites_the_replicas_before_a_mismatch_witness :
  exists trace msg,
    Checkpoint.restoreFromCheckpoint Checkpoint.keepBytes
      (Checkpoint.withCheckpoint [Checkpoint.adamMoments; Examples.halfMaster])
      exampleOptions Examples.unevenGroup
    = (trace, Fatal msg)
    /\ Traces.setTargets trace = seq 0 1.
Proof.
  apply (X10_restore_overwrites_the_replicas_before_a_mismatch
           Checkpoint.keepBytes
           (Checkpoint.withCheckpoint [Checkpoint.adamMoments; Examples.halfMaster])
           exampleOptions Examples.unevenGroup (Checkpoint.optimizer_ 0)
           [Checkpoint.optimizer_ 1] Examples.halfMaster
           [Checkpoint.exampleReplica 0] [] Examples.wideReplica).
  - reflexivity.
  - reflexivity.
  - reflexivity.
  - reflexivity.
  - intros graph [<- | []]. reflexivity.
  - discriminate.
Defined.

Lemma X11_restore_sets_every_replica_from_one_item_witness :
  Checkpoint.restoreFromCheckpoint Checkpoint.keepBytes
    (Checkpoint.withCheckpoint [Checkpoint.adamMoments; Examples.halfMaster])
    exampleOptions Checkpoint.exampleGroup
  = (Checkpoint.OptimizerLoad (Checkpoint.optimizer_ 0)
       [Checkpoint.adamMoments; Examples.halfMaster]
       [Checkpoint.optimizer_ 0; Checkpoint.optimizer_ 1] [0%nat; 1%nat]
     :: flat_map
          (Traces.restoreRound
             (Checkpoint.convert Checkpoint.keepBytes Examples.halfMaster
                io.float32))
          [0%nat; 1%nat]
     ++ [Checkpoint.LOG Checkpoint.info
           "[training] Master parameters and optimizers restored from training checkpoint {} and {}"],
     Done tt).
Proof.
  apply (X11_restore_sets_every_replica_from_one_item Checkpoint.keepBytes
           (Checkpoint.withCheckpoint [Checkpoint.adamMoments; Examples.halfMaster])
           exampleOptions Checkpoint.exampleGroup (Checkpoint.optimizer_ 0)
           [Checkpoint.optimizer_ 1] Examples.halfMaster io.float32).
  - reflexivity.
  - reflexivity.
  - reflexivity.
  - intros graph [<- | [<- | []]]; split; reflexivity.
Defined.

(** ** Saving the model: the snapshot name *)

Lemma wrap_negative (n : Z) :
  - SizeT.modulus <= n < 0 -> SizeT.wrap n = n + SizeT.modulus.
Proof.
  intros H. unfold SizeT.wrap.
  rewrite <- (Z_mod_plus_full n 1 SizeT.modulus).
  apply Z.mod_small. lia.
Qed.

(** Replacing the last four characters, whatever they are. *)
Lemma replace_last_four (stem suffix str : string) :
  String.length suffix = 4%nat ->
  Z.of_nat (String.length (stem ++ suffix)) < SizeT.modulus ->
  Checkpoint.string_replace (stem ++ suffix)
    (SizeT.sub (Z.of_nat (String.length (stem ++ suffix))) 4) 4 str
  = Checkpoint.ret (stem ++ str)%string.
Proof.
  intros Hfour Hsize. rewrite length_append in *. rewrite Hfour in *.
  unfold SizeT.sub.
  replace (Z.of_nat (String.length stem + 4) - 4)
    with (Z.of_nat (String.length stem)) by lia.
  rewrite wrap_small by (unfold SizeT.inRange; lia).
  unfold Checkpoint.string_replace.
  rewrite length_append, Hfour.
  destruct (Z.of_nat (String.length stem + 4) <? Z.of_nat (String.length stem))
    eqn:E; [apply Z.ltb_lt in E; lia|].
  replace (Z.min 4 (Z.of_nat (String.length stem + 4) - Z.of_nat (String.length stem)))
    with 4 by lia.
  replace (Z.of_nat (String.length stem + 4) - Z.of_nat (String.length stem) - 4)
    with 0 by lia.
  rewrite Nat2Z.id, substring_prefix. cbn [Z.to_nat].
  rewrite substring_none, append_empty_r. reflexivity.
Qed.

(** X12.  A save that is not final, in a run that does not overwrite,
    with a model path of fewer than four characters: [size() - 4] wraps
    around, [replace] throws, and nothing has been written, neither the
    snapshot nor the model file. *)
Theorem X12_short_model_path_throws_before_any_write
    (options_ : Options) (this : Checkpoint.GraphGroup) :
  overwrite options_ = false ->
  (String.length (model options_) < 4)%nat ->
  Checkpoint.saveModel options_ this false
  = ([], Thrown "basic_string::replace").
Proof.
  intros Hover Hshort. unfold Checkpoint.saveModel. rewrite Hover.
  cbn [negb Checkpoint.when]. cbv zeta.
  unfold Checkpoint.string_replace, SizeT.sub.
  rewrite wrap_negative by (unfold SizeT.modulus; lia).
  destruct (Z.of_nat (String.length (model options_))
            <? Z.of_nat (String.length (model options_)) - 4 + SizeT.modulus)
    eqn:E.
  - reflexivity.
  - apply Z.ltb_ge in E. unfold SizeT.modulus in E. lia.
Qed.

Lemma X12_short_model_path_throws_before_any_write_witness :
  Checkpoint.saveModel (Examples.savingTo "m") Checkpoint.exampleGroup false
  = ([], Thrown "basic_string::replace").
Proof.
  apply (X12_short_model_path_throws_before_any_write
           (Examples.savingTo "m") Checkpoint.exampleGroup).
  - reflexivity.
  - cbn. lia.
Defined.

(** X13.  The snapshot of a save that is not final drops the last four
    characters of the model path, whatever they are, and always ends in
    [.npz]: [model.bin] gives [model.iter<N>.npz]. *)
Theorem X13_snapshot_name_always_ends_in_npz
    (options_ : Options) (this : Checkpoint.GraphGroup)
    (m : Checkpoint.ModelHandle) (models : list Checkpoint.ModelHandle)
    (graph : Checkpoint.ExpressionGraph)
    (graphs : list Checkpoint.ExpressionGraph) (stem suffix : string) :
  Checkpoint.models_ this = m :: models ->
  Checkpoint.graphs_ this = graph :: graphs ->
  overwrite options_ = false ->
  model options_ = (stem ++ suffix)%string ->
  String.length suffix = 4%nat ->
  Z.of_nat (String.length (model options_)) < SizeT.modulus ->
  Checkpoint.saveModel options_ this false
  = (Checkpoint.ModelSave m 0
       (stem ++ ".iter"
        ++ match Checkpoint.scheduler_ this with
           | Some sch => Checkpoint.to_string (numberOfBatches sch)
           | None => "unknown"
           end
        ++ ".npz")%string None
     :: Checkpoint.canonicalWrites options_ this m, Done tt).
Proof.
  intros Hm Hg Hover Hname Hfour Hsize.
  unfold Checkpoint.saveModel, Checkpoint.canonicalWrites.
  rewrite Hover, Hm, Hg, Hname. rewrite Hname in Hsize.
  cbn [negb Checkpoint.when].
  rewrite (replace_last_four stem suffix _ Hfour Hsize).
  destruct (Checkpoint.scheduler_ this); reflexivity.
Qed.

Lemma X13_snapshot_name_always_ends_in_npz_witness :
  Checkpoint.saveModel (Examples.savingTo "model.bin") Checkpoint.exampleGroup
    false
  = ([Checkpoint.ModelSave (Checkpoint.model_ 0) 0 "model.iter5.npz" None;
      Checkpoint.ModelSave (Checkpoint.model_ 0) 0 "model.bin" (Some true);
      Checkpoint.SchedulerSave "model.bin"], Done tt).
Proof.
  apply (X13_snapshot_name_always_ends_in_npz (Examples.savingTo "model.bin")
           Checkpoint.exampleGroup (Checkpoint.model_ 0) [Checkpoint.model_ 1]
           (Checkpoint.exampleReplica 0) [Checkpoint.exampleReplica 1]
           "model" ".bin").
  - reflexivity.
  - reflexivity.
  - reflexivity.
  - reflexivity.
  - reflexivity.
  - unfold SizeT.modulus. cbn. lia.
Defined.

(** ** Loading *)

Lemma loadReplicas_enough_models (this : Checkpoint.GraphGroup)
    (file : string) (markReloaded : option bool)
    (graphs : list Checkpoint.ExpressionGraph) : forall i : nat,
  (i + List.length graphs <= List.length (Checkpoint.models_ this))%nat ->
  Checkpoint.loadReplicas this graphs i file markReloaded
  = (Traces.loadTrace (Checkpoint.models_ this) i (List.length graphs)
       file markReloaded, Done tt).
Proof.
  induction graphs as [|graph graphs IH]; intros i Hi; [reflexivity|].
  cbn [Checkpoint.loadReplicas List.length] in *.
  unfold Checkpoint.at_.
  rewrite (nth_error_nth' _ (Checkpoint.model_ 0)) by lia.
  cbn. rewrite IH by lia. reflexivity.
Qed.

Lemma loadReplicas_too_few_models (this : Checkpoint.GraphGroup)
    (file : string) (markReloaded : option bool)
    (graphs : list Checkpoint.ExpressionGraph) : forall i : nat,
  (i <= List.length (Checkpoint.models_ this))%nat ->
  (List.length (Checkpoint.models_ this) < i + List.length graphs)%nat ->
  Checkpoint.loadReplicas this graphs i file markReloaded
  = (Traces.loadTrace (Checkpoint.models_ this) i
       (List.length (Checkpoint.models_ this) - i) file markReloaded,
     Undefined).
Proof.
  induction graphs as [|graph graphs IH]; intros i Hi Hfew;
    [cbn in Hfew; lia|].
  cbn [Checkpoint.loadReplicas List.length] in *.
  unfold Checkpoint.at_.
  destruct (Nat.eq_dec i (List.length (Checkpoint.models_ this))) as [-> | Hne].
  - rewrite (proj2 (nth_error_None _ _)) by lia.
    rewrite Nat.sub_diag. reflexivity.
  - rewrite (nth_error_nth' _ (Checkpoint.model_ 0)) by lia.
    cbn. rewrite IH by lia.
    replace (List.length (Checkpoint.models_ this) - i)%nat
      with (S (List.length (Checkpoint.models_ this) - S i)) by lia.
    reflexivity.
Qed.

(** X14.  A reload (no-reload off, model file present, a model for every
    replica): the scheduler is loaded if there is one, then every replica
    is loaded once, in order, from the model file with the default for
    [markReloaded], then the checkpoint restore runs; the call ends as
    the restore ends. *)
Theorem X14_reload_loads_every_replica_then_restores
    (convertBytes : io.Type_ -> io.Type_ -> io.Data -> io.Data)
    (fs : Checkpoint.FileSystem) (options_ : Options)
    (this : Checkpoint.GraphGroup) :
  no_reload options_ = false ->
  Checkpoint.filesystem_exists fs (model options_) = true ->
  (List.length (Checkpoint.graphs_ this)
   <= List.length (Checkpoint.models_ this))%nat ->
  Checkpoint.load convertBytes fs options_ this
  = ((if Checkpoint.notNull (Checkpoint.scheduler_ this)
      then [Checkpoint.SchedulerLoad (model options_)] else [])
     ++ Traces.loadTrace (Checkpoint.models_ this) 0
          (List.length (Checkpoint.graphs_ this)) (model options_) None
     ++ fst (Checkpoint.restoreFromCheckpoint convertBytes fs options_ this),
     snd (Checkpoint.restoreFromCheckpoint convertBytes fs options_ this)).
Proof.
  intros Hreload Hfile Hmodels. unfold Checkpoint.load.
  rewrite Hreload, Hfile. cbn [negb]. cbv zeta.
  rewrite loadReplicas_enough_models by (cbn; lia).
  destruct (Checkpoint.restoreFromCheckpoint convertBytes fs options_ this)
    as [t r].
  destruct (Checkpoint.notNull (Checkpoint.scheduler_ this));
    cbn; destruct r; reflexivity.
Qed.

Lemma X14_reload_loads_every_replica_then_restores_witness :
  Checkpoint.load Checkpoint.keepBytes
    (Checkpoint.withCheckpoint [Checkpoint.adamMoments])
    Checkpoint.reloadingOptions Checkpoint.exampleGroup
  = ([Checkpoint.SchedulerLoad "model.npz";
      Checkpoint.ModelLoad (Checkpoint.model_ 0) 0 "model.npz" None;
      Checkpoint.ModelLoad (Checkpoint.model_ 1) 1 "model.npz" None;
      Checkpoint.OptimizerLoad (Checkpoint.optimizer_ 0)
        [Checkpoint.adamMoments]
        [Checkpoint.optimizer_ 0; Checkpoint.optimizer_ 1] [0%nat; 1%nat];
      Checkpoint.LOG Checkpoint.warn
        "No master parameters found in checkpoint, parameters reloaded from last inference model"],
     Done tt).
Proof.
  apply (X14_reload_loads_every_replica_then_restores Checkpoint.keepBytes
           (Checkpoint.withCheckpoint [Checkpoint.adamMoments])
           Checkpoint.reloadingOptions Checkpoint.exampleGroup).
  - reflexivity.
  - reflexivity.
  - cbn. lia.
Defined.

(** X15.  With fewer models than replicas a reload indexes [models_]
    past its end: the replicas that have a model are loaded, then the
    behaviour is undefined, before the checkpoint is looked at. *)
Theorem X15_reload_with_too_few_models_is_undefined
    (convertBytes : io.Type_ -> io.Type_ -> io.Data -> io.Data)
    (fs : Checkpoint.FileSystem) (options_ : Options)
    (this : Checkpoint.GraphGroup) :
  no_reload options_ = false ->
  Checkpoint.filesystem_exists fs (model options_) = true ->
  (List.length (Checkpoint.models_ this)
   < List.length (Checkpoint.graphs_ this))%nat ->
  Checkpoint.load convertBytes fs options_ this
  = ((if Checkpoint.notNull (Checkpoint.scheduler_ this)
      then [Checkpoint.SchedulerLoad (model options_)] else [])
     ++ Traces.loadTrace (Checkpoint.models_ this) 0
          (List.length (Checkpoint.models_ this)) (model options_) None,
     Undefined).
Proof.
  intros Hreload Hfile Hfew. unfold Checkpoint.load.
  rewrite Hreload, Hfile. cbn [negb]. cbv zeta.
  rewrite loadReplicas_too_few_models by (cbn; lia).
  rewrite Nat.sub_0_r.
  destruct (Checkpoint.notNull (Checkpoint.scheduler_ this)); reflexivity.
Qed.

Lemma X15_reload_with_too_few_models_is_undefined_witness :
  Checkpoint.load Checkpoint.keepBytes
    (Checkpoint.withCheckpoint [Checkpoint.adamMoments])
    Checkpoint.reloadingOptions Examples.oneModelGroup
  = ([Checkpoint.SchedulerLoad "model.npz";
      Checkpoint.ModelLoad (Checkpoint.model_ 0) 0 "model.npz" None],
     Undefined).
Proof.
  apply (X15_reload_with_too_few_models_is_undefined Checkpoint.keepBytes
           (Checkpoint.withCheckpoint [Checkpoint.adamMoments])
           Checkpoint.reloadingOptions Examples.oneModelGroup).
  - reflexivity.
  - reflexivity.
  - cbn. lia.
Defined.

(** ** Saving the checkpoint *)

Lemma find_snoc {A : Type} (p : A -> bool) (l : list A) (x : A) :
  find p l = None -> p x = true -> find p (l ++ [x]) = Some x.
Proof.
  induction l as [|y l IH]; cbn; intros Hnone Hx.
  - rewrite Hx. reflexivity.
  - destruct (p y); [discriminate Hnone | apply IH; assumption].
Qed.

(** The run of [saveCheckpoint] and the master copy among its items. *)
Lemma saveCheckpoint_items
    (options_ : Options) (this : Checkpoint.GraphGroup)
    (gathered : list io.Item) (valsBytes : nat -> io.Data)
    (shard0 : Checkpoint.OptimizerHandle)
    (shards : list Checkpoint.OptimizerHandle)
    (graph0 : Checkpoint.ExpressionGraph)
    (graphs : list Checkpoint.ExpressionGraph) :
  Checkpoint.optimizerShards_ this = shard0 :: shards ->
  Checkpoint.graphs_ this = graph0 :: graphs ->
  let isMaster := fun item => String.eqb (io.name item) "master_parameters" in
  let items :=
    match find isMaster gathered with
    | Some _ => gathered
    | None =>
      gathered ++ [Saving.getItem valsBytes 0 graph0 "master_parameters"]
    end in
  Saving.saveCheckpoint options_ this gathered valsBytes
  = ([Saving.OptimizerSave shard0 (Checkpoint.optimizerShards_ this);
      Saving.Call (Checkpoint.LOG Checkpoint.info
                     "[training] Saving training checkpoint to {} and {}");
      Saving.SaveItems (model options_ ++ ".optimizer.npz") items], Done tt)
  /\ find isMaster items
     = match find isMaster gathered with
       | Some master => Some master
       | None => Some (Saving.getItem valsBytes 0 graph0 "master_parameters")
       end.
Proof.
  intros Hshards Hgraphs isMaster items. subst items.
  unfold Saving.saveCheckpoint. rewrite Hshards, Hgraphs. cbv zeta.
  fold isMaster.
  destruct (find isMaster gathered) as [master|] eqn:Hfound.
  - split; [reflexivity | exact Hfound].
  - split; [reflexivity|]. apply find_snoc; [exact Hfound | reflexivity].
Qed.

(** X16.  [saveCheckpoint] writes one file, [<model>.optimizer.npz], and
    its items always hold a master-parameters item: the optimizer's own
    when it gathered one (the items are then written as gathered),
    else one taken from the parameters of replica 0 and appended. *)
Theorem X16_checkpoint_always_holds_master_parameters
    (options_ : Options) (this : Checkpoint.GraphGroup)
    (gathered : list io.Item) (valsBytes : nat -> io.Data)
    (shard0 : Checkpoint.OptimizerHandle)
    (shards : list Checkpoint.OptimizerHandle)
    (graph0 : Checkpoint.ExpressionGraph)
    (graphs : list Checkpoint.ExpressionGraph) :
  Checkpoint.optimizerShards_ this = shard0 :: shards ->
  Checkpoint.graphs_ this = graph0 :: graphs ->
  let isMaster := fun item => String.eqb (io.name item) "master_parameters" in
  let items :=
    match find isMaster gathered with
    | Some _ => gathered
    | None =>
      gathered ++ [Saving.getItem valsBytes 0 graph0 "master_parameters"]
    end in
  Saving.saveCheckpoint options_ this gathered valsBytes
  = ([Saving.OptimizerSave shard0 (Checkpoint.optimizerShards_ this);
      Saving.Call (Checkpoint.LOG Checkpoint.info
                     "[training] Saving training checkpoint to {} and {}");
      Saving.SaveItems (model options_ ++ ".optimizer.npz") items], Done tt)
  /\ find isMaster items
     = match find isMaster gathered with
       | Some master => Some master
       | None => Some (Saving.getItem valsBytes 0 graph0 "master_parameters")
       end.
Proof.
  intros Hshards Hgraphs.
  exact (saveCheckpoint_items options_ this gathered valsBytes shard0 shards
           graph0 graphs Hshards Hgraphs).
Qed.

Lemma X16_checkpoint_always_holds_master_parameters_witness :
  Saving.saveCheckpoint exampleOptions Checkpoint.exampleGroup
    [Checkpoint.adamMoments] (fun _ => [7; 7])
  = ([Saving.OptimizerSave (Checkpoint.optimizer_ 0)
        [Checkpoint.optimizer_ 0; Checkpoint.optimizer_ 1];
      Saving.Call (Checkpoint.LOG Checkpoint.info
                     "[training] Saving training checkpoint to {} and {}");
      Saving.SaveItems "model.npz.optimizer.npz"
        [Checkpoint.adamMoments;
         {| io.name := "master_parameters"; io.shape := [1; 10];
            io.type := io.float32; io.bytes := [7; 7] |}]], Done tt).
Proof.
  apply (X16_checkpoint_always_holds_master_parameters exampleOptions
           Checkpoint.exampleGroup [Checkpoint.adamMoments] (fun _ => [7; 7])
           (Checkpoint.optimizer_ 0) [Checkpoint.optimizer_ 1]
           (Checkpoint.exampleReplica 0) [Checkpoint.exampleReplica 1]
           eq_refl eq_refl).
Defined.

Lemma settled_same_type
    (convertBytes : io.Type_ -> io.Type_ -> io.Data -> io.Data)
    (item : io.Item) :
  Traces.settled convertBytes item (io.type item) = item.
Proof.
  unfold Traces.settled.
  destruct (io.Type_eqb (io.type item) (io.type item)) eqn:E; [reflexivity|].
  assert (H : io.Type_eqb (io.type item) (io.type item) = true)
    by (apply Type_eqb_eq; reflexivity).
  congruence.
Qed.

(** X17.  Save, then restore.  The optimizer gathers no master copy and
    all replicas have the shape and type of replica 0.  Then the file
    [saveCheckpoint] writes is one [restoreFromCheckpoint] accepts: it
    finds the master copy, converts nothing, aborts nowhere, and sets
    every replica from the parameters replica 0 had at the save. *)
Theorem X17_saved_checkpoint_restores_into_every_replica
    (convertBytes : io.Type_ -> io.Type_ -> io.Data -> io.Data)
    (fs : Checkpoint.FileSystem) (options_ : Options)
    (this : Checkpoint.GraphGroup)
    (gathered : list io.Item) (valsBytes : nat -> io.Data)
    (shard0 : Checkpoint.OptimizerHandle)
    (shards : list Checkpoint.OptimizerHandle)
    (graph0 : Checkpoint.ExpressionGraph)
    (graphs : list Checkpoint.ExpressionGraph) :
  Checkpoint.optimizerShards_ this = shard0 :: shards ->
  Checkpoint.graphs_ this = graph0 :: graphs ->
  find (fun item => String.eqb (io.name item) "master_parameters") gathered
  = None ->
  (forall graph, In graph graphs ->
     Checkpoint.vals_shape graph = Checkpoint.vals_shape graph0
     /\ Checkpoint.vals_type graph = Checkpoint.vals_type graph0) ->
  exists name items,
    Saving.savedItems
      (fst (Saving.saveCheckpoint options_ this gathered valsBytes))
    = [(name, items)]
    /\ Checkpoint.restoreFromCheckpoint convertBytes
         (Saving.afterSaveItems fs name items) options_ this
       = (Checkpoint.OptimizerLoad shard0 items
            (Checkpoint.optimizerShards_ this)
            (map Checkpoint.getBackend (Checkpoint.graphs_ this))
          :: flat_map
               (Traces.restoreRound
                  (Saving.getItem valsBytes 0 graph0 "master_parameters"))
               (seq 0 (List.length (Checkpoint.graphs_ this)))
          ++ [Checkpoint.LOG Checkpoint.info
                "[training] Master parameters and optimizers restored from training checkpoint {} and {}"],
          Done tt).
Proof.
  intros Hshards Hgraphs Hnone Hsame.
  destruct (saveCheckpoint_items options_ this
              gathered valsBytes shard0 shards graph0 graphs Hshards Hgraphs)
    as [Hsave Hfind].
  cbv zeta in Hsave, Hfind. rewrite Hnone in Hsave, Hfind.
  rewrite Hsave. cbn [fst Saving.savedItems flat_map app].
  do 2 eexists. split; [reflexivity|].
  assert (Hsettled :
            Traces.settled convertBytes
              (Saving.getItem valsBytes 0 graph0 "master_parameters")
              (Checkpoint.vals_type graph0)
            = Saving.getItem valsBytes 0 graph0 "master_parameters")
    by (apply settled_same_type).
  set (name := (model options_ ++ ".optimizer.npz")%string).
  set (items :=
         gathered ++ [Saving.getItem valsBytes 0 graph0 "master_parameters"])
    in *.
  assert (Hload : Checkpoint.loadItems (Saving.afterSaveItems fs name items) name
                  = items)
    by (cbn; rewrite String.eqb_refl; reflexivity).
  pose proof (restore_with_matching_replicas convertBytes
                (Saving.afterSaveItems fs name items) options_ this shard0
                shards (Saving.getItem valsBytes 0 graph0 "master_parameters")
                (Checkpoint.vals_type graph0)) as Hrestore.
  fold name in Hrestore. rewrite Hload, Hsettled in Hrestore.
  apply Hrestore.
  - cbn. rewrite String.eqb_refl. reflexivity.
  - exact Hshards.
  - exact Hfind.
  - rewrite Hgraphs. intros graph [<- | Hin].
    + split; reflexivity.
    + apply Hsame. exact Hin.
Qed.

Lemma X17_saved_checkpoint_restores_into_every_replica_witness :
  exists name items,
    Saving.savedItems
      (fst (Saving.saveCheckpoint exampleOptions Checkpoint.exampleGroup
              [Checkpoint.adamMoments] (fun _ => [7; 7])))
    = [(name, items)]
    /\ Checkpoint.restoreFromCheckpoint Checkpoint.keepBytes
         (Saving.afterSaveItems Checkpoint.noFiles name items) exampleOptions
         Checkpoint.exampleGroup
       = (Checkpoint.OptimizerLoad (Checkpoint.optimizer_ 0) items
            [Checkpoint.optimizer_ 0; Checkpoint.optimizer_ 1] [0%nat; 1%nat]
          :: flat_map
               (Traces.restoreRound
                  (Saving.getItem (fun _ => [7; 7]) 0
                     (Checkpoint.exampleReplica 0) "master_parameters"))
               [0%nat; 1%nat]
          ++ [Checkpoint.LOG Checkpoint.info
                "[training] Master parameters and optimizers restored from training checkpoint {} and {}"],
          Done tt).
Proof.
  apply (X17_saved_checkpoint_restores_into_every_replica Checkpoint.keepBytes
           Checkpoint.noFiles exampleOptions Checkpoint.exampleGroup
           [Checkpoint.adamMoments] (fun _ => [7; 7])
           (Checkpoint.optimizer_ 0) [Checkpoint.optimizer_ 1]
           (Checkpoint.exampleReplica 0) [Checkpoint.exampleReplica 1]).
  - reflexivity.
  - reflexivity.
  - reflexivity.
  - intros graph [<- | []]. split; reflexivity.
Defined.

(** ** The collective save *)

(** X18.  [save] writes nothing unless it runs on the main process with
    as many optimizer shards as replicas.  Off the main process it only
    passes its two barriers.  On the main process with differing counts
    it aborts right after the first barrier: no shard is swapped, no file
    is written, and the remaining barriers are never reached. *)
Theorem X18_save_writes_only_on_main_with_equal_counts
    (options_ : Options) (this : Checkpoint.GraphGroup)
    (gathered : list io.Item) (valsBytes : nat -> io.Data) (isFinal : bool) :
  Saving.save options_ this gathered valsBytes isFinal false
  = ([Saving.Barrier; Saving.Barrier], Done tt)
  /\ (List.length (Checkpoint.graphs_ this)
      <> List.length (Checkpoint.optimizerShards_ this) ->
      Saving.save options_ this gathered valsBytes isFinal true
      = ([Saving.Barrier],
         Fatal "Number of graphs and optimizers has to be equal ({} != {})")).
Proof.
  split; [reflexivity|].
  intros Hcount. apply Nat.eqb_neq in Hcount.
  unfold Saving.save, Checkpoint.swapWithSmoothed.
  rewrite Hcount. reflexivity.
Qed.

Lemma X18_save_writes_only_on_main_with_equal_counts_witness :
  Saving.save exampleOptions Examples.oneShardGroup [Checkpoint.adamMoments]
    (fun _ => [7; 7]) false false
  = ([Saving.Barrier; Saving.Barrier], Done tt)
  /\ Saving.save exampleOptions Examples.oneShardGroup [Checkpoint.adamMoments]
       (fun _ => [7; 7]) false true
     = ([Saving.Barrier],
        Fatal "Number of graphs and optimizers has to be equal ({} != {})").
Proof.
  destruct (X18_save_writes_only_on_main_with_equal_counts exampleOptions
              Examples.oneShardGroup [Checkpoint.adamMoments]
              (fun _ => [7; 7]) false) as [Hoff Hmain].
  split; [exact Hoff|]. apply Hmain. discriminate.
Defined.

Lemma swaps_with_equal_counts
    (graphs : list Checkpoint.ExpressionGraph)
    (opts : list Checkpoint.OptimizerHandle) :
  List.length graphs = List.length opts ->
  Checkpoint.swapWithSmoothed graphs opts
  = (Checkpoint.swapTrace opts true, Done tt)
  /\ Checkpoint.swapWithOriginal graphs opts
     = (Checkpoint.swapTrace opts false, Done tt).
Proof.
  intros Hlen.
  unfold Checkpoint.swapWithSmoothed, Checkpoint.swapWithOriginal,
    Checkpoint.swapTrace.
  rewrite Hlen, Nat.eqb_refl. cbn [negb Checkpoint.ABORT_IF Checkpoint.bind].
  rewrite !swapEach_trace by (cbn; lia).
  split; reflexivity.
Qed.

(** X19.  A save on the main process that goes through, step by step:
    barrier; every shard swapped with its smoothed copy and the result
    distributed; the validation, only on a final save with a scheduler;
    barrier; the writes of [saveModel]; every shard swapped back and the
    result distributed; the checkpoint; barrier.  So the writes of
    [saveModel] lie between the two rounds of swaps, and those of the
    checkpoint after the second. *)
Theorem X19_save_writes_the_model_between_the_two_swaps
    (options_ : Options) (this : Checkpoint.GraphGroup)
    (gathered : list io.Item) (valsBytes : nat -> io.Data) (isFinal : bool)
    (modelWrites : list Checkpoint.Event) (checkpointWrites : list Saving.Step) :
  List.length (Checkpoint.graphs_ this)
  = List.length (Checkpoint.optimizerShards_ this) ->
  Checkpoint.saveModel options_ this isFinal = (modelWrites, Done tt) ->
  Saving.saveCheckpoint options_ this gathered valsBytes
  = (checkpointWrites, Done tt) ->
  Saving.save options_ this gathered valsBytes isFinal true
  = (Saving.Barrier
     :: map Saving.Call
          (Checkpoint.swapTrace (Checkpoint.optimizerShards_ this) true)
     ++ (if isFinal && Checkpoint.notNull (Checkpoint.scheduler_ this)
         then [Saving.Validate isFinal] else [])
     ++ Saving.Barrier
     :: map Saving.Call modelWrites
     ++ map Saving.Call
          (Checkpoint.swapTrace (Checkpoint.optimizerShards_ this) false)
     ++ checkpointWrites
     ++ [Saving.Barrier], Done tt).
Proof.
  intros Hcount Hmodel Hcheckpoint.
  destruct (swaps_with_equal_counts _ _ Hcount) as [Hsmoothed Horiginal].
  unfold Saving.save.
  rewrite Hsmoothed, Horiginal, Hmodel, Hcheckpoint.
  destruct (isFinal && Checkpoint.notNull (Checkpoint.scheduler_ this));
    cbn; do 2 f_equal;
    repeat (rewrite <- app_assoc; cbn [app]); reflexivity.
Qed.

Lemma X19_save_writes_the_model_between_the_two_swaps_witness :
  Saving.save exampleOptions Checkpoint.exampleGroup [Checkpoint.adamMoments]
    (fun _ => [7; 7]) true true
  = ([Saving.Barrier;
      Saving.Call (Checkpoint.ShardSwapWithSmoothed (Checkpoint.optimizer_ 0) 0 0 2 true);
      Saving.Call (Checkpoint.ShardSwapWithSmoothed (Checkpoint.optimizer_ 1) 1 1 2 true);
      Saving.Call Checkpoint.Distribute;
      Saving.Validate true;
      Saving.Barrier;
      Saving.Call (Checkpoint.ModelSave (Checkpoint.model_ 0) 0 "model.npz" (Some true));
      Saving.Call (Checkpoint.SchedulerSave "model.npz");
      Saving.Call (Checkpoint.ShardSwapWithSmoothed (Checkpoint.optimizer_ 0) 0 0 2 false);
      Saving.Call (Checkpoint.ShardSwapWithSmoothed (Checkpoint.optimizer_ 1) 1 1 2 false);
      Saving.Call Checkpoint.Distribute;
      Saving.OptimizerSave (Checkpoint.optimizer_ 0)
        [Checkpoint.optimizer_ 0; Checkpoint.optimizer_ 1];
      Saving.Call (Checkpoint.LOG Checkpoint.info
                     "[training] Saving training checkpoint to {} and {}");
      Saving.SaveItems "model.npz.optimizer.npz"
        [Checkpoint.adamMoments;
         {| io.name := "master_parameters"; io.shape := [1; 10];
            io.type := io.float32; io.bytes := [7; 7] |}];
      Saving.Barrier], Done tt).
Proof.
  apply (X19_save_writes_the_model_between_the_two_swaps exampleOptions
           Checkpoint.exampleGroup [Checkpoint.adamMoments] (fun _ => [7; 7])
           true
           [Checkpoint.ModelSave (Checkpoint.model_ 0) 0 "model.npz" (Some true);
            Checkpoint.SchedulerSave "model.npz"]
           [Saving.OptimizerSave (Checkpoint.optimizer_ 0)
              [Checkpoint.optimizer_ 0; Checkpoint.optimizer_ 1];
            Saving.Call (Checkpoint.LOG Checkpoint.info
                           "[training] Saving training checkpoint to {} and {}");
            Saving.SaveItems "model.npz.optimizer.npz"
              [Checkpoint.adamMoments;
               {| io.name := "master_parameters"; io.shape := [1; 10];
                  io.type := io.float32; io.bytes := [7; 7] |}]]);
    reflexivity.
Defined.

(** ** Batch-fit probing: the input streams *)



Lemma assign_length (i : nat) (x : Z) (v : list Z) : forall j : nat,
  j = i -> List.length (BatchFit.assign j x v) = List.length v.
Proof.
  intros j ->. revert i. induction v as [|y v IH]; intros [|i]; cbn;
    try reflexivity.
  rewrite IH. reflexivity.
Qed.

Lemma nth_assign (x : Z) (v : list Z) : forall i j : nat,
  nth j (BatchFit.assign i x v) 0
  = if ((j =? i) && (i <? List.length v))%nat then x else nth j v 0.
Proof.
  induction v as [|y v IH]; intros i j.
  - cbn. rewrite andb_false_r. destruct i, j; reflexivity.
  - destruct i as [|i], j as [|j]; cbn [BatchFit.assign nth]; try reflexivity.
    rewrite IH. reflexivity.
Qed.

Lemma restrictClasses_within (inputTypes : list string) :
  forall (i : nat) (localMaxes : list Z),
  (i + List.length inputTypes <= List.length localMaxes)%nat ->
  exists r,
    BatchFit.restrictClasses inputTypes i localMaxes = Done r
    /\ List.length r = List.length localMaxes
    /\ forall j : nat,
         nth j r 0
         = if (i <=? j)%nat
              && String.eqb (nth (j - i) inputTypes ""%string) "class"
           then 1 else nth j localMaxes 0.
Proof.
  induction inputTypes as [|t rest IH]; intros i localMaxes Hfit.
  - exists localMaxes. split; [reflexivity|]. split; [reflexivity|].
    intros j. destruct (j - i)%nat; cbn; rewrite andb_false_r; reflexivity.
  - cbn [BatchFit.restrictClasses List.length] in *.
    destruct (String.eqb t "class") eqn:Et.
    + destruct (i <? List.length localMaxes)%nat eqn:Ei;
        [|apply Nat.ltb_ge in Ei; lia].
      destruct (IH (S i) (BatchFit.assign i 1 localMaxes)) as (r & Hr & Hlen & Hnth).
      { rewrite (assign_length i) by reflexivity. lia. }
      exists r. split; [exact Hr|].
      split; [rewrite Hlen; apply (assign_length i); reflexivity|].
      intros j. rewrite Hnth, nth_assign, Ei, andb_true_r.
      destruct (Nat.lt_trichotomy j i) as [Hlt | [-> | Hgt]].
      * replace (S i <=? j)%nat with false by (symmetry; apply Nat.leb_gt; lia).
        replace (i <=? j)%nat with false by (symmetry; apply Nat.leb_gt; lia).
        replace (j =? i)%nat with false by (symmetry; apply Nat.eqb_neq; lia).
        reflexivity.
      * replace (S i <=? i)%nat with false by (symmetry; apply Nat.leb_gt; lia).
        rewrite Nat.leb_refl, Nat.eqb_refl, Nat.sub_diag. cbn [andb nth].
        rewrite Et. reflexivity.
      * replace (S i <=? j)%nat with true by (symmetry; apply Nat.leb_le; lia).
        replace (i <=? j)%nat with true by (symmetry; apply Nat.leb_le; lia).
        replace (j =? i)%nat with false by (symmetry; apply Nat.eqb_neq; lia).
        replace (j - i)%nat with (S (j - S i)) by lia. reflexivity.
    + destruct (IH (S i) localMaxes) as (r & Hr & Hlen & Hnth); [lia|].
      exists r. split; [exact Hr|]. split; [exact Hlen|].
      intros j. rewrite Hnth.
      destruct (Nat.lt_trichotomy j i) as [Hlt | [-> | Hgt]].
      * replace (S i <=? j)%nat with false by (symmetry; apply Nat.leb_gt; lia).
        replace (i <=? j)%nat with false by (symmetry; apply Nat.leb_gt; lia).
        reflexivity.
      * replace (S i <=? i)%nat with false by (symmetry; apply Nat.leb_gt; lia).
        rewrite Nat.leb_refl, Nat.sub_diag. cbn [andb nth].
        rewrite Et. reflexivity.
      * replace (S i <=? j)%nat with true by (symmetry; apply Nat.leb_le; lia).
        replace (i <=? j)%nat with true by (symmetry; apply Nat.leb_le; lia).
        replace (j - i)%nat with (S (j - S i)) by lia. reflexivity.
Qed.

Lemma restrictClasses_beyond (inputTypes : list string) :
  forall (i : nat) (localMaxes : list Z),
  (exists k : nat,
     (List.length localMaxes <= i + k)%nat
     /\ nth_error inputTypes k = Some "class"%string) ->
  BatchFit.restrictClasses inputTypes i localMaxes = Undefined.
Proof.
  induction inputTypes as [|t rest IH]; intros i localMaxes (k & Hk & Hclass).
  - destruct k; discriminate Hclass.
  - cbn [BatchFit.restrictClasses].
    destruct k as [|k].
    + cbn in Hclass. injection Hclass as ->. rewrite String.eqb_refl.
      destruct (i <? List.length localMaxes)%nat eqn:Ei;
        [apply Nat.ltb_lt in Ei; lia | reflexivity].
    + cbn in Hclass.
      destruct (String.eqb t "class").
      * destruct (i <? List.length localMaxes)%nat; [|reflexivity].
        apply IH. exists k. rewrite (assign_length i) by reflexivity.
        split; [lia | exact Hclass].
      * apply IH. exists k. split; [lia | exact Hclass].
Qed.

(** X21.  The cap of the class-label streams.  With no more input types
    than input streams, the maximal lengths keep their count, a stream
    whose type is [class] gets the maximal length 1 and every other
    stream keeps its own.  An input type [class] at an index that no
    input stream has is a write past the end of the vector. *)
Theorem X21_class_streams_are_capped_at_one
    (inputTypes : list string) (localMaxes : list Z) :
  ((List.length inputTypes <= List.length localMaxes)%nat ->
   exists r,
     BatchFit.restrictClasses inputTypes 0 localMaxes = Done r
     /\ List.length r = List.length localMaxes
     /\ forall j : nat,
          nth j r 0
          = if String.eqb (nth j inputTypes ""%string) "class"
            then 1 else nth j localMaxes 0)
  /\ ((exists k : nat,
         (List.length localMaxes <= k)%nat
         /\ nth_error inputTypes k = Some "class"%string) ->
      BatchFit.restrictClasses inputTypes 0 localMaxes = Undefined).
Proof.
  split.
  - intros Hfit.
    destruct (restrictClasses_within inputTypes 0 localMaxes Hfit)
      as (r & Hr & Hlen & Hnth).
    exists r. split; [exact Hr|]. split; [exact Hlen|].
    intros j. rewrite Hnth, Nat.sub_0_r. reflexivity.
  - intros Hbeyond. apply restrictClasses_beyond. exact Hbeyond.
Qed.

Lemma X21_class_streams_are_capped_at_one_witness :
  (exists r,
     BatchFit.restrictClasses ["sequence"; "class"]%string 0 [16; 16] = Done r
     /\ List.length r = 2%nat
     /\ forall j : nat,
          nth j r 0
          = if String.eqb (nth j ["sequence"; "class"]%string ""%string) "class"
            then 1 else nth j [16; 16] 0)
  /\ BatchFit.restrictClasses ["sequence"; "sequence"; "class"]%string 0 [16; 16]
     = Undefined.
Proof.
  split.
  - apply (X21_class_streams_are_capped_at_one ["sequence"; "class"]%string
             [16; 16]).
    cbn. lia.
  - apply (X21_class_streams_are_capped_at_one
             ["sequence"; "sequence"; "class"]%string [16; 16]).
    exists 2%nat. split; [cbn; lia | reflexivity].
Defined.

(** ** Batch-fit probing: the two searches *)

Section SearchFacts.
Variable fits : nat -> list Z -> Z -> bool.
Variable step : Z.
Variable localMaxes : list Z.

Lemma growMaxBatch_first_misfit (first : Z) (k : nat) :
  forall (probes : nat) (maxBatch : Z) (fuel : nat),
  (forall j : nat, (j < k)%nat ->
     fits (probes + j) (map (Z.min first) localMaxes)
          (BatchFit.doubled j maxBatch) = true) ->
  fits (probes + k) (map (Z.min first) localMaxes)
       (BatchFit.doubled k maxBatch) = false ->
  (k < fuel)%nat ->
  BatchFit.growMaxBatch fits localMaxes fuel probes first maxBatch
  = Some ((probes + k + 1)%nat, BatchFit.doubled k maxBatch).
Proof.
  induction k as [|k IH]; intros probes maxBatch fuel Hfit Hmisfit Hfuel;
    (destruct fuel as [|fuel]; [lia|]); cbn [BatchFit.growMaxBatch].
  - cbn in Hmisfit. rewrite Nat.add_0_r in Hmisfit. rewrite Hmisfit.
    replace (probes + 0 + 1)%nat with (S probes) by lia. reflexivity.
  - pose proof (Hfit 0%nat ltac:(lia)) as H0. cbn in H0.
    rewrite Nat.add_0_r in H0. rewrite H0.
    rewrite (IH (S probes) (SizeT.mul maxBatch 2) fuel).
    + unfold BatchFit.doubled. rewrite Nat.iter_succ_r.
      replace (S probes + k + 1)%nat with (probes + S k + 1)%nat by lia.
      reflexivity.
    + intros j Hj. specialize (Hfit (S j) ltac:(lia)).
      unfold BatchFit.doubled in *. rewrite Nat.iter_succ_r in Hfit.
      replace (S probes + j)%nat with (probes + S j)%nat by lia. exact Hfit.
    + unfold BatchFit.doubled in *. rewrite Nat.iter_succ_r in Hmisfit.
      replace (S probes + k)%nat with (probes + S k)%nat by lia. exact Hmisfit.
    + lia.
Qed.

Lemma searchBucket_outcome (lengths : list Z) (fuel : nat) :
  forall (probes : nat) (start end_ : Z) (stats : BatchFit.Stats)
         (p : nat) (s e : Z) (st : BatchFit.Stats),
  1 <= step ->
  0 <= start -> start + 2 <= end_ -> end_ <= 2 ^ 63 ->
  BatchFit.searchBucket fits step fuel probes lengths start end_ stats
  = Some (p, s, e, st) ->
  start <= s /\ s <= e /\ e <= end_ /\ e - s <= step /\ (probes < p)%nat
  /\ exists added,
       st = stats ++ added
       /\ Forall (fun a =>
                    fst a = lengths /\ start <= snd a < s
                    /\ exists q, (probes <= q < p)%nat
                                 /\ fits q lengths (snd a) = true) added
       /\ (s = start \/ In (lengths, s - 1) added).
Proof.
  induction fuel as [|fuel IH];
    intros probes start end_ stats p s e st Hstep H0 H2 Hmax Hrun;
    [discriminate Hrun|].
  cbn [BatchFit.searchBucket] in Hrun. cbv zeta in Hrun.
  pose proof (midpoint_bounds start end_ H2) as Hmid.
  assert (Hsum : SizeT.add start end_ = start + end_)
    by (apply wrap_small; unfold SizeT.inRange, SizeT.modulus; lia).
  rewrite Hsum in Hrun.
  set (current := (start + end_) / 2) in *.
  destruct (fits probes lengths current) eqn:Hfit.
  - unfold SizeT.add, SizeT.sub in Hrun.
    rewrite (wrap_small (current + 1)) in Hrun
      by (unfold SizeT.inRange, SizeT.modulus; lia).
    rewrite (wrap_small (end_ - (current + 1))) in Hrun
      by (unfold SizeT.inRange, SizeT.modulus; lia).
    destruct (step <? end_ - (current + 1)) eqn:E.
    + apply Z.ltb_lt in E.
      destruct (IH (S probes) (current + 1) end_ _ p s e st Hstep
                  ltac:(lia) ltac:(lia) Hmax Hrun)
        as (Hs & Hse & He & Hgap & Hp & added & Hst & Hall & Hlast).
      repeat split; try lia.
      exists ((lengths, current) :: added).
      split; [rewrite Hst, <- app_assoc; reflexivity|].
      split.
      * constructor.
        -- cbn. repeat split; try lia. exists probes. split; [lia | exact Hfit].
        -- eapply Forall_impl; [|exact Hall].
           intros a (Ha & Hb & q & Hq & Hfits).
           repeat split; try assumption; try lia.
           exists q. split; [lia | exact Hfits].
      * destruct Hlast as [-> | Hin].
        -- right. left. f_equal. lia.
        -- right. right. exact Hin.
    + apply Z.ltb_ge in E. injection Hrun as <- <- <- <-.
      repeat split; try lia.
      exists [(lengths, current)]. split; [reflexivity|]. split.
      * constructor; [|constructor].
        cbn. repeat split; try lia. exists probes. split; [lia | exact Hfit].
      * right. left. f_equal. lia.
  - unfold SizeT.sub in Hrun.
    rewrite (wrap_small (current - 1)) in Hrun
      by (unfold SizeT.inRange, SizeT.modulus; lia).
    rewrite (wrap_small (current - 1 - start)) in Hrun
      by (unfold SizeT.inRange, SizeT.modulus; lia).
    destruct (step <? current - 1 - start) eqn:E.
    + apply Z.ltb_lt in E.
      destruct (IH (S probes) start (current - 1) _ p s e st Hstep
                  H0 ltac:(lia) ltac:(lia) Hrun)
        as (Hs & Hse & He & Hgap & Hp & added & Hst & Hall & Hlast).
      repeat split; try lia.
      exists added. split; [exact Hst|]. split; [|exact Hlast].
      eapply Forall_impl; [|exact Hall].
      intros a (Ha & Hb & q & Hq & Hfits).
      repeat split; try assumption; try lia.
      exists q. split; [lia | exact Hfits].
    + apply Z.ltb_ge in E. injection Hrun as <- <- <- <-.
      repeat split; try lia.
      exists []. split; [rewrite app_nil_r; reflexivity|].
      split; [constructor | left; reflexivity].
Qed.
End SearchFacts.

Lemma searchBucket_with_capacity (cap low step : Z) (lengths : list Z)
    (fuel : nat) :
  forall (probes : nat) (start end_ : Z) (stats : BatchFit.Stats),
  1 <= step ->
  0 <= start -> start + 2 <= end_ -> end_ <= 2 ^ 63 ->
  end_ - start <= Z.of_nat fuel ->
  start <= cap + 1 -> low <= cap -> low <= end_ ->
  exists p s e st,
    BatchFit.searchBucket (BatchFit.fitsUpTo cap) step fuel probes lengths
      start end_ stats = Some (p, s, e, st)
    /\ s <= cap + 1 /\ low <= e /\ e - s <= step.
Proof.
  induction fuel as [|fuel IH];
    intros probes start end_ stats Hstep H0 H2 Hmax Hfuel Hstart Hlow Hend;
    [cbn in Hfuel; lia|].
  cbn [BatchFit.searchBucket]. cbv zeta.
  pose proof (midpoint_bounds start end_ H2) as Hmid.
  assert (Hsum : SizeT.add start end_ = start + end_)
    by (apply wrap_small; unfold SizeT.inRange, SizeT.modulus; lia).
  rewrite Hsum.
  set (current := (start + end_) / 2) in *.
  change (BatchFit.fitsUpTo cap probes lengths current) with (current <=? cap).
  destruct (current <=? cap) eqn:Hfit.
  - apply Z.leb_le in Hfit. unfold SizeT.add, SizeT.sub.
    rewrite (wrap_small (current + 1))
      by (unfold SizeT.inRange, SizeT.modulus; lia).
    rewrite (wrap_small (end_ - (current + 1)))
      by (unfold SizeT.inRange, SizeT.modulus; lia).
    destruct (step <? end_ - (current + 1)) eqn:E.
    + apply Z.ltb_lt in E. apply IH; lia.
    + apply Z.ltb_ge in E. do 4 eexists. split; [reflexivity|]. lia.
  - apply Z.leb_gt in Hfit. unfold SizeT.sub.
    rewrite (wrap_small (current - 1))
      by (unfold SizeT.inRange, SizeT.modulus; lia).
    rewrite (wrap_small (current - 1 - start))
      by (unfold SizeT.inRange, SizeT.modulus; lia).
    destruct (step <? current - 1 - start) eqn:E.
    + apply Z.ltb_lt in E. apply IH; lia.
    + apply Z.ltb_ge in E. do 4 eexists. split; [reflexivity|]. lia.
Qed.

(** X22.  The doubling phase returns the first size of the sequence
    [maxBatch, 2 maxBatch, 4 maxBatch, ...] (in [size_t] arithmetic) that
    does not fit, after one probe per size tried: every smaller size of
    the sequence fitted, the returned one did not. *)
Theorem X22_doubling_returns_the_first_size_that_does_not_fit
    (fits : nat -> list Z -> Z -> bool) (localMaxes : list Z)
    (first : Z) (k probes : nat) (maxBatch : Z) (fuel : nat) :
  (forall j : nat, (j < k)%nat ->
     fits (probes + j)%nat (map (Z.min first) localMaxes)
          (BatchFit.doubled j maxBatch) = true) ->
  fits (probes + k)%nat (map (Z.min first) localMaxes)
       (BatchFit.doubled k maxBatch) = false ->
  (k < fuel)%nat ->
  BatchFit.growMaxBatch fits localMaxes fuel probes first maxBatch
  = Some ((probes + k + 1)%nat, BatchFit.doubled k maxBatch).
Proof.
  intros Hfit Hmisfit Hfuel.
  apply growMaxBatch_first_misfit; assumption.
Qed.

Lemma X22_doubling_returns_the_first_size_that_does_not_fit_witness :
  BatchFit.growMaxBatch (BatchFit.fitsUpTo 1500) [16; 16] 10 0 8 512
  = Some (3%nat, 2048).
Proof.
  apply (X22_doubling_returns_the_first_size_that_does_not_fit
           (BatchFit.fitsUpTo 1500) [16; 16] 8 2 0 512 10).
  - intros [|[|j]] Hj; [reflexivity | reflexivity | lia].
  - reflexivity.
  - lia.
Defined.

(** X23.  What a bucket's search hands back when it is entered with
    [start + 2 <= end <= 2^63] and a step of at least 1: bounds with
    [start <= start' <= end' <= end] that are at most a step apart; the
    statistics it had, followed by entries for this bucket only, each of
    a size that the engine said fits and that is below [start']; and
    [start'] is the old [start] or one more than a size recorded here. *)
Theorem X23_search_narrows_the_window_to_a_step
    (fits : nat -> list Z -> Z -> bool) (step : Z) (lengths : list Z)
    (fuel probes : nat) (start end_ : Z) (stats : BatchFit.Stats)
    (p : nat) (s e : Z) (st : BatchFit.Stats) :
  1 <= step ->
  0 <= start -> start + 2 <= end_ -> end_ <= 2 ^ 63 ->
  BatchFit.searchBucket fits step fuel probes lengths start end_ stats
  = Some (p, s, e, st) ->
  start <= s /\ s <= e /\ e <= end_ /\ e - s <= step /\ (probes < p)%nat
  /\ exists added,
       st = stats ++ added
       /\ Forall (fun a =>
                    fst a = lengths /\ start <= snd a < s
                    /\ exists q, (probes <= q < p)%nat
                                 /\ fits q lengths (snd a) = true) added
       /\ (s = start \/ In (lengths, s - 1) added).
Proof.
  intros Hstep H0 H2 Hmax Hrun.
  eapply searchBucket_outcome; eassumption.
Qed.

Lemma X23_search_narrows_the_window_to_a_step_witness :
  1 <= 65 /\ 65 <= 71 /\ 71 <= 512 /\ 71 - 65 <= 8 /\ (1 < 7)%nat
  /\ exists added,
       [([8; 8], 64)] = [] ++ added
       /\ Forall (fun a =>
                    fst a = [8; 8] /\ 1 <= snd a < 65
                    /\ exists q, (1 <= q < 7)%nat
                                 /\ BatchFit.fitsUpTo 64 q [8; 8] (snd a) = true)
                 added
       /\ (65 = 1 \/ In ([8; 8], 65 - 1) added).
Proof.
  apply (X23_search_narrows_the_window_to_a_step (BatchFit.fitsUpTo 64) 8
           [8; 8] 20 1 1 512 [] 7 65 71 [([8; 8], 64)]); try lia.
  reflexivity.
Defined.

(** X24.  On an engine that a batch fits exactly when it has at most
    [cap] sentences, a bucket's search entered with an upper bound
    [maxBatch] between 3 and [2^63] ends, and the bound it returns is
    within a step of the truth: it is at most [cap + 1] and at least the
    smaller of [cap] and [maxBatch], less the step. *)
Theorem X24_search_finds_the_capacity_up_to_a_step
    (cap step : Z) (lengths : list Z) (probes : nat) (maxBatch : Z)
    (stats : BatchFit.Stats) :
  1 <= step -> 0 <= cap -> 3 <= maxBatch <= 2 ^ 63 ->
  exists p s e st,
    BatchFit.searchBucket (BatchFit.fitsUpTo cap) step (Z.to_nat maxBatch)
      probes lengths 1 maxBatch stats = Some (p, s, e, st)
    /\ Z.min cap maxBatch - step <= s <= cap + 1.
Proof.
  intros Hstep Hcap Hbound.
  destruct (searchBucket_with_capacity cap (Z.min cap maxBatch) step lengths
              (Z.to_nat maxBatch) probes 1 maxBatch stats)
    as (p & s & e & st & Hrun & Hs & He & Hgap); try lia.
  exists p, s, e, st. split; [exact Hrun | lia].
Qed.

Lemma X24_search_finds_the_capacity_up_to_a_step_witness :
  exists p s e st,
    BatchFit.searchBucket (BatchFit.fitsUpTo 64) 8 (Z.to_nat 512)
      1 [8; 8] 1 512 [] = Some (p, s, e, st)
    /\ Z.min 64 512 - 8 <= s <= 64 + 1.
Proof.
  apply (X24_search_finds_the_capacity_up_to_a_step 64 8 [8; 8] 1 512 []); lia.
Defined.

(** ** Reading a text line by line *)

Lemma extract_line (line rest : list ascii) : forall acc : list ascii,
  InputFileStream.hasLF line = false ->
  FileStream.extract
    (FileStream.sourceOf (line ++ FileStream.LF :: rest)) acc
  = (FileStream.sourceOf rest, acc ++ line, FileStream.AtDelimiter).
Proof.
  induction line as [|c line IH]; intros acc Hno.
  - cbn. rewrite app_nil_r. reflexivity.
  - unfold InputFileStream.hasLF in Hno. cbn [existsb] in Hno.
    apply orb_false_elim in Hno. destruct Hno as [Hc Hline].
    cbn [app FileStream.sourceOf FileStream.extract].
    rewrite Ascii.eqb_sym, Hc. rewrite IH by exact Hline.
    rewrite <- app_assoc. reflexivity.
Qed.

Lemma extract_to_end (line : list ascii) : forall acc : list ascii,
  InputFileStream.hasLF line = false ->
  FileStream.extract (FileStream.sourceOf line) acc
  = (FileStream.Eof, acc ++ line, FileStream.AtEof).
Proof.
  induction line as [|c line IH]; intros acc Hno.
  - cbn. rewrite app_nil_r. reflexivity.
  - unfold InputFileStream.hasLF in Hno. cbn [existsb] in Hno.
    apply orb_false_elim in Hno. destruct Hno as [Hc Hline].
    cbn [FileStream.sourceOf FileStream.extract].
    rewrite Ascii.eqb_sym, Hc. rewrite IH by exact Hline.
    rewrite <- app_assoc. reflexivity.
Qed.

Lemma endsInCR_snoc (body : list ascii) (c : ascii) :
  InputFileStream.endsInCR (body ++ [c]) = Ascii.eqb c FileStream.CR.
Proof. unfold InputFileStream.endsInCR. rewrite rev_app_distr. reflexivity. Qed.

(** A line that does not end in a carriage return is returned whole. *)
Lemma keeps_line_without_CR (line : list ascii) :
  InputFileStream.endsInCR line = false ->
  (negb (FileStream.empty line)
   && Ascii.eqb (FileStream.back line) FileStream.CR) = false.
Proof.
  intros Hcr. destruct line as [|c line] using rev_ind; [reflexivity|].
  rewrite endsInCR_snoc in Hcr.
  rewrite back_of_snoc, Hcr. apply andb_false_r.
Qed.

Lemma getline_unix_line (line rest old : list ascii) :
  InputFileStream.hasLF line = false ->
  InputFileStream.endsInCR line = false ->
  FileStream.getline
    (FileStream.streamOf (line ++ FileStream.LF :: rest)) old
  = Done (FileStream.streamOf rest, line).
Proof.
  intros Hno Hcr. unfold FileStream.getline, FileStream.std_getline.
  cbn [FileStream.good FileStream.streamOf FileStream.eofbit
       FileStream.failbit FileStream.badbit orb negb FileStream.rdbuf].
  rewrite extract_line by exact Hno. cbn [app].
  cbn [FileStream.bad FileStream.badbit FileStream.to_bool FileStream.fail
       FileStream.failbit orb negb andb].
  rewrite keeps_line_without_CR by exact Hcr. reflexivity.
Qed.

Lemma hasLF_snoc_CR (line : list ascii) :
  InputFileStream.hasLF (line ++ [FileStream.CR]) = InputFileStream.hasLF line.
Proof.
  unfold InputFileStream.hasLF. rewrite existsb_app.
  change (existsb (Ascii.eqb FileStream.LF) [FileStream.CR]) with false.
  apply orb_false_r.
Qed.

Lemma getline_windows_line (line rest old : list ascii) :
  InputFileStream.hasLF line = false ->
  FileStream.getline
    (FileStream.streamOf
       (line ++ FileStream.CR :: FileStream.LF :: rest)) old
  = Done (FileStream.streamOf rest, line).
Proof.
  intros Hno. unfold FileStream.getline, FileStream.std_getline.
  cbn [FileStream.good FileStream.streamOf FileStream.eofbit
       FileStream.failbit FileStream.badbit orb negb FileStream.rdbuf].
  replace (line ++ FileStream.CR :: FileStream.LF :: rest)
    with ((line ++ [FileStream.CR]) ++ FileStream.LF :: rest)
    by (rewrite <- app_assoc; reflexivity).
  rewrite extract_line by (rewrite hasLF_snoc_CR; exact Hno). cbn [app].
  cbn [FileStream.bad FileStream.badbit FileStream.to_bool FileStream.fail
       FileStream.failbit orb negb andb].
  rewrite empty_of_snoc, back_of_snoc, pop_back_of_snoc, Ascii.eqb_refl.
  reflexivity.
Qed.

(** X25.  A text with Windows line ends reads like the same text with
    Unix line ends: for lines that hold no line feed and do not end in a
    carriage return of their own, as many calls of [getline] as there are
    lines return exactly those lines, from either text, and leave the
    stream at its end with no flag set. *)
Theorem X25_windows_and_unix_texts_read_alike
    (lines : list (list ascii)) (old : list ascii) :
  Forall (fun line => InputFileStream.hasLF line = false
                      /\ InputFileStream.endsInCR line = false) lines ->
  InputFileStream.getlines (List.length lines)
    (FileStream.streamOf
       (InputFileStream.text [FileStream.CR; FileStream.LF] lines)) old
  = Done (lines, FileStream.streamOf [])
  /\ InputFileStream.getlines (List.length lines)
       (FileStream.streamOf (InputFileStream.text [FileStream.LF] lines)) old
     = Done (lines, FileStream.streamOf []).
Proof.
  intros Hlines. revert old.
  induction Hlines as [|line lines [Hno Hcr] _ IH]; intros old.
  - split; reflexivity.
  - destruct (IH line) as [Hwindows Hunix].
    cbn [List.length InputFileStream.getlines InputFileStream.text flat_map].
    split.
    + rewrite <- app_assoc. cbn [app].
      rewrite getline_windows_line by exact Hno. cbn [bindRes].
      unfold InputFileStream.text in Hwindows. rewrite Hwindows. reflexivity.
    + rewrite <- app_assoc. cbn [app].
      rewrite getline_unix_line by assumption. cbn [bindRes].
      unfold InputFileStream.text in Hunix. rewrite Hunix. reflexivity.
Qed.

Lemma X25_windows_and_unix_texts_read_alike_witness :
  InputFileStream.getlines 2
    (FileStream.streamOf
       (InputFileStream.text [FileStream.CR; FileStream.LF]
          [["a"; "b"]; []]%char)) []
  = Done ([["a"; "b"]; []]%char, FileStream.streamOf [])
  /\ InputFileStream.getlines 2
       (FileStream.streamOf
          (InputFileStream.text [FileStream.LF] [["a"; "b"]; []]%char)) []
     = Done ([["a"; "b"]; []]%char, FileStream.streamOf []).
Proof.
  apply (X25_windows_and_unix_texts_read_alike [["a"; "b"]; []]%char []).
  repeat constructor.
Defined.

(** X26.  The last line of a file that does not end in a line feed is
    returned like any other (a closing carriage return removed), with
    [eofbit] set and the read counted as a success; the call after it
    fails and leaves the caller's line as it was. *)
Theorem X26_last_line_without_line_feed
    (line old : list ascii) :
  line <> [] ->
  InputFileStream.hasLF line = false ->
  let atEnd :=
    {| FileStream.rdbuf := FileStream.Eof; FileStream.eofbit := true;
       FileStream.failbit := false; FileStream.badbit := false |} in
  let failed :=
    {| FileStream.rdbuf := FileStream.Eof; FileStream.eofbit := true;
       FileStream.failbit := true; FileStream.badbit := false |} in
  let returned :=
    if InputFileStream.endsInCR line then FileStream.pop_back line else line in
  FileStream.getline (FileStream.streamOf line) old = Done (atEnd, returned)
  /\ FileStream.to_bool atEnd = true
  /\ FileStream.getline atEnd returned = Done (failed, returned)
  /\ FileStream.to_bool failed = false.
Proof.
  intros Hsome Hno atEnd failed returned.
  split; [|repeat split].
  unfold FileStream.getline, FileStream.std_getline.
  cbn [FileStream.good FileStream.streamOf FileStream.eofbit
       FileStream.failbit FileStream.badbit orb negb FileStream.rdbuf].
  rewrite extract_to_end by exact Hno. cbn [app].
  destruct line as [|c line] using rev_ind; [contradiction|].
  assert (Hne : match line ++ [c] with [] => true | _ :: _ => false end = false)
    by (destruct line; reflexivity).
  rewrite Hne.
  cbn [FileStream.bad FileStream.badbit FileStream.to_bool FileStream.fail
       FileStream.failbit orb negb andb].
  subst returned. rewrite endsInCR_snoc, empty_of_snoc, back_of_snoc.
  cbn [negb andb].
  destruct (Ascii.eqb c FileStream.CR); reflexivity.
Qed.

Lemma X26_last_line_without_line_feed_witness :
  FileStream.getline (FileStream.streamOf ["a"%char; FileStream.CR]) []
  = Done ({| FileStream.rdbuf := FileStream.Eof; FileStream.eofbit := true;
             FileStream.failbit := false; FileStream.badbit := false |},
          ["a"%char])
  /\ FileStream.getline
       {| FileStream.rdbuf := FileStream.Eof; FileStream.eofbit := true;
          FileStream.failbit := false; FileStream.badbit := false |}
       ["a"%char]
     = Done ({| FileStream.rdbuf := FileStream.Eof; FileStream.eofbit := true;
                FileStream.failbit := true; FileStream.badbit := false |},
             ["a"%char]).
Proof.
  destruct (X26_last_line_without_line_feed ["a"%char; FileStream.CR] [])
    as (Hlast & _ & Hnext & _).
  - discriminate.
  - reflexivity.
  - split; [exact Hlast | exact Hnext].
Defined.

(** ** The stream's [empty] and the next line *)

Lemma extract_grows (src : FileStream.Source) :
  forall (acc : list ascii) (rest : FileStream.Source) (line : list ascii)
         (stop : FileStream.Stop),
  FileStream.extract src acc = (rest, line, stop) ->
  exists more, line = acc ++ more.
Proof.
  induction src as [| |c src IH]; intros acc rest line stop Hrun.
  - injection Hrun as <- <- <-. exists []. rewrite app_nil_r. reflexivity.
  - injection Hrun as <- <- <-. exists []. rewrite app_nil_r. reflexivity.
  - cbn [FileStream.extract] in Hrun.
    destruct (Ascii.eqb c FileStream.LF).
    + injection Hrun as <- <- <-. exists []. rewrite app_nil_r. reflexivity.
    + destruct (IH _ _ _ _ Hrun) as [more ->].
      exists (c :: more). rewrite <- app_assoc. reflexivity.
Qed.

Lemma good_flags (s : FileStream.istream) :
  FileStream.good s = true ->
  FileStream.eofbit s = false /\ FileStream.failbit s = false
  /\ FileStream.badbit s = false.
Proof.
  unfold FileStream.good.
  destruct (FileStream.eofbit s), (FileStream.failbit s), (FileStream.badbit s);
    cbn; intros H; try discriminate H; auto.
Qed.

(** X27.  On a stream with no flag set, [empty] answers whether a
    character is left, without taking it.  If one is left, the next
    [getline] succeeds (or aborts on a read error): it never comes back
    failed.  If none is left, [empty] sets [eofbit], and the next
    [getline] fails and leaves the caller's line as it was. *)
Theorem X27_empty_tells_whether_a_line_is_left
    (s : FileStream.istream) (line : list ascii) :
  FileStream.good s = true ->
  (forall c rest,
     FileStream.rdbuf s = FileStream.Chr c rest ->
     InputFileStream.empty s = (false, s)
     /\ ((exists s' line',
            FileStream.getline s line = Done (s', line')
            /\ FileStream.to_bool s' = true)
         \/ FileStream.getline s line = Fatal "Error reading from stream"))
  /\ (FileStream.rdbuf s = FileStream.Eof ->
      exists s',
        InputFileStream.empty s = (true, s')
        /\ FileStream.eofbit s' = true
        /\ exists s'',
             FileStream.getline s' line = Done (s'', line)
             /\ FileStream.to_bool s'' = false).
Proof.
  intros Hgood. destruct (good_flags s Hgood) as (Heof & Hfail & Hbad).
  split.
  - intros c rest Hbuf. split.
    + unfold InputFileStream.empty, InputFileStream.peek.
      rewrite Hgood, Hbuf. reflexivity.
    + unfold FileStream.getline, FileStream.std_getline.
      rewrite Hgood, Hbuf. cbn [negb].
      destruct (FileStream.extract (FileStream.Chr c rest) [])
        as [[left line'] stop] eqn:Hrun.
      destruct stop.
      * left. cbn [FileStream.bad FileStream.badbit FileStream.to_bool
                   FileStream.fail FileStream.failbit orb negb andb].
        destruct (negb (FileStream.empty line')
                  && Ascii.eqb (FileStream.back line') FileStream.CR);
          do 2 eexists; split; reflexivity.
      * left. cbn [FileStream.extract] in Hrun.
        destruct (Ascii.eqb c FileStream.LF); [discriminate Hrun|].
        destruct (extract_grows _ _ _ _ _ Hrun) as [more ->].
        cbn [app FileStream.bad FileStream.badbit FileStream.to_bool
             FileStream.fail FileStream.failbit orb negb andb].
        destruct (negb (FileStream.empty (c :: more))
                  && Ascii.eqb (FileStream.back (c :: more)) FileStream.CR);
          do 2 eexists; split; reflexivity.
      * right. reflexivity.
  - intros Hbuf.
    unfold InputFileStream.empty, InputFileStream.peek.
    rewrite Hgood, Hbuf. cbn [negb].
    eexists. split; [reflexivity|]. split; [reflexivity|].
    unfold FileStream.getline, FileStream.std_getline.
    cbn [FileStream.good FileStream.eofbit FileStream.failbit
         FileStream.badbit orb negb].
    rewrite Hbad. cbn [FileStream.bad FileStream.badbit FileStream.to_bool
                       FileStream.fail FileStream.failbit orb negb andb].
    eexists. split; reflexivity.
Qed.

Lemma X27_empty_tells_whether_a_line_is_left_witness :
  (InputFileStream.empty (FileStream.streamOf ["a"%char]) 
   = (false, FileStream.streamOf ["a"%char])
   /\ ((exists s' line',
          FileStream.getline (FileStream.streamOf ["a"%char]) [] = Done (s', line')
          /\ FileStream.to_bool s' = true)
       \/ FileStream.getline (FileStream.streamOf ["a"%char]) []
          = Fatal "Error reading from stream"))
  /\ exists s',
       InputFileStream.empty (FileStream.streamOf []) = (true, s')
       /\ FileStream.eofbit s' = true
       /\ exists s'',
            FileStream.getline s' ["z"%char] = Done (s'', ["z"%char])
            /\ FileStream.to_bool s'' = false.
Proof.
  split.
  - destruct (X27_empty_tells_whether_a_line_is_left
                (FileStream.streamOf ["a"%char]) [] eq_refl) as [Hleft _].
    apply (Hleft "a"%char FileStream.Eof). reflexivity.
  - destruct (X27_empty_tells_whether_a_line_is_left
                (FileStream.streamOf []) ["z"%char] eq_refl) as [_ Hnone].
    apply Hnone. reflexivity.
Defined.

(** ** The prefix of a temporary file *)

Lemma get_after (s : string) (c : ascii) :
  String.get (String.length s) (s ++ String c "") = Some c.
Proof. induction s as [|d s IH]; cbn; [reflexivity | exact IH]. Qed.

Lemma lastChar_snoc (s : string) (c : ascii) :
  TemporaryFile.lastChar (s ++ String c "") = Some c.
Proof.
  unfold TemporaryFile.lastChar. rewrite length_append. cbn [String.length].
  replace (String.length s + 1 - 1)%nat with (String.length s) by lia.
  apply get_after.
Qed.

Lemma lastChar_some (s : string) :
  s <> ""%string -> exists c, TemporaryFile.lastChar s = Some c.
Proof.
  unfold TemporaryFile.lastChar.
  induction s as [|d s IH]; intros Hne; [contradiction|].
  cbn [String.length]. rewrite Nat.sub_succ, Nat.sub_0_r.
  destruct s as [|e s].
  - exists d. reflexivity.
  - destruct IH as [c Hc]; [discriminate|].
    exists c. cbn [String.length] in *.
    rewrite Nat.sub_succ, Nat.sub_0_r in Hc. exact Hc.
Qed.

Lemma snoc_not_empty (s : string) (c : ascii) :
  String.eqb (s ++ String c "") "" = false.
Proof. destruct s; reflexivity. Qed.

(** X28.  [NormalizeTempPrefix] appends at most one slash and is
    idempotent: the result is the prefix or the prefix with a slash
    after it, normalizing the result changes nothing, and a prefix that
    names a directory comes back ending in a slash.  An empty prefix
    stays empty. *)
Theorem X28_temp_prefix_is_normalized_once
    (stat : string -> option bool) (base : string) :
  let normal := TemporaryFile.NormalizeTempPrefix stat base in
  TemporaryFile.NormalizeTempPrefix stat normal = normal
  /\ (normal = base \/ normal = (base ++ "/")%string)
  /\ (base <> ""%string -> stat base = Some true ->
      TemporaryFile.lastChar normal = Some "/"%char)
  /\ (base = ""%string -> normal = ""%string).
Proof.
  cbv zeta.
  assert (Hslash : TemporaryFile.NormalizeTempPrefix stat (base ++ "/")
                   = (base ++ "/")%string).
  { unfold TemporaryFile.NormalizeTempPrefix.
    rewrite snoc_not_empty, lastChar_snoc. reflexivity. }
  unfold TemporaryFile.NormalizeTempPrefix at 2 3 4 5 6.
  destruct (String.eqb base "") eqn:Hempty.
  - apply String.eqb_eq in Hempty. subst base.
    repeat split; auto. intros H. contradiction.
  - apply String.eqb_neq in Hempty.
    destruct (lastChar_some base Hempty) as [c Hc]. rewrite Hc.
    destruct (Ascii.eqb c "/") eqn:Ec.
    + apply Ascii.eqb_eq in Ec. subst c.
      assert (Hsame : TemporaryFile.NormalizeTempPrefix stat base = base).
      { unfold TemporaryFile.NormalizeTempPrefix.
        rewrite (proj2 (String.eqb_neq _ _) Hempty), Hc. reflexivity. }
      repeat split; auto. intros H. contradiction.
    + assert (Hsame : forall answer,
                stat base = answer ->
                (answer = None \/ answer = Some false) ->
                TemporaryFile.NormalizeTempPrefix stat base = base).
      { intros answer Hstat Hcase.
        unfold TemporaryFile.NormalizeTempPrefix.
        rewrite (proj2 (String.eqb_neq _ _) Hempty), Hc, Ec, Hstat.
        destruct Hcase as [-> | ->]; reflexivity. }
      destruct (stat base) as [[|]|] eqn:Hstat.
      * repeat split; auto.
        -- intros _ _. apply lastChar_snoc.
        -- intros H. contradiction.
      * repeat split; auto; try (intros; congruence).
        apply (Hsame (Some false)); auto.
      * repeat split; auto; try (intros; congruence).
        apply (Hsame None); auto.
Qed.

Lemma X28_temp_prefix_is_normalized_once_witness :
  TemporaryFile.NormalizeTempPrefix Examples.onlyTmp "/tmp/" = "/tmp/"%string
  /\ TemporaryFile.NormalizeTempPrefix Examples.onlyTmp "/tmp" = "/tmp/"%string
  /\ TemporaryFile.lastChar "/tmp/" = Some "/"%char.
Proof.
  destruct (X28_temp_prefix_is_normalized_once Examples.onlyTmp "/tmp")
    as (Hagain & _ & Hdir & _).
  split; [exact Hagain|]. split; [reflexivity|].
  apply Hdir; [discriminate | reflexivity].
Defined.

(** ** Edge cases of the probe and of the load *)

Lemma roundUpMaxLength_step_zero (maxLength : Z) :
  BatchFit.roundUpMaxLength maxLength 0 = None.
Proof.
  unfold BatchFit.roundUpMaxLength.
  change (F32.of_Z 0) with (S754_zero false).
  destruct (F32.of_Z maxLength) as [s | s | | s m e]; reflexivity.
Qed.

(** X29.  With [mini-batch-fit-step] set to 0 the probe divides the
    maximal length by zero in floating point, multiplies by zero and
    converts the NaN it gets to [size_t]: the behaviour is undefined
    before the engine is asked anything, whatever the maximal length. *)
Theorem X29_probe_with_step_zero_is_undefined
    (fuel : nat) (options_ : Options)
    (fits : nat -> list Z -> Z -> bool) (getThrowNaN : bool) :
  mini_batch_fit_step options_ = 0 ->
  BatchFit.collectStats fuel options_ fits getThrowNaN = Some Undefined.
Proof.
  intros Hzero. unfold BatchFit.collectStats. rewrite Hzero. cbv zeta.
  rewrite roundUpMaxLength_step_zero. reflexivity.
Qed.

Lemma X29_probe_with_step_zero_is_undefined_witness :
  BatchFit.collectStats 10 Examples.zeroStep BatchFit.neverFits true
  = Some Undefined.
Proof.
  exact (X29_probe_with_step_zero_is_undefined 10 Examples.zeroStep
           BatchFit.neverFits true eq_refl).
Defined.

(** X30.  A reload without a model file never looks at the checkpoint,
    even if one is there: with a pre-trained model named, every replica
    gets its weights, loaded with [markReloaded] off, and nothing else
    happens; with none named, nothing happens at all. *)
Theorem X30_missing_model_file_skips_the_checkpoint
    (convertBytes : io.Type_ -> io.Type_ -> io.Data -> io.Data)
    (fs : Checkpoint.FileSystem) (options_ : Options)
    (this : Checkpoint.GraphGroup) :
  no_reload options_ = false ->
  Checkpoint.filesystem_exists fs (model options_) = false ->
  (List.length (Checkpoint.graphs_ this)
   <= List.length (Checkpoint.models_ this))%nat ->
  Checkpoint.load convertBytes fs options_ this
  = if hasAndNotEmpty (pretrained_model options_)
    then (Checkpoint.LOG Checkpoint.info
            "[training] Initializing model weights with pre-trained model {}"
          :: Traces.loadTrace (Checkpoint.models_ this) 0
               (List.length (Checkpoint.graphs_ this))
               (pretrained_model options_) (Some false), Done tt)
    else ([], Done tt).
Proof.
  intros Hreload Hfile Hmodels. unfold Checkpoint.load.
  rewrite Hreload, Hfile. cbn [negb].
  destruct (hasAndNotEmpty (pretrained_model options_)); [|reflexivity].
  cbv zeta. rewrite loadReplicas_enough_models by (cbn; lia).
  reflexivity.
Qed.

Lemma X30_missing_model_file_skips_the_checkpoint_witness :
  Checkpoint.load Checkpoint.keepBytes Examples.checkpointOnly
    Checkpoint.reloadingOptions Checkpoint.exampleGroup
  = ([Checkpoint.LOG Checkpoint.info
        "[training] Initializing model weights with pre-trained model {}";
      Checkpoint.ModelLoad (Checkpoint.model_ 0) 0 "pretrained.npz" (Some false);
      Checkpoint.ModelLoad (Checkpoint.model_ 1) 1 "pretrained.npz" (Some false)],
     Done tt).
Proof.
  apply (X30_missing_model_file_skips_the_checkpoint Checkpoint.keepBytes
           Examples.checkpointOnly Checkpoint.reloadingOptions
           Checkpoint.exampleGroup).
  - reflexivity.
  - reflexivity.
  - cbn. lia.
Defined.
